(** * The evaluation engine of [prompt/teaching_evaluator.py]

    A shallow embedding of [TeachingPromptEvaluator] (the per-sample judge
    and the score aggregation of [evaluate]), of the stratified sampler
    [sample_balanced_cases] and of the preparation of the corpus
    ([load_error_database], [prepare_teaching_dataset],
    [generate_code_example], [prepare_default_dataset]), with the
    properties the specification states about them and further properties
    read off the code.

    Conventions of the embedding.
    - Python [str] values are [string]s holding the UTF-8 bytes of the text.
    - Python [float] scores are exact rationals ([Q]); every literal of the
      source ([0.5], [0.7], [0.85], the weights) is a finite decimal and is
      written as such.  Rounding, infinities and NaN are outside the model,
      and so is an integer of the grader too large for a float; [Binary64]
      replays the numeric scenarios of the specification in IEEE double
      precision, the extremes of the composite score and a case in which
      the composite is rounded.
    - The language model behind [llm_interface.invoke] is a script: the
      reply to the [k]-th call of a run.  The call counter is the state that
      [evaluate] threads through its loop.
    - [re], [json], [str.strip] and [random] are library code.  They enter
      through the interfaces [PyText] and [PyRandom]; the general theorems
      hold for every implementation, and [AsciiText] and [LcgRandom] are
      executable instances for the concrete scenarios.
    - [pandas] is library code as well: a frame is the list of its rows,
      and what [read_csv] finds on the disk is a parameter.
    - Console output and [time.sleep] are not modelled. *)

From Stdlib Require Import Bool Arith ZArith QArith Lia Lqa.
From Stdlib Require Import List String Ascii Permutation Sorted.
From Stdlib Require PrimFloat DecimalString.
Import ListNotations.

Local Open Scope string_scope.
Local Open Scope list_scope.

Set Implicit Arguments.

(* ================================================================== *)
(** ** Python values and exceptions *)

Inductive exn_kind : Type :=
| ZeroDivisionError
| TypeError
| ValueError
| OtherError.

(** A raised exception: its class and [str(e)]. *)
Record exn : Type := PyExn { exn_class : exn_kind; exn_str : string }.

Inductive result (A : Type) : Type :=
| Ok (a : A)
| Raise (e : exn).

Arguments Ok {A} a.
Arguments Raise {A} e.

Definition is_ok {A} (r : result A) : bool :=
  match r with Ok _ => true | Raise _ => false end.

(** The objects [json.loads] can build.  A number is given by its exact
    value: the floats that are not finite ([NaN], [Infinity]), which
    [json.loads] accepts as well, have no counterpart here. *)
#[warnings="-register-all"]
Inductive json : Type :=
| JNull
| JBool (b : bool)
| JNumber (q : Q)
| JString (s : string)
| JArray (items : list json)
| JObject (members : list (string * json)).

(** A Python [dict] with [str] keys, as [json.loads] or a dict display
    builds it: at most one binding per key is visible to [get]. *)
Definition pydict : Type := list (string * json).

Fixpoint dict_get (d : pydict) (key : string) (default : json) : json :=
  match d with
  | [] => default
  | (k, v) :: rest => if String.eqb k key then v else dict_get rest key default
  end.

(** [x * w] for a float [w]: numbers and booleans multiply, anything else
    raises [TypeError]. *)
Definition as_number (v : json) : result Q :=
  match v with
  | JNumber q => Ok q
  | JBool true => Ok 1%Q
  | JBool false => Ok 0%Q
  | JNull =>
      Raise (PyExn TypeError
               "unsupported operand type(s) for *: 'NoneType' and 'float'")
  | JObject _ =>
      Raise (PyExn TypeError
               "unsupported operand type(s) for *: 'dict' and 'float'")
  | JString _ | JArray _ =>
      Raise (PyExn TypeError
               "can't multiply sequence by non-int of type 'float'")
  end.

(* ================================================================== *)
(** ** Data model: the rows of the test corpus *)

Inductive ErrorKind : Type := syntax | runtime | logical | conceptual.
Inductive Difficulty : Type := beginner | intermediate | advanced.

Definition kind_name (k : ErrorKind) : string :=
  match k with
  | syntax => "syntax"
  | runtime => "runtime"
  | logical => "logical"
  | conceptual => "conceptual"
  end.

Definition difficulty_name (d : Difficulty) : string :=
  match d with
  | beginner => "beginner"
  | intermediate => "intermediate"
  | advanced => "advanced"
  end.

Definition kind_eqb (a b : ErrorKind) : bool :=
  match a, b with
  | syntax, syntax | runtime, runtime
  | logical, logical | conceptual, conceptual => true
  | _, _ => false
  end.

Definition difficulty_eqb (a b : Difficulty) : bool :=
  match a, b with
  | beginner, beginner | intermediate, intermediate
  | advanced, advanced => true
  | _, _ => false
  end.

(** One row of the corpus: the four columns [evaluate] reads. *)
Record TestCase : Type := mkCase {
  code : string;
  error_type : ErrorKind;
  difficulty : Difficulty;
  expected_output : string
}.

(** Equality of two rows as Python compares dicts: field by field. *)
Definition case_eqb (a b : TestCase) : bool :=
  String.eqb (code a) (code b)
  && kind_eqb (error_type a) (error_type b)
  && difficulty_eqb (difficulty a) (difficulty b)
  && String.eqb (expected_output a) (expected_output b).

(* ================================================================== *)
(** ** [needle in text] on strings *)

Fixpoint starts_with (needle text : string) : bool :=
  match needle, text with
  | EmptyString, _ => true
  | String _ _, EmptyString => false
  | String a n, String b t => Ascii.eqb a b && starts_with n t
  end.

(** [str_in needle text] is Python's [needle in text]. *)
Fixpoint str_in (needle text : string) : bool :=
  starts_with needle text
  || match text with
     | EmptyString => false
     | String _ t => str_in needle t
     end.

(** What [in] decides: the needle occurs as a contiguous piece. *)
Definition occurs_in (needle text : string) : Prop :=
  exists before after, text = (before ++ needle ++ after)%string.

(* ================================================================== *)
(** ** [TeachingPromptEvaluator._check_format] *)

Definition code_markers : list string := ["```"; "def "; "return"].
Definition explanation_markers : list string :=
  ["错误"; "Error"; "问题"; "修正"].

Definition _check_format (response : string) : bool :=
  let has_code :=
    str_in "```" response || str_in "def " response
    || str_in "return" response in
  let has_explanation :=
    str_in "错误" response || str_in "Error" response
    || str_in "问题" response || str_in "修正" response in
  has_code && has_explanation.

(* ================================================================== *)
(** ** Library and service interfaces *)

(** What [json.loads] does with a candidate span. *)
Inductive loads_outcome : Type :=
| LoadsOk (d : pydict)
| LoadsDecodeError
| LoadsRaises (e : exn).

(** The text functions of the standard library that the evaluator calls. *)
Class PyText : Type := {
  (** [len(s.strip()) == 0] *)
  str_blank : string -> bool;
  (** [re.search(r'\{[^}]+\}', s, re.DOTALL)], the matched text *)
  re_search_braces : string -> option string;
  (** [json.loads] on that text *)
  json_loads : string -> loads_outcome;
  (** [re.search] of the pattern of [_extract_metrics_manually] for the
      metric [name] (the name, a run of quotes, blanks and colons, then
      digits with an optional fraction; [re.IGNORECASE]), then [float] of
      group 1 *)
  re_search_number : string -> string -> option Q
}.

(** One chat message, [{"role": ..., "content": ...}]. *)
Record message : Type := Msg { role : string; content : string }.

(** What a call of [llm_interface.invoke] does: it raises, or it returns
    text or [None]. *)
Inductive llm_reply : Type :=
| Raises (e : exn)
| Returns (text : option string).

(** The service: the reply to the [k]-th call of the run, given the
    messages sent. *)
Definition llm_service : Type := nat -> list message -> llm_reply.

(** Computations that call the service: the state is the call counter. *)
Definition M (A : Type) : Type := nat -> A * nat.

Definition ret {A} (a : A) : M A := fun k => (a, k).

Definition bind {A B} (c : M A) (f : A -> M B) : M B :=
  fun k => let (a, k') := c k in f a k'.

Declare Scope llm_scope.
Delimit Scope llm_scope with llm.
Notation "x <- c ;; f" := (bind c (fun x => f))
  (at level 61, c at next level, right associativity) : llm_scope.
Notation "' pat <- c ;; f" := (bind c (fun x => match x with pat => f end))
  (at level 61, pat pattern, c at next level, right associativity)
  : llm_scope.

(** [bool(text)] for an optional string. *)
Definition truthy (text : option string) : bool :=
  match text with
  | None => false
  | Some s => negb (String.eqb s EmptyString)
  end.

Definition text_of (text : option string) : string :=
  match text with None => EmptyString | Some s => s end.

(* ================================================================== *)
(** ** Accumulators of [evaluate] *)

Record Stats : Type := mkStats {
  syntax_correct : nat;
  runtime_correct : nat;
  logical_correct : nat;
  conceptual_correct : nat;
  beginner_correct : nat;
  intermediate_correct : nat;
  advanced_correct : nat;
  format_correct : nat;
  educational_value_sum : Q;
  total : nat
}.

(** [stats[f'{error_type}_correct']] *)
Definition kind_correct (s : Stats) (k : ErrorKind) : nat :=
  match k with
  | syntax => syntax_correct s
  | runtime => runtime_correct s
  | logical => logical_correct s
  | conceptual => conceptual_correct s
  end.

(** [stats[f'{difficulty}_correct']] *)
Definition difficulty_correct (s : Stats) (d : Difficulty) : nat :=
  match d with
  | beginner => beginner_correct s
  | intermediate => intermediate_correct s
  | advanced => advanced_correct s
  end.

(** [stats[f'{error_type}_correct'] += 1] *)
Definition incr_kind_correct (k : ErrorKind) (s : Stats) : Stats :=
  let (sy, ru, lo, co, be, im, ad, fo, ed, to) := s in
  match k with
  | syntax => mkStats (S sy) ru lo co be im ad fo ed to
  | runtime => mkStats sy (S ru) lo co be im ad fo ed to
  | logical => mkStats sy ru (S lo) co be im ad fo ed to
  | conceptual => mkStats sy ru lo (S co) be im ad fo ed to
  end.

(** [stats[f'{difficulty}_correct'] += 1] *)
Definition incr_difficulty_correct (d : Difficulty) (s : Stats) : Stats :=
  let (sy, ru, lo, co, be, im, ad, fo, ed, to) := s in
  match d with
  | beginner => mkStats sy ru lo co (S be) im ad fo ed to
  | intermediate => mkStats sy ru lo co be (S im) ad fo ed to
  | advanced => mkStats sy ru lo co be im (S ad) fo ed to
  end.

(** [stats['format_correct'] += 1] *)
Definition incr_format_correct (s : Stats) : Stats :=
  let (sy, ru, lo, co, be, im, ad, fo, ed, to) := s in
  mkStats sy ru lo co be im ad (S fo) ed to.

(** [stats['educational_value_sum'] += v] *)
Definition add_educational_value (v : Q) (s : Stats) : Stats :=
  let (sy, ru, lo, co, be, im, ad, fo, ed, to) := s in
  mkStats sy ru lo co be im ad fo (ed + v)%Q to.

Record TypeCounts : Type := mkTypeCounts {
  n_syntax : nat; n_runtime : nat; n_logical : nat; n_conceptual : nat
}.

Record DifficultyCounts : Type := mkDifficultyCounts {
  n_beginner : nat; n_intermediate : nat; n_advanced : nat
}.

(** [type_counts[error_type]] *)
Definition type_count (c : TypeCounts) (k : ErrorKind) : nat :=
  match k with
  | syntax => n_syntax c
  | runtime => n_runtime c
  | logical => n_logical c
  | conceptual => n_conceptual c
  end.

(** [difficulty_counts[difficulty]] *)
Definition difficulty_count (c : DifficultyCounts) (d : Difficulty) : nat :=
  match d with
  | beginner => n_beginner c
  | intermediate => n_intermediate c
  | advanced => n_advanced c
  end.

Definition incr_type_count (k : ErrorKind) (c : TypeCounts) : TypeCounts :=
  let (sy, ru, lo, co) := c in
  match k with
  | syntax => mkTypeCounts (S sy) ru lo co
  | runtime => mkTypeCounts sy (S ru) lo co
  | logical => mkTypeCounts sy ru (S lo) co
  | conceptual => mkTypeCounts sy ru lo (S co)
  end.

Definition incr_difficulty_count (d : Difficulty) (c : DifficultyCounts)
  : DifficultyCounts :=
  let (be, im, ad) := c in
  match d with
  | beginner => mkDifficultyCounts (S be) im ad
  | intermediate => mkDifficultyCounts be (S im) ad
  | advanced => mkDifficultyCounts be im (S ad)
  end.

(** The second component of what [_evaluate_single_response] returns. *)
Record Metrics : Type := mkMetrics {
  metrics_format_correct : bool;
  metrics_educational_value : Q;
  metrics_failure_reason : json
}.

(** An entry of [error_samples]: a graded sample that scored below 0.85,
    or the record the handler at the sample boundary writes. *)
Inductive ErrorSample : Type :=
| LowScore (input output expected : string) (kind : ErrorKind)
    (level : Difficulty) (score : Q) (reason : json)
| Crashed (input : string) (error : string) (kind : ErrorKind)
    (level : Difficulty).

(** The local variables that the loop of [evaluate] updates. *)
Record LoopState : Type := mkLoop {
  total_score : Q;
  perf_vector : list nat;
  error_samples : list ErrorSample;
  stats : Stats;
  type_counts : TypeCounts;
  difficulty_counts : DifficultyCounts
}.

(** [evidence['metrics']] *)
Record ReportMetrics : Type := mkReport {
  overall_score : Q;
  error_detection : Q;
  educational_value : Q;
  format_compliance : Q;
  difficulty_adaptation : Q;
  report_error_samples : list ErrorSample;
  report_stats : Stats
}.

(** [evidence] *)
Record Evidence : Type := mkEvidence {
  metrics : ReportMetrics;
  evidence_perf_vector : list nat;
  fp_samples : list ErrorSample;
  evidence_error_samples : list ErrorSample
}.

(* ================================================================== *)
(** ** The prompts sent to the service *)

(** The double quote character and a quoted word. *)
Definition dquote : string :=
  String (Ascii false true false false false true false false) EmptyString.

Definition quoted (s : string) : string := (dquote ++ s ++ dquote)%string.

(** [user_input] of [evaluate]. *)
Definition user_input (code_snippet : string) : string :=
  ("请分析以下代码并找出错误：

```python
" ++ code_snippet ++ "
```

请按照标准格式输出：
1. 代码片段（标注错误位置）
2. 错误解释（说明错误原因和如何修正）
")%string.

(** [eval_prompt] of [_evaluate_single_response]. *)
Definition eval_prompt (code response : string) (kind : ErrorKind)
  (level : Difficulty) (expected : string) : string :=
  ("请评估以下编程教学助手的回答质量：

【学生代码】
```python
" ++ code ++ "
```

【错误类型】" ++ kind_name kind ++ "
【难度等级】" ++ difficulty_name level ++ "

【助手回答】
" ++ response ++ "

【期望输出要点】
" ++ expected ++ "

请评估以下方面（每项0-1分）：
1. 错误识别准确性：是否正确识别了错误位置和类型
2. 教育引导性：是否引导学生思考而非直接给答案，是否提供了学习建议
3. 解释清晰度：解释是否清晰易懂，是否包含了修正方法

返回JSON格式（不要其他内容）：
{
    " ++ quoted "accuracy" ++ ": 0.8,
    " ++ quoted "guidance" ++ ": 0.7,
    " ++ quoted "clarity" ++ ": 0.9,
    " ++ quoted "failure_reason" ++ ": " ++ quoted "如果有问题，说明原因" ++ "
}")%string.

(* ================================================================== *)
(** ** [TeachingPromptEvaluator] *)

Local Open Scope Q_scope.

(** [self.error_types], in the order of the dict display. *)
Definition weight (k : ErrorKind) : Q :=
  match k with
  | syntax => 0.25
  | runtime => 0.35
  | logical => 0.25
  | conceptual => 0.15
  end.

Definition error_types : list ErrorKind :=
  [syntax; runtime; logical; conceptual].

Definition difficulty_levels : list Difficulty :=
  [beginner; intermediate; advanced].

Definition Q_of_nat (n : nat) : Q := inject_Z (Z.of_nat n).

(** [a / n] for an [int] or [float] [a] and an [int] [n]. *)
Definition true_div (a : Q) (n : nat) : result Q :=
  match n with
  | O => Raise (PyExn ZeroDivisionError "division by zero")
  | S _ => Ok (a / Q_of_nat n)
  end.

(** [score >= 0.7] *)
Definition passes (score : Q) : bool := Qle_bool 0.7 score.

(** [score < 0.85] *)
Definition low_score (score : Q) : bool := negb (Qle_bool 0.85 score).

Section Evaluator.

Context {lib : PyText}.
Variable llm : llm_service.

Local Open Scope llm_scope.

(** [self.llm_interface.invoke(messages, ...)] *)
Definition invoke (messages : list message) : M llm_reply :=
  fun k => (llm k messages, S k).

(** The loop [for retry in range(max_retries)] of [evaluate]:
    [response] keeps the last value a call returned; a call that raises
    leaves it as it was. *)
Fixpoint retry_loop (messages : list message) (retries : nat)
  (response : option string) : M (option string) :=
  match retries with
  | O => ret response
  | S r =>
      reply <- invoke messages ;;
      match reply with
      | Raises _ => retry_loop messages r response
      | Returns text =>
          if truthy text && negb (str_blank (text_of text))
          then ret text
          else retry_loop messages r text
      end
  end.

(** [not response or len(response.strip()) == 0] *)
Definition no_response (response : option string) : bool :=
  negb (truthy response) || str_blank (text_of response).

Definition _extract_metrics_manually (text : string) : pydict :=
  let found name :=
    match re_search_number name text with
    | Some q => JNumber q
    | None => JNumber 0.5
    end in
  [("accuracy", found "accuracy");
   ("guidance", found "guidance");
   ("clarity", found "clarity")].

(** The handlers of [_evaluate_single_response] and its early return:
    score 0.5 with neutral metrics. *)
Definition neutral (format_ok : bool) (reason : string) : Q * Metrics :=
  (0.5, mkMetrics format_ok 0.5 (JString reason)).

(** The weighted sum over the parsed metrics; a value that does not
    multiply raises into the handler. *)
Definition score_metrics (format_ok : bool) (m : pydict) : Q * Metrics :=
  match as_number (dict_get m "accuracy" (JNumber 0.5)) with
  | Raise e => neutral format_ok (exn_str e)
  | Ok accuracy =>
      match as_number (dict_get m "guidance" (JNumber 0.5)) with
      | Raise e => neutral format_ok (exn_str e)
      | Ok guidance =>
          match as_number (dict_get m "clarity" (JNumber 0.5)) with
          | Raise e => neutral format_ok (exn_str e)
          | Ok clarity =>
              (accuracy * 0.5 + guidance * 0.3 + clarity * 0.2,
               mkMetrics format_ok guidance
                 (dict_get m "failure_reason" (JString EmptyString)))
          end
      end
  end.

(** What the judge makes of the grader's text. *)
Definition judge_text (format_ok : bool) (eval_result : string)
  : Q * Metrics :=
  match re_search_braces eval_result with
  | Some span =>
      match json_loads span with
      | LoadsOk m => score_metrics format_ok m
      | LoadsDecodeError =>
          score_metrics format_ok (_extract_metrics_manually eval_result)
      | LoadsRaises e => neutral format_ok (exn_str e)
      end
  | None => score_metrics format_ok (_extract_metrics_manually eval_result)
  end.

Definition _evaluate_single_response (code response : string)
  (kind : ErrorKind) (level : Difficulty) (expected : string)
  : M (Q * Metrics) :=
  let format_ok := _check_format response in
  reply <- invoke [Msg "user" (eval_prompt code response kind level expected)] ;;
  ret match reply with
      | Raises e => neutral format_ok (exn_str e)
      | Returns eval_result =>
          if truthy eval_result
          then judge_text format_ok (text_of eval_result)
          else neutral format_ok "LLM返回空"
      end.

(** The state after a graded sample: lines 145-171. *)
Definition record_graded (row : TestCase) (response : string) (score : Q)
  (m : Metrics) (st : LoopState) : LoopState :=
  let stats1 :=
    if passes score
    then incr_difficulty_correct (difficulty row)
           (incr_kind_correct (error_type row) (stats st))
    else stats st in
  let stats2 :=
    if metrics_format_correct m then incr_format_correct stats1
    else stats1 in
  let stats3 := add_educational_value (metrics_educational_value m) stats2 in
  mkLoop (total_score st + score)
    (perf_vector st ++ [if passes score then 1%nat else 0%nat])
    (if low_score score
     then error_samples st ++
            [LowScore (code row) response (expected_output row)
               (error_type row) (difficulty row) score
               (metrics_failure_reason m)]
     else error_samples st)
    stats3 (type_counts st) (difficulty_counts st).

(** The body of [for idx, row in test_data.iterrows()].  No statement
    inside its [try] raises in this model (the retry loop and
    [_evaluate_single_response] catch what [invoke] raises), so the
    handler at the sample boundary is never entered. *)
Definition eval_row (system_prompt : string) (row : TestCase)
  (st : LoopState) : M LoopState :=
  let st :=
    mkLoop (total_score st) (perf_vector st) (error_samples st) (stats st)
      (incr_type_count (error_type row) (type_counts st))
      (incr_difficulty_count (difficulty row) (difficulty_counts st)) in
  response <-
    retry_loop [Msg "system" system_prompt;
                Msg "user" (user_input (code row))] 3 None ;;
  if no_response response
  then
    ret (mkLoop (total_score st) (perf_vector st ++ [0%nat])
           (error_samples st) (stats st) (type_counts st)
           (difficulty_counts st))
  else
    '(score, m) <-
      _evaluate_single_response (code row) (text_of response)
        (error_type row) (difficulty row) (expected_output row) ;;
    ret (record_graded row (text_of response) score m st).

Fixpoint eval_rows (system_prompt : string) (rows : list TestCase)
  (st : LoopState) : M LoopState :=
  match rows with
  | [] => ret st
  | row :: rest =>
      st' <- eval_row system_prompt row st ;;
      eval_rows system_prompt rest st'
  end.

End Evaluator.

(** The state before the loop. *)
Definition initial_state (n : nat) : LoopState :=
  mkLoop 0 [] [] (mkStats 0 0 0 0 0 0 0 0 0 n)
    (mkTypeCounts 0 0 0 0) (mkDifficultyCounts 0 0 0).

(** [error_detection_score]: the loop over [self.error_types]. *)
Definition error_detection_score (st : LoopState) : Q :=
  fold_left
    (fun acc k =>
       if (0 <? type_count (type_counts st) k)%nat
       then
         let type_accuracy :=
           Q_of_nat (kind_correct (stats st) k)
           / Q_of_nat (type_count (type_counts st) k) in
         acc + type_accuracy * weight k
       else acc)
    error_types 0.

(** [difficulty_score]: the loop over the three levels. *)
Definition difficulty_score (st : LoopState) : Q :=
  fold_left
    (fun acc d =>
       if (0 <? difficulty_count (difficulty_counts st) d)%nat
       then
         let difficulty_accuracy :=
           Q_of_nat (difficulty_correct (stats st) d)
           / Q_of_nat (difficulty_count (difficulty_counts st) d) in
         acc + difficulty_accuracy / 3
       else acc)
    difficulty_levels 0.

(** Lines 185-241 of [evaluate]: the scores and the evidence. *)
Definition finish (n : nat) (st : LoopState) : result (Q * Evidence) :=
  let eds := error_detection_score st in
  match true_div (educational_value_sum (stats st)) n with
  | Raise e => Raise e
  | Ok educational_score =>
      match true_div (Q_of_nat (format_correct (stats st))) n with
      | Raise e => Raise e
      | Ok format_score =>
          let ds := difficulty_score st in
          let final_score :=
            eds * 0.40 + educational_score * 0.30
            + format_score * 0.20 + ds * 0.10 in
          Ok (final_score,
              mkEvidence
                (mkReport final_score eds educational_score format_score ds
                   (firstn 20 (error_samples st)) (stats st))
                (perf_vector st) (error_samples st) (error_samples st))
      end
  end.

(** [TeachingPromptEvaluator.evaluate]: the rows of [test_data] in order,
    then the scores. *)
Definition evaluate {lib : PyText} (llm : llm_service)
  (system_prompt : string) (test_data : list TestCase)
  : M (result (Q * Evidence)) :=
  bind (eval_rows llm system_prompt test_data
          (initial_state (List.length test_data)))
       (fun st => ret (finish (List.length test_data) st)).

(* ================================================================== *)
(** ** An executable text library

    [AsciiText] implements [PyText] for the concrete scenarios below.  It
    follows the library on UTF-8 text whose metric names, digits and JSON
    syntax are ASCII: [str.strip] and the blank class of [re] know the
    Unicode white space, [json.loads] reads objects, arrays, strings with
    the single-character escapes, numbers and the three literals.  A
    backslash-u escape, [NaN] and [Infinity] are reported as decode
    errors: they have no value here. *)

Module AsciiText.

Local Open Scope char_scope.

Definition dquote_char : ascii :=
  Ascii false true false false false true false false.

Definition is_digit (c : ascii) : bool :=
  let n := nat_of_ascii c in (48 <=? n)%nat && (n <=? 57)%nat.

Definition digit_value (c : ascii) : Z := Z.of_nat (nat_of_ascii c - 48).

Definition lower (c : ascii) : ascii :=
  let n := nat_of_ascii c in
  if (65 <=? n)%nat && (n <=? 90)%nat then ascii_of_nat (n + 32) else c.

(** The rest of the text after one white-space character, as
    [str.isspace] classifies the code points. *)
Definition after_space (s : string) : option string :=
  match s with
  | EmptyString => None
  | String c r =>
      let n := nat_of_ascii c in
      if ((9 <=? n) && (n <=? 13) || (28 <=? n) && (n <=? 32))%nat
      then Some r
      else
        match n, r with
        | 194%nat, String d r' =>
            let m := nat_of_ascii d in
            if ((m =? 133) || (m =? 160))%nat then Some r' else None
        | 225%nat, String d (String e r') =>
            if ((nat_of_ascii d =? 154) && (nat_of_ascii e =? 128))%nat
            then Some r' else None
        | 226%nat, String d (String e r') =>
            let m := nat_of_ascii d in
            let k := nat_of_ascii e in
            if ((m =? 128)
                && ((128 <=? k) && (k <=? 138)
                    || (k =? 168) || (k =? 169) || (k =? 175))
                || (m =? 129) && (k =? 159))%nat
            then Some r' else None
        | 227%nat, String d (String e r') =>
            if ((nat_of_ascii d =? 128) && (nat_of_ascii e =? 128))%nat
            then Some r' else None
        | _, _ => None
        end
  end.

Fixpoint all_space (fuel : nat) (s : string) : bool :=
  match s with
  | EmptyString => true
  | _ =>
      match fuel with
      | O => false
      | S f =>
          match after_space s with
          | Some r => all_space f r
          | None => false
          end
      end
  end.

Definition blank (s : string) : bool := all_space (String.length s) s.

(** The text up to and including the first closing brace. *)
Fixpoint upto_close (s : string) : option string :=
  match s with
  | EmptyString => None
  | String c r =>
      if Ascii.eqb c "}" then Some (String c EmptyString)
      else option_map (String c) (upto_close r)
  end.

(** Leftmost match of an opening brace, one or more characters other
    than a closing brace, and a closing brace. *)
Fixpoint search_braces (s : string) : option string :=
  match s with
  | EmptyString => None
  | String c r =>
      if Ascii.eqb c "{" then
        match r with
        | EmptyString => None
        | String c2 _ =>
            if Ascii.eqb c2 "}" then search_braces r
            else
              match upto_close r with
              | Some body => Some (String c body)
              | None => search_braces r
              end
        end
      else search_braces r
  end.

(** *** Numbers *)

Fixpoint span_digits (s : string) : list ascii * string :=
  match s with
  | String c r =>
      if is_digit c
      then let (ds, rest) := span_digits r in (c :: ds, rest)
      else ([], s)
  | EmptyString => ([], s)
  end.

Definition digits_value (ds : list ascii) : Z :=
  fold_left (fun acc c => 10 * acc + digit_value c)%Z ds 0%Z.

(** [mantissa * 10 ^ exponent] *)
Definition scale (mantissa exponent : Z) : Q :=
  if (0 <=? exponent)%Z
  then inject_Z (mantissa * 10 ^ exponent)
  else (mantissa # Z.to_pos (10 ^ (- exponent)))%Q.

Definition decimal (int_part frac_part : list ascii) (exponent : Z) : Q :=
  scale (digits_value (int_part ++ frac_part))
    (exponent - Z.of_nat (List.length frac_part)).

(** *** The pattern of [_extract_metrics_manually] *)

Fixpoint starts_with_nocase (name text : string) : option string :=
  match name, text with
  | EmptyString, _ => Some text
  | String _ _, EmptyString => None
  | String a n, String b t =>
      if Ascii.eqb (lower a) (lower b) then starts_with_nocase n t
      else None
  end.

(** The rest after one character of the class: quote, colon, blank. *)
Definition after_separator (s : string) : option string :=
  match s with
  | EmptyString => None
  | String c r =>
      if Ascii.eqb c dquote_char || Ascii.eqb c ":" then Some r
      else after_space s
  end.

Fixpoint skip_separators (fuel : nat) (s : string) : string :=
  match fuel with
  | O => s
  | S f =>
      match after_separator s with
      | Some r => skip_separators f r
      | None => s
      end
  end.

Definition number_at (name text : string) : option Q :=
  match starts_with_nocase name text with
  | None => None
  | Some r =>
      match after_separator r with
      | None => None
      | Some r1 =>
          let r2 := skip_separators (String.length r1) r1 in
          match span_digits r2 with
          | ([], _) => None
          | (int_part, String "." r3) =>
              Some (decimal int_part (fst (span_digits r3)) 0)
          | (int_part, _) => Some (decimal int_part [] 0)
          end
      end
  end.

Fixpoint search_number (name text : string) : option Q :=
  match number_at name text with
  | Some q => Some q
  | None =>
      match text with
      | EmptyString => None
      | String _ r => search_number name r
      end
  end.

(** *** [json.loads] *)

Definition is_json_space (c : ascii) : bool :=
  let n := nat_of_ascii c in
  ((n =? 32) || (n =? 9) || (n =? 10) || (n =? 13))%nat.

Fixpoint skip_space (s : string) : string :=
  match s with
  | String c r => if is_json_space c then skip_space r else s
  | EmptyString => s
  end.

Fixpoint strip_prefix (word text : string) : option string :=
  match word, text with
  | EmptyString, _ => Some text
  | String _ _, EmptyString => None
  | String a w, String b t =>
      if Ascii.eqb a b then strip_prefix w t else None
  end.

Definition unescape (c : ascii) : option ascii :=
  if Ascii.eqb c dquote_char then Some c
  else if Ascii.eqb c "\" then Some c
  else if Ascii.eqb c "/" then Some c
  else if Ascii.eqb c "b" then Some (ascii_of_nat 8)
  else if Ascii.eqb c "f" then Some (ascii_of_nat 12)
  else if Ascii.eqb c "n" then Some (ascii_of_nat 10)
  else if Ascii.eqb c "r" then Some (ascii_of_nat 13)
  else if Ascii.eqb c "t" then Some (ascii_of_nat 9)
  else None.

Definition push (c : ascii) (p : string * string) : string * string :=
  (String c (fst p), snd p).

(** The body of a string after its opening quote, and the rest. *)
Fixpoint parse_string (s : string) : option (string * string) :=
  match s with
  | EmptyString => None
  | String c r =>
      if Ascii.eqb c dquote_char then Some (EmptyString, r)
      else if Ascii.eqb c "\" then
        match r with
        | EmptyString => None
        | String e r' =>
            match unescape e with
            | Some ch => option_map (push ch) (parse_string r')
            | None => None
            end
        end
      else if (nat_of_ascii c <? 32)%nat then None
      else option_map (push c) (parse_string r)
  end.

Definition parse_number (s : string) : option (Q * string) :=
  let (negative, s1) :=
    match s with
    | String "-" r => (true, r)
    | _ => (false, s)
    end in
  let whole :=
    match s1 with
    | String "0" r => (["0"], r)
    | _ => span_digits s1
    end in
  match whole with
  | ([], _) => None
  | (int_part, s2) =>
      let (frac_part, s3) :=
        match s2 with
        | String "." r =>
            match span_digits r with
            | ([], _) => ([], s2)
            | found => found
            end
        | _ => ([], s2)
        end in
      let (exponent, s4) :=
        match s3 with
        | String e r =>
            if Ascii.eqb (lower e) "e" then
              let (minus, r1) :=
                match r with
                | String "-" r' => (true, r')
                | String "+" r' => (false, r')
                | _ => (false, r)
                end in
              match span_digits r1 with
              | ([], _) => (0%Z, s3)
              | (ds, rest) =>
                  ((if minus then - digits_value ds else digits_value ds)%Z,
                   rest)
              end
            else (0%Z, s3)
        | EmptyString => (0%Z, s3)
        end in
      let q := decimal int_part frac_part exponent in
      Some (if negative then (- q)%Q else q, s4)
  end.

Fixpoint parse_value (fuel : nat) (s : string) : option (json * string) :=
  match fuel with
  | O => None
  | S f =>
      match s with
      | EmptyString => None
      | String c r =>
          if Ascii.eqb c dquote_char then
            match parse_string r with
            | Some (body, rest) => Some (JString body, rest)
            | None => None
            end
          else if Ascii.eqb c "[" then
            match skip_space r with
            | String "]" rest => Some (JArray [], rest)
            | first =>
                (fix items (n : nat) (s : string) (acc : list json) :=
                   match n with
                   | O => None
                   | S n' =>
                       match parse_value f s with
                       | None => None
                       | Some (v, s') =>
                           match skip_space s' with
                           | String "," s'' =>
                               items n' (skip_space s'') (v :: acc)
                           | String "]" s'' =>
                               Some (JArray (rev (v :: acc)), s'')
                           | _ => None
                           end
                       end
                   end) (String.length first) first []
            end
          else if Ascii.eqb c "{" then
            match skip_space r with
            | String "}" rest => Some (JObject [], rest)
            | first =>
                (fix members (n : nat) (s : string) (acc : pydict) :=
                   match n, s with
                   | S n', String q s0 =>
                       if Ascii.eqb q dquote_char then
                         match parse_string s0 with
                         | None => None
                         | Some (key, s1) =>
                             match skip_space s1 with
                             | String ":" s2 =>
                                 match parse_value f (skip_space s2) with
                                 | None => None
                                 | Some (v, s3) =>
                                     match skip_space s3 with
                                     | String "," s4 =>
                                         members n' (skip_space s4)
                                           ((key, v) :: acc)
                                     | String "}" s4 =>
                                         Some (JObject ((key, v) :: acc), s4)
                                     | _ => None
                                     end
                                 end
                             | _ => None
                             end
                         end
                       else None
                   | _, _ => None
                   end) (String.length first) first []
            end
          else
            match strip_prefix "null" s, strip_prefix "true" s,
                  strip_prefix "false" s with
            | Some rest, _, _ => Some (JNull, rest)
            | _, Some rest, _ => Some (JBool true, rest)
            | _, _, Some rest => Some (JBool false, rest)
            | _, _, _ =>
                match parse_number s with
                | Some (q, rest) => Some (JNumber q, rest)
                | None => None
                end
            end
      end
  end.

(** [json.loads]: one value between optional blanks.  The members of
    an object are kept latest first, so that a repeated key reads as
    its last value. *)
Definition loads (s : string) : loads_outcome :=
  match parse_value (S (String.length s)) (skip_space s) with
  | Some (JObject m, rest) =>
      match skip_space rest with
      | EmptyString => LoadsOk m
      | _ => LoadsDecodeError
      end
  | _ => LoadsDecodeError
  end.

End AsciiText.

#[export] Instance ascii_text : PyText := {
  str_blank := AsciiText.blank;
  re_search_braces := AsciiText.search_braces;
  json_loads := AsciiText.loads;
  re_search_number := AsciiText.search_number
}.

(* ================================================================== *)
(** ** [random] *)

(** The module-level generator of [random]: [random.seed] replaces its
    state, [random.sample] reads and advances it. *)
Class PyRandom : Type := {
  rng : Type;
  (** [random.seed(seed)] *)
  rng_seed : Z -> rng;
  (** [random.sample(population, k)] *)
  rng_sample : forall A : Type, list A -> nat -> rng -> list A * rng
}.

Arguments rng_sample {_} [A] _ _ _.

(** What the library promises of [random.sample] for [k <= len(population)]:
    [k] elements taken at distinct positions of the population. *)
Definition sample_without_replacement (R : PyRandom) : Prop :=
  forall (A : Type) (population : list A) (k : nat) (g : rng),
    (k <= List.length population)%nat ->
    List.length (fst (rng_sample population k g)) = k
    /\ exists rest, Permutation (fst (rng_sample population k g) ++ rest)
                      population.

(** A small generator for the concrete scenarios: a linear congruential
    state, each draw removing one position of the pool.  It stands in for
    the Mersenne Twister of the library. *)
Module LcgRandom.

Definition next (g : Z) : Z := ((1103515245 * g + 12345) mod 2147483648)%Z.

Fixpoint remove_at {A} (j : nat) (l : list A) : list A :=
  match l, j with
  | [], _ => []
  | _ :: r, O => r
  | x :: r, S j' => x :: remove_at j' r
  end.

Fixpoint sample {A} (pool : list A) (k : nat) (g : Z) : list A * Z :=
  match k, pool with
  | S k', x :: _ =>
      let j := Z.to_nat (g mod Z.of_nat (List.length pool)) in
      let (picked, g') := sample (remove_at j pool) k' (next g) in
      (nth j pool x :: picked, g')
  | _, _ => ([], g)
  end.

End LcgRandom.

#[export] Instance lcg_random : PyRandom := {
  rng := Z;
  rng_seed := fun seed => Z.abs seed;
  rng_sample := @LcgRandom.sample
}.

(* ================================================================== *)
(** ** [sample_balanced_cases] *)

(** The key of a stratum, [(case['error_type'], case['difficulty'])]. *)
Definition group_key : Type := (ErrorKind * Difficulty)%type.

Definition key_of (c : TestCase) : group_key := (error_type c, difficulty c).

Definition key_eqb (a b : group_key) : bool :=
  kind_eqb (fst a) (fst b) && difficulty_eqb (snd a) (snd b).

(** [a < b] on the keys as Python compares the tuples of strings. *)
Definition key_ltb (a b : group_key) : bool :=
  match String.compare (kind_name (fst a)) (kind_name (fst b)) with
  | Lt => true
  | Gt => false
  | Eq => String.ltb (difficulty_name (snd a)) (difficulty_name (snd b))
  end.

(** The dict [groups], its items in insertion order. *)
Definition groups_dict : Type := list (group_key * list TestCase).

(** [if key not in groups: groups[key] = []] and
    [groups[key].append(case)] *)
Fixpoint add_case (groups : groups_dict) (c : TestCase) : groups_dict :=
  match groups with
  | [] => [(key_of c, [c])]
  | (k, cs) :: rest =>
      if key_eqb k (key_of c) then (k, cs ++ [c]) :: rest
      else (k, cs) :: add_case rest c
  end.

Definition group_cases (cases : list TestCase) : groups_dict :=
  fold_left add_case cases [].

(** [sorted(groups.items())]: the keys of a dict are distinct, so the
    order of the items is the order of their keys. *)
Fixpoint insert_item (x : group_key * list TestCase) (l : groups_dict)
  : groups_dict :=
  match l with
  | [] => [x]
  | y :: r =>
      if key_ltb (fst y) (fst x) then y :: insert_item x r
      else x :: y :: r
  end.

Definition sorted_items (groups : groups_dict) : groups_dict :=
  fold_right insert_item [] groups.

(** [l[:n]] *)
Definition py_prefix {A} (l : list A) (n : Z) : list A :=
  if (n <? 0)%Z
  then firstn (Z.to_nat (Z.of_nat (List.length l) + n)) l
  else firstn (Z.to_nat n) l.

(** [c not in sampled] *)
Definition not_in (sampled : list TestCase) (c : TestCase) : bool :=
  negb (existsb (case_eqb c) sampled).

Section Sampler.

Context {R : PyRandom}.

(** The loop over the sorted strata. *)
Definition sample_groups (samples_per_group : Z) (items : groups_dict)
  (g : rng) : list TestCase * rng :=
  fold_left
    (fun (acc : list TestCase * rng) (item : group_key * list TestCase) =>
       let (sampled, g) := acc in
       let group := snd item in
       let sample_count :=
         Z.min samples_per_group (Z.of_nat (List.length group)) in
       let (picked, g') := rng_sample group (Z.to_nat sample_count) g in
       (sampled ++ picked, g'))
    items ([], g).

(** [if len(sampled) < max_samples: ...] *)
Definition top_up (cases sampled : list TestCase) (max_samples : Z)
  (g : rng) : list TestCase * rng :=
  if (Z.of_nat (List.length sampled) <? max_samples)%Z then
    let remaining := filter (not_in sampled) cases in
    match remaining with
    | [] => (sampled, g)
    | _ :: _ =>
        let additional :=
          Z.min (max_samples - Z.of_nat (List.length sampled))
                (Z.of_nat (List.length remaining)) in
        let (picked, g') := rng_sample remaining (Z.to_nat additional) g in
        (sampled ++ picked, g')
    end
  else (sampled, g).

(** [sample_balanced_cases(cases, max_samples, seed)], run with the
    module-level generator in state [ambient]; the result and the state
    it leaves. *)
Definition sample_balanced_cases (cases : list TestCase) (max_samples : Z)
  (seed : Z) (ambient : rng) : result (list TestCase) * rng :=
  let g := rng_seed seed in
  let groups := group_cases cases in
  match List.length groups with
  | O =>
      (Raise (PyExn ZeroDivisionError "integer division or modulo by zero"),
       g)
  | S _ =>
      let samples_per_group :=
        Z.max 1 (max_samples / Z.of_nat (List.length groups)) in
      let (sampled, g1) :=
        sample_groups samples_per_group (sorted_items groups) g in
      let (sampled', g2) := top_up cases sampled max_samples g1 in
      (Ok (py_prefix sampled' max_samples), g2)
  end.

End Sampler.

(* ================================================================== *)
(** ** What a run does, sample by sample

    The outcome of each row, read off the same calls that [eval_row]
    makes, and the quantities of the specification that are counted over
    these outcomes. *)

Inductive Outcome : Type :=
| NoResponse
| Graded (response : string) (score : Q) (m : Metrics).

Section Outcomes.

Context {lib : PyText}.
Variable llm : llm_service.

Local Open Scope llm_scope.

Definition row_outcome (system_prompt : string) (row : TestCase)
  : M Outcome :=
  response <-
    retry_loop llm [Msg "system" system_prompt;
                    Msg "user" (user_input (code row))] 3 None ;;
  if no_response response then ret NoResponse
  else
    '(score, m) <-
      _evaluate_single_response llm (code row) (text_of response)
        (error_type row) (difficulty row) (expected_output row) ;;
    ret (Graded (text_of response) score m).

Fixpoint outcomes (system_prompt : string) (rows : list TestCase)
  : M (list Outcome) :=
  match rows with
  | [] => ret []
  | row :: rest =>
      o <- row_outcome system_prompt row ;;
      os <- outcomes system_prompt rest ;;
      ret (o :: os)
  end.

(** The rows of a run paired with their outcomes, in evaluation order. *)
Definition run_of (system_prompt : string) (rows : list TestCase)
  (k : nat) : list (TestCase * Outcome) :=
  combine rows (fst (outcomes system_prompt rows k)).

End Outcomes.

(** The update of the loop state by one row with outcome [o]. *)
Definition record_outcome (row : TestCase) (o : Outcome) (st : LoopState)
  : LoopState :=
  let st :=
    mkLoop (total_score st) (perf_vector st) (error_samples st) (stats st)
      (incr_type_count (error_type row) (type_counts st))
      (incr_difficulty_count (difficulty row) (difficulty_counts st)) in
  match o with
  | NoResponse =>
      mkLoop (total_score st) (perf_vector st ++ [0%nat])
        (error_samples st) (stats st) (type_counts st)
        (difficulty_counts st)
  | Graded response score m => record_graded row response score m st
  end.

Definition record_run (run : list (TestCase * Outcome)) (st : LoopState)
  : LoopState :=
  fold_left (fun st ro => record_outcome (fst ro) (snd ro) st) run st.

(** A sample passes when it was graded with a composite score of at
    least 0.7. *)
Definition outcome_passes (o : Outcome) : bool :=
  match o with
  | NoResponse => false
  | Graded _ score _ => passes score
  end.

Definition count {A} (p : A -> bool) (l : list A) : nat :=
  List.length (filter p l).

Definition of_kind (k : ErrorKind) (ro : TestCase * Outcome) : bool :=
  kind_eqb (error_type (fst ro)) k.

Definition of_level (d : Difficulty) (ro : TestCase * Outcome) : bool :=
  difficulty_eqb (difficulty (fst ro)) d.

Definition passed (ro : TestCase * Outcome) : bool := outcome_passes (snd ro).

(** Number of samples of a kind, and of those that pass. *)
Definition kind_samples (k : ErrorKind) (run : list (TestCase * Outcome))
  : nat := count (of_kind k) run.

Definition kind_passes (k : ErrorKind) (run : list (TestCase * Outcome))
  : nat := count (fun ro => of_kind k ro && passed ro) run.

Definition level_samples (d : Difficulty) (run : list (TestCase * Outcome))
  : nat := count (of_level d) run.

Definition level_passes (d : Difficulty) (run : list (TestCase * Outcome))
  : nat := count (fun ro => of_level d ro && passed ro) run.

Definition Qsum (l : list Q) : Q := fold_right Qplus 0 l.

(** The weighted sum of the specification: over the kinds that occur,
    weight times pass rate. *)
Definition error_detection_formula (run : list (TestCase * Outcome)) : Q :=
  Qsum (map (fun k =>
               weight k
               * (Q_of_nat (kind_passes k run) / Q_of_nat (kind_samples k run)))
          (filter (fun k => (0 <? kind_samples k run)%nat) error_types)).

(** The sum of the specification over the difficulty tiers that occur:
    pass rate divided by 3. *)
Definition difficulty_formula (run : list (TestCase * Outcome)) : Q :=
  Qsum (map (fun d =>
               (Q_of_nat (level_passes d run) / Q_of_nat (level_samples d run))
               / 3)
          (filter (fun d => (0 <? level_samples d run)%nat)
             difficulty_levels)).

(** The entries of [error_samples] a run calls for: the graded samples
    below 0.85, in evaluation order. *)
Definition low_score_entry (ro : TestCase * Outcome) : list ErrorSample :=
  match snd ro with
  | NoResponse => []
  | Graded response score m =>
      if low_score score
      then [LowScore (code (fst ro)) response (expected_output (fst ro))
              (error_type (fst ro)) (difficulty (fst ro)) score
              (metrics_failure_reason m)]
      else []
  end.

Definition low_score_samples (run : list (TestCase * Outcome))
  : list ErrorSample := flat_map low_score_entry run.

(** The guidance value a graded sample adds to [educational_value_sum]. *)
Definition guidance_in_unit (o : Outcome) : Prop :=
  match o with
  | NoResponse => True
  | Graded _ _ m =>
      0 <= metrics_educational_value m /\ metrics_educational_value m <= 1
  end.

(** The responder gives nothing usable in the three calls from [k] on:
    each raises, or returns [None], empty or blank text. *)
Definition exhausts_retries {lib : PyText} (llm : llm_service)
  (system_prompt : string) (row : TestCase) (k : nat) : Prop :=
  forall i, (i < 3)%nat ->
    match llm (k + i)%nat [Msg "system" system_prompt;
                           Msg "user" (user_input (code row))] with
    | Raises _ => True
    | Returns text => no_response text = true
    end.

(** The fields of an entry of [error_samples]. *)
Definition sample_input (s : ErrorSample) : string :=
  match s with
  | LowScore input _ _ _ _ _ _ => input
  | Crashed input _ _ _ => input
  end.

Definition sample_score (s : ErrorSample) : option Q :=
  match s with
  | LowScore _ _ _ _ _ score _ => Some score
  | Crashed _ _ _ _ => None
  end.

Definition sample_reason (s : ErrorSample) : option json :=
  match s with
  | LowScore _ _ _ _ _ _ reason => Some reason
  | Crashed _ _ _ _ => None
  end.

(** The evidence holds, for the row, an entry with score 0 and a reason
    that is not empty. *)
Definition reports_failure (ev : Evidence) (row : TestCase) : Prop :=
  exists s reason,
    (In s (evidence_error_samples ev) \/ In s (fp_samples ev)
     \/ In s (report_error_samples (metrics ev)))
    /\ sample_input s = code row
    /\ (exists q, sample_score s = Some q /\ q == 0)
    /\ sample_reason s = Some reason
    /\ reason <> JString EmptyString.

(** Number of graded samples whose reply has the expected format, and the
    sum of the guidance values of the graded samples. *)
Definition format_ok (ro : TestCase * Outcome) : bool :=
  match snd ro with
  | NoResponse => false
  | Graded _ _ m => metrics_format_correct m
  end.

Definition guidance_of (ro : TestCase * Outcome) : Q :=
  match snd ro with
  | NoResponse => 0
  | Graded _ _ m => metrics_educational_value m
  end.

Definition pass_bit (ro : TestCase * Outcome) : nat :=
  if passed ro then 1%nat else 0%nat.

(** The composite score of a graded sample equals [q]. *)
Definition score_is (o : option Q) (q : Q) : Prop :=
  match o with
  | Some s => s == q
  | None => False
  end.

(** A score between 0 and 1. *)
Definition in_unit (q : Q) : Prop := 0 <= q /\ q <= 1.

(** [a < b] on the keys of two strata. *)
Definition key_lt (a b : group_key) : Prop := key_ltb a b = true.

(** [l] is taken from [m] without replacement. *)
Definition taken_from {A} (l m : list A) : Prop :=
  exists rest, Permutation (l ++ rest) m.

(* ================================================================== *)
(** ** Concrete scenarios *)

(** A service that answers the calls of a run from a fixed list. *)
Definition scripted (replies : list llm_reply) : llm_service :=
  fun k _ => nth k replies (Returns None).

Definition says (text : string) : llm_reply := Returns (Some text).

(** A grader reply that is one JSON object with the three sub-scores. *)
Definition grader_json (accuracy guidance clarity : string) : string :=
  ("{" ++ quoted "accuracy" ++ ": " ++ accuracy ++ ", "
       ++ quoted "guidance" ++ ": " ++ guidance ++ ", "
       ++ quoted "clarity" ++ ": " ++ clarity ++ "}")%string.

(** A reply of the assistant with a fenced block and an explanation. *)
Definition tutor_reply : string :=
  "```python
print(x)
```
错误：变量 x 未定义，请先赋值。".

(** Four samples, one per error kind. *)
Definition four_kinds : list TestCase :=
  [mkCase "for i in range(3) print(i)" syntax beginner "for语句后缺少冒号";
   mkCase "print(1 / 0)" runtime beginner "除零错误";
   mkCase "def is_even(n): return n % 2 == 1" logical intermediate "逻辑反转";
   mkCase "def add(item, xs=[]): xs.append(item)" conceptual advanced
     "可变默认参数"].

(** The assistant answers each sample at once; the grader scores the four
    answers 0.9, 0.3, 0.95 and 0.6 in every sub-score. *)
Definition four_kinds_llm : llm_service :=
  scripted
    [says tutor_reply; says (grader_json "0.9" "0.9" "0.9");
     says tutor_reply; says (grader_json "0.3" "0.3" "0.3");
     says tutor_reply; says (grader_json "0.95" "0.95" "0.95");
     says tutor_reply; says (grader_json "0.6" "0.6" "0.6")].

(** The composite scores of a run; [None] where no reply was graded. *)
Definition run_scores (run : list (TestCase * Outcome)) : list (option Q) :=
  map (fun ro =>
         match snd ro with
         | NoResponse => None
         | Graded _ score _ => Some score
         end) run.

(** A grader that answers with one well-formed object. *)
Definition structured_llm : llm_service :=
  scripted [says (grader_json "0.9" "0.8" "0.7")].

(** A grader that answers outside the range it was asked for. *)
Definition generous_llm : llm_service :=
  scripted [says tutor_reply; says (grader_json "5" "5" "5")].

(** An assistant that never answers: empty text, an exception, blanks. *)
Definition silent_llm : llm_service :=
  scripted [says EmptyString;
            Raises (PyExn OtherError "Request timed out.");
            says "   "].

Definition one_case : TestCase :=
  mkCase "print(1 / 0)" runtime beginner "除零错误".

Definition colon_case : TestCase :=
  mkCase "for i in range(3) print(i)" syntax beginner "for语句后缺少冒号".

(** Three cases of which two are equal rows. *)
Definition twin_cases : list TestCase := [one_case; one_case; colon_case].

(* ================================================================== *)
(** ** The arithmetic of the scores in double precision

    The weighted sums of the judge and of the error-detection score on
    the floats that CPython computes with. *)

Module Binary64.

Import PrimFloat.
Local Open Scope float_scope.

(** The composite score of [_evaluate_single_response]. *)
#[warnings="-inexact-float"]
Definition composite (accuracy guidance clarity : float) : float :=
  accuracy * 0.5 + guidance * 0.3 + clarity * 0.2.

(** The loop of [error_detection_score] over the four pass rates, in
    the order syntax, runtime, logical, conceptual. *)
#[warnings="-inexact-float"]
Definition weighted (rates : list float) : float :=
  fold_left (fun acc rw => acc + fst rw * snd rw)
    (combine rates [0.25; 0.35; 0.25; 0.15]) 0.

#[warnings="-inexact-float"]
Definition scenario_composite : float := composite 0.9 0.8 0.7.

#[warnings="-inexact-float"]
Definition scenario_error_detection : float :=
  weighted [1 / 1; 0 / 1; 1 / 1; 0 / 1].

#[warnings="-inexact-float"]
Definition literal_083 : float := 0.83.

Definition literal_050 : float := 0.5.

#[warnings="-inexact-float"]
Definition literal_0632 : float := 0.632.

Definition literal_0 : float := 0.

Definition literal_1 : float := 1.

(** The composite score of three sub-scores of 0, of 1 and of 0.632. *)
Definition lowest_composite : float := composite 0 0 0.

Definition highest_composite : float := composite 1 1 1.

Definition composite_of_0632 : float :=
  composite literal_0632 literal_0632 literal_0632.

End Binary64.

(* ================================================================== *)
(** ** Vocabulary for the behaviour of the service *)

(** The reply gives the retry loop nothing to accept: the call raised,
    or returned [None], empty or blank text. *)
Definition unusable {lib : PyText} (reply : llm_reply) : Prop :=
  match reply with
  | Raises _ => True
  | Returns text => no_response text = true
  end.

(** The call of the grader failed, and [reason] is what the judge
    records for it: the text of the exception, or the fixed message for an
    empty reply. *)
Definition grader_fails (reply : llm_reply) (reason : string) : Prop :=
  match reply with
  | Raises e => reason = exn_str e
  | Returns text => truthy text = false /\ reason = "LLM返回空"
  end.

(** The messages of the two calls made for a row. *)
Definition responder_messages (system_prompt : string) (row : TestCase)
  : list message :=
  [Msg "system" system_prompt; Msg "user" (user_input (code row))].

Definition grader_messages (row : TestCase) (response : string)
  : list message :=
  [Msg "user" (eval_prompt (code row) response (error_type row)
                 (difficulty row) (expected_output row))].

(** The three sub-scores that the judge reads from a dict of metrics (0.5
    for a missing key) all lie between [lo] and [hi]. *)
Definition sub_scores_within (lo hi : Q) (m : pydict) : Prop :=
  forall key q,
    In key ["accuracy"; "guidance"; "clarity"] ->
    as_number (dict_get m key (JNumber 0.5)) = Ok q ->
    lo <= q /\ q <= hi.

(** An assistant that answers at the third attempt, and a grader that
    scores the answer. *)
Definition flaky_llm : llm_service :=
  scripted [Raises (PyExn OtherError "Request timed out.");
            says "  ";
            says tutor_reply;
            says (grader_json "0.9" "0.8" "0.7")].

(** An assistant that answers at once, and a grader that raises. *)
Definition broken_grader_llm : llm_service :=
  scripted [says tutor_reply;
            Raises (PyExn OtherError "Connection reset by peer")].

(** A service that raises on every call. *)
Definition dead_llm : llm_service :=
  fun _ _ => Raises (PyExn OtherError "Service unavailable").

(** An assistant that answers the first row only; its answer is graded
    0.9, 0.8 and 0.7. *)
Definition one_answer_llm : llm_service :=
  scripted [says tutor_reply; says (grader_json "0.9" "0.8" "0.7")].

(** The keys of the strata of a corpus, in the order in which the sampler
    visits them. *)
Definition strata (cases : list TestCase) : list group_key :=
  map fst (sorted_items (group_cases cases)).

(** A stratum as the sampler keeps it: not empty, and all its cases have
    the key of the stratum. *)
Definition stratum_ok (item : group_key * list TestCase) : Prop :=
  snd item <> [] /\ Forall (fun c => key_of c = fst item) (snd item).

(** What the loop over the strata draws from an item. *)
Definition drawn (per_group : Z) (item : group_key * list TestCase)
  (pick : list TestCase) : Prop :=
  List.length pick
  = Z.to_nat (Z.min per_group (Z.of_nat (List.length (snd item))))
  /\ taken_from pick (snd item).

(* ================================================================== *)
(** ** The error database and the corpus built from it

    [prepare_teaching_dataset] turns the records of the error database
    (three CSV files read with pandas) into test cases and samples them.
    A frame is modelled by its rows in order; a cell is the text of the
    field or NaN where the file has nothing.  Every frame is taken to have
    the three columns that the loop reads by name (the kind, the level and
    the explanation of the error); the column of descriptions is optional.
    Columns of numbers are outside the model. *)

(** A cell of a frame. *)
Inductive cell : Type :=
| Text (s : string)
| NaN.

(** [str(c)], what an f-string prints for the cell. *)
Definition shown (c : cell) : string :=
  match c with
  | Text s => s
  | NaN => "nan"
  end.

(** What [needle in c] raises when [c] is NaN, a float. *)
Definition not_iterable : exn :=
  PyExn TypeError "argument of type 'float' is not iterable".

(** [m.get(key, default)] for a dict display [m] with distinct [str] keys:
    NaN is hashable and is no key of it. *)
Definition map_get {V : Type} (m : list (string * V)) (key : cell)
  (default : V) : V :=
  match key with
  | NaN => default
  | Text s =>
      match find (fun kv => String.eqb (fst kv) s) m with
      | Some kv => snd kv
      | None => default
      end
  end.

(** The kinds of the Chinese labels of the database. *)
Definition error_type_map : list (string * ErrorKind) :=
  [("缩进错误", syntax);
   ("冒号遗漏", syntax);
   ("括号不匹配", syntax);
   ("引号错误", syntax);
   ("除零错误", runtime);
   ("编码问题", runtime);
   ("键错误", runtime);
   ("值错误", runtime);
   ("类型错误", runtime);
   ("文件未关闭", runtime);
   ("循环导入", runtime);
   ("变量作用域误解", logical);
   ("浅拷贝与深拷贝", logical);
   ("迭代中修改集合", logical);
   ("可变默认参数", logical);
   ("浮点数精度问题", logical);
   ("循环引用内存泄漏", logical);
   ("类型比较错误", logical);
   ("逻辑错误", logical);
   ("概念错误", conceptual)].

Definition difficulty_map : list (string * Difficulty) :=
  [("初级", beginner);
   ("中级", intermediate);
   ("高级", advanced)].

(** [generate_code_example(error_type, description, difficulty)]: the
    snippet of the first keyword that the label contains.  Each [in] test
    raises when its right operand is NaN: the first test of the chain
    reads the label, the tests of the first two branches read the
    description.  The third argument is not read. *)
Definition generate_code_example (error_type description : cell)
  (level : Difficulty) : result string :=
  match error_type with
  | NaN => Raise not_iterable
  | Text label =>
      if str_in "缩进" label then
        match description with
        | NaN => Raise not_iterable
        | Text d =>
            if str_in "函数内无缩进" d then
              Ok ("def hello():
print(" ++ dquote ++ "Hello" ++ dquote ++ ")  # 缺少缩进")%string
            else if str_in "if语句内无缩进" d then
              Ok "if x > 0:
print(x)  # 缺少缩进"
            else if str_in "for循环内无缩进" d then
              Ok "for i in range(5):
print(i)  # 缺少缩进"
            else if str_in "混合使用空格和制表符" d then
              Ok ("def test():
    print(" ++ dquote ++ "line1" ++ dquote ++ ")  # 4个空格
	print(" ++ dquote ++ "line2" ++ dquote ++ ")  # 1个制表符")%string
            else
              Ok ("def example():
print(" ++ dquote ++ "indentation error" ++ dquote ++ ")  # 缺少缩进")%string
        end
      else if str_in "冒号" label then
        match description with
        | NaN => Raise not_iterable
        | Text d =>
            if str_in "if语句" d then
              Ok "if x > 0  # 缺少冒号
    print(x)"
            else if str_in "for循环" d then
              Ok "for i in range(5)  # 缺少冒号
    print(i)"
            else if str_in "函数定义" d then
              Ok ("def hello()  # 缺少冒号
    print(" ++ dquote ++ "Hello" ++ dquote ++ ")")%string
            else
              Ok "if condition  # 缺少冒号
    do_something()"
        end
      else if str_in "除零" label then
        Ok "def calculate(a, b):
    return a / b  # 当b=0时会报错

result = calculate(10, 0)"
      else if str_in "类型错误" label then
        Ok ("x = " ++ dquote ++ "10" ++ dquote ++ "
y = 5
result = x + y  # 字符串和整数不能相加")%string
      else if str_in "键错误" label then
        Ok "data = {'name': 'Alice', 'age': 25}
print(data['address'])  # 键不存在"
      else if str_in "值错误" label then
        Ok ("num = int(" ++ dquote ++ "abc" ++ dquote ++ ")  # 无法将非数字字符串转换为整数")%string
      else if str_in "编码" label then
        Ok "with open('file.txt', 'r', encoding='utf-8') as f:
    content = f.read()  # 文件实际是GBK编码"
      else if str_in "循环导入" label then
        Ok "# module_a.py
from module_b import func_b

# module_b.py
from module_a import func_a  # 循环导入"
      else if str_in "文件未关闭" label then
        Ok "f = open('data.txt', 'r')
data = f.read()
# 忘记关闭文件"
      else if str_in "作用域" label then
        Ok "def func():
    x = 10
    def inner():
        x = x + 1  # UnboundLocalError
    inner()"
      else if str_in "拷贝" label then
        Ok "original = [1, 2, [3, 4]]
copy = original.copy()  # 浅拷贝
copy[2][0] = 99  # 修改了原列表"
      else if str_in "可变默认参数" label then
        Ok "def append_to(element, target=[]):
    target.append(element)
    return target

list1 = append_to(1)  # [1]
list2 = append_to(2)  # [1, 2] 而不是 [2]"
      else if str_in "迭代中修改" label then
        Ok "items = [1, 2, 3, 4, 5]
for item in items:
    if item % 2 == 0:
        items.remove(item)  # 迭代中修改列表"
      else if str_in "浮点数精度" label then
        Ok ("a = 0.1 + 0.2
if a == 0.3:  # False，因为浮点数精度问题
    print(" ++ dquote ++ "Equal" ++ dquote ++ ")")%string
      else if str_in "循环引用" label then
        Ok "class Node:
    def __init__(self):
        self.ref = None

a = Node()
b = Node()
a.ref = b
b.ref = a  # 循环引用"
      else if str_in "类型比较" label then
        Ok ("x = [1, 2, 3]
y = [1, 2, 3]
if x is y:  # False，应该用 ==
    print(" ++ dquote ++ "Same" ++ dquote ++ ")")%string
      else
        Ok ("# " ++ shown description ++ "
def example():
    # 这里有一个 " ++ label ++ " 错误
    pass")%string
  end.

(** The three columns every record has. *)
Record Entry : Type := mkEntry {
  entry_type : cell;
  entry_level : cell;
  entry_explanation : cell
}.

(** A frame of the database: with the column of descriptions, or without
    it. *)
Inductive Frame : Type :=
| Described (rows : list (Entry * cell))
| Plain (rows : list Entry).

Definition has_description (df : Frame) : bool :=
  match df with
  | Described _ => true
  | Plain _ => false
  end.

(** [df.iterrows()]: each row with its description, if the frame has the
    column. *)
Definition iterrows (df : Frame) : list (Entry * option cell) :=
  match df with
  | Described rows => map (fun r => (fst r, Some (snd r))) rows
  | Plain rows => map (fun e => (e, None)) rows
  end.

(** [pd.concat(frames, ignore_index=True)] for a list that is not empty:
    the rows of the frames in order, over the union of their columns; a
    row of a frame that lacks a column of the union has NaN there. *)
Definition pd_concat (frames : list Frame) : Frame :=
  if existsb has_description frames
  then Described
         (flat_map
            (fun df =>
               map (fun r => (fst r,
                              match snd r with
                              | Some d => d
                              | None => NaN
                              end))
                 (iterrows df))
            frames)
  else Plain (flat_map (fun df => map fst (iterrows df)) frames).

(** What [pd.read_csv(path, encoding='utf-8')] does. *)
Inductive read_result : Type :=
| Loaded (df : Frame)
| FileNotFound
| ReadError (e : exn).

(** The files of the database, next to the module. *)
Definition database_files : list string :=
  ["语法错误数据库_扩充版.csv";
   "内容错误数据库_完整版200条.csv";
   "逻辑错误数据库_完整版200条.csv"].

(** The body of the loop of [prepare_teaching_dataset] for one row. *)
Definition make_case (row : Entry * option cell) : result TestCase :=
  let error_type_cn := entry_type (fst row) in
  let difficulty_cn := entry_level (fst row) in
  let explanation := entry_explanation (fst row) in
  let description :=
    match snd row with
    | Some d => d
    | None => explanation
    end in
  let error_type := map_get error_type_map error_type_cn runtime in
  let difficulty := map_get difficulty_map difficulty_cn beginner in
  match generate_code_example error_type_cn description difficulty with
  | Raise e => Raise e
  | Ok code_example =>
      Ok (mkCase code_example error_type difficulty
            (shown error_type_cn ++ "：" ++ shown description)%string)
  end.

(** The loop: the first row that raises ends it. *)
Fixpoint make_cases (rows : list (Entry * option cell))
  : result (list TestCase) :=
  match rows with
  | [] => Ok []
  | row :: rest =>
      match make_case row with
      | Raise e => Raise e
      | Ok c =>
          match make_cases rest with
          | Raise e => Raise e
          | Ok cs => Ok (c :: cs)
          end
      end
  end.

(** [prepare_default_dataset()]: the built-in cases. *)
Definition prepare_default_dataset : list TestCase :=
  [mkCase
     "def factorial(n):
    if n == 0:
        return 0  # Error: Should return 1
    else:
        return n * factorial(n-1)"
     logical beginner
     "基础情况错误：n=0时应返回1，否则所有结果都为0";
   mkCase
     "def print_numbers(n):
    for i in range(n)
        print(i)  # Missing colon after for statement"
     syntax beginner
     "for语句后缺少冒号";
   mkCase
     "def calculate_average(numbers):
    total = 0
    for num in numbers:
        total += num
    return total / len(numbers)  # Error: Division by zero if empty"
     logical intermediate
     "空列表会导致除零错误，需要添加检查";
   mkCase
     "def is_even(n):
    if n % 2 == 1:
        return True  # Error: Logic reversed
    return False"
     logical beginner
     "逻辑反转：n%2==1时应返回False";
   mkCase
     "def swap(arr, i, j):
    temp = arr[i]
    arr[i] = arr[j]
    # Missing: arr[j] = temp
    return arr"
     logical intermediate
     "交换逻辑不完整：缺少arr[j]=temp，导致值丢失";
   mkCase
     "def find_max(numbers):
    max_num = 0  # Error: Fails for all negative numbers
    for num in numbers:
        if num > max_num:
            max_num = num
    return max_num"
     logical intermediate
     "初始化错误：max_num=0无法处理全负数列表";
   mkCase
     "def remove_duplicates(lst):
    for item in lst:
        if lst.count(item) > 1:
            lst.remove(item)  # Error: Modifying list while iterating
    return lst"
     logical advanced
     "迭代时修改列表会导致跳过元素和索引错误";
   mkCase
     "def add_to_list(item, my_list=[]):
    my_list.append(item)  # Error: Mutable default argument
    return my_list"
     conceptual beginner
     "可变默认参数陷阱：列表会在多次调用间共享";
   mkCase
     "def fibonacci(n):
    if n <= 1:
        return n
    return fibonacci(n-1) + fibonacci(n-1)  # Error: Should be n-2"
     conceptual intermediate
     "递归逻辑错误：第二项应该是fibonacci(n-2)";
   mkCase
     "def recursive_sum(n):
    if n == 1:
        return 1
    return n + recursive_sum(n)  # Error: Should be n-1, causes infinite recursion"
     conceptual advanced
     "无限递归：递归调用应该是n-1，否则永不终止";
   mkCase
     "class Counter:
    count = 0  # Error: Class variable, not instance variable
    
    def increment(self):
        self.count += 1
        
c1 = Counter()
c2 = Counter()
c1.increment()  # Both c1 and c2 affected"
     conceptual advanced
     "类变量与实例变量混淆：count是类变量，所有实例共享";
   mkCase
     "def binary_search(arr, target):
    left, right = 0, len(arr)  # Error: Should be len(arr)-1
    while left <= right:
        mid = (left + right) // 2
        if arr[mid] == target:
            return mid
        elif arr[mid] < target:
            left = mid + 1
        else:
            right = mid - 1
    return -1"
     logical intermediate
     "边界错误：right应初始化为len(arr)-1，否则索引越界";
   mkCase
     "def merge_sorted_lists(list1, list2):
    result = []
    i = j = 0
    while i < len(list1) and j < len(list2):
        if list1[i] < list2[j]:
            result.append(list1[i])
            i += 1
        else:
            result.append(list2[j])
            j += 1
    # Missing: Append remaining elements
    return result"
     logical intermediate
     "逻辑不完整：未处理剩余元素，应添加result.extend(list1[i:])和result.extend(list2[j:])"].

Section Database.

Context {R : PyRandom}.

(** The file system as [pd.read_csv] sees it, [os.path.join] and
    [os.path.dirname(__file__)]. *)
Variable read_csv : string -> read_result.
Variable path_join : string -> string -> string.
Variable base_dir : string.

(** The loop over the paths: a file that cannot be read is skipped. *)
Fixpoint read_frames (csv_paths : list string) : list Frame :=
  match csv_paths with
  | [] => []
  | csv_path :: rest =>
      match read_csv csv_path with
      | Loaded df => df :: read_frames rest
      | FileNotFound => read_frames rest
      | ReadError _ => read_frames rest
      end
  end.

(** [load_error_database(csv_paths)] *)
Definition load_error_database (csv_paths : option (list string))
  : option Frame :=
  let paths :=
    match csv_paths with
    | None => map (path_join base_dir) database_files
    | Some paths => paths
    end in
  match read_frames paths with
  | [] => None
  | all_dataframes => Some (pd_concat all_dataframes)
  end.

(** [prepare_teaching_dataset()], run with the generator of [random] in
    state [ambient]; the rows of the frame it returns and the state it
    leaves. *)
Definition prepare_teaching_dataset (ambient : rng)
  : result (list TestCase) * rng :=
  match load_error_database None with
  | None => (Ok prepare_default_dataset, ambient)
  | Some error_db =>
      match iterrows error_db with
      | [] => (Ok prepare_default_dataset, ambient)
      | rows =>
          match make_cases rows with
          | Raise e => (Raise e, ambient)
          | Ok test_cases => sample_balanced_cases test_cases 30 42 ambient
          end
      end
  end.

End Database.

(** The description that the loop uses for a row,
    [row.get(<description column>, explanation)]. *)
Definition description_of (row : Entry * option cell) : cell :=
  match snd row with
  | Some d => d
  | None => entry_explanation (fst row)
  end.

(** The labels for which [generate_code_example] reads the description. *)
Definition reads_description (label : string) : bool :=
  str_in "缩进" label || str_in "冒号" label.

(** The rows on which an [in] test of [generate_code_example] meets NaN:
    no label, or a label that sends it to the description and no
    description. *)
Definition hits_nan (row : Entry * option cell) : bool :=
  match entry_type (fst row) with
  | NaN => true
  | Text label =>
      match description_of row with
      | NaN => reads_description label
      | Text _ => false
      end
  end.

(** The kind and the level that the loop gives to a row. *)
Definition row_key (row : Entry * option cell) : group_key :=
  (map_get error_type_map (entry_type (fst row)) runtime,
   map_get difficulty_map (entry_level (fst row)) beginner).

(** All the strata there can be. *)
Definition all_keys : list group_key :=
  list_prod error_types difficulty_levels.

(** A small database for the scenarios: a file of syntax errors with the
    column of descriptions, a file of content errors without it, and no
    third file. *)
Definition syntax_csv : Frame :=
  Described
    [(mkEntry (Text "缩进错误") (Text "初级") (Text "代码块要用缩进表示"),
      Text "函数内无缩进");
     (mkEntry (Text "引号错误") (Text "初级") (Text "字符串的引号要成对"),
      Text "字符串缺少右引号")].

Definition content_csv : Frame :=
  Plain
    [mkEntry (Text "除零错误") (Text "中级") (Text "除数不能为零");
     mkEntry (Text "文件未关闭") (Text "高级") (Text "打开的文件要关闭")].

Definition posix_join (a b : string) : string := (a ++ "/" ++ b)%string.

Definition two_files (path : string) : read_result :=
  if String.eqb path "/app/语法错误数据库_扩充版.csv" then Loaded syntax_csv
  else if String.eqb path "/app/内容错误数据库_完整版200条.csv"
       then Loaded content_csv
       else FileNotFound.

Definition content_file_only (path : string) : read_result :=
  if String.eqb path "/app/内容错误数据库_完整版200条.csv"
  then Loaded content_csv
  else FileNotFound.

Definition no_files (path : string) : read_result := FileNotFound.

(** A file in which one record has no label. *)
Definition holed_csv : Frame :=
  Plain
    [mkEntry (Text "键错误") (Text "中级") (Text "字典里没有这个键");
     mkEntry NaN (Text "初级") (Text "这一行没有错误类型")].

Definition holed_file (path : string) : read_result :=
  if String.eqb path "/app/逻辑错误数据库_完整版200条.csv"
  then Loaded holed_csv
  else ReadError (PyExn OtherError "Error tokenizing data").

(** A database whose only file has the header and no record. *)
Definition blank_files (path : string) : read_result :=
  if String.eqb path "/app/语法错误数据库_扩充版.csv"
  then Loaded (Described [])
  else FileNotFound.

(** The paths that [load_error_database] reads by default when the module
    is in [/app]. *)
Definition app_paths : list string := map (posix_join "/app") database_files.

Definition division_entry : Entry :=
  mkEntry (Text "除零错误") (Text "中级") (Text "除数不能为零").

(* ================================================================== *)
(** ** [generate_seed_prompts.py]: the seed prompts asked of the model *)

(** [str(n)] for an [int]. *)
Definition str_of_int (n : Z) : string :=
  DecimalString.NilZero.string_of_int (Z.to_int n).

(** The f-string [generation_prompt]. *)
Definition generation_prompt (num_seeds : Z) : string :=
  ("你是一位提示词工程专家，专门为编程教学助手设计高质量的系统提示词。

【任务】
请生成 "
   ++ str_of_int num_seeds
   ++ " 个不同风格的Python编程教学助手系统提示词。这些提示词将用于优化算法的初始种群。

【要求】
1. **多样性**：每个提示词应该有不同的教学风格和侧重点
2. **自然语言**：使用自然语言描述，不要求JSON格式输出
3. **教学导向**：强调引导学生思考，而非直接给答案
4. **全面覆盖**：能处理语法错误、运行时错误、逻辑错误
5. **清晰结构**：每个提示词应该有清晰的教学流程

【错误类型覆盖】
- 语法错误：缩进、冒号、括号、引号
- 运行时错误：除零、类型错误、键错误、值错误、文件错误
- 逻辑错误：作用域、拷贝、迭代修改、可变默认参数、浮点精度

【教学风格建议】
1. 友好引导型：耐心、鼓励式
2. 结构化教学型：步骤清晰、系统性强
3. 实践导向型：强调动手实践
4. 简洁清晰型：直接明了
5. 对话式教学型：亲切对话
6. 分层教学型：根据难度分层

【输出格式】
请以JSON数组格式输出，每个提示词作为一个字符串：
```json
[
  "
   ++ dquote
   ++ "第1个提示词内容..."
   ++ dquote
   ++ ",
  "
   ++ dquote
   ++ "第2个提示词内容..."
   ++ dquote
   ++ ",
  ...
]
```

【注意】
- 每个提示词长度适中（200-400字）
- 避免过度严格的规则
- 强调教育价值和引导性
- 输出格式要求学生友好（不强制JSON）

请生成 "
   ++ str_of_int num_seeds
   ++ " 个高质量的种子提示词：")%string.

(** The text from the start of [s] to its last closing bracket. *)
Fixpoint upto_last_close (s : string) : option string :=
  match s with
  | EmptyString => None
  | String c r =>
      match upto_last_close r with
      | Some t => Some (String c t)
      | None =>
          if Ascii.eqb c "]" then Some (String c EmptyString) else None
      end
  end.

(** [re.search(r'\[[\s\S]*\]', s)], the matched text: the class matches
    every character and the star is greedy, so the match runs from the
    first opening bracket that has a closing bracket after it to the last
    closing bracket of the text. *)
Fixpoint search_brackets (s : string) : option string :=
  match s with
  | EmptyString => None
  | String c r =>
      if Ascii.eqb c "[" then
        match upto_last_close r with
        | Some t => Some (String c t)
        | None => search_brackets r
        end
      else search_brackets r
  end.

(** What [json.loads] does with a text: a value of any kind, a
    [JSONDecodeError], or another exception. *)
Inductive value_outcome : Type :=
| ValueOk (v : json)
| ValueDecodeError
| ValueRaises (e : exn).

Class PyJson : Type := {
  (** [json.loads] *)
  json_loads_value : string -> value_outcome
}.

(** What the library promises of a text that begins with an opening
    bracket: it decodes to a list or not at all. *)
Definition brackets_hold_arrays (J : PyJson) : Prop :=
  forall (rest : string) (v : json),
    json_loads_value (String "[" rest) = ValueOk v ->
    exists items, v = JArray items.

(** Whether [prompt[:80].replace(...)] raises for an element of the
    decoded list: it does unless the element is a [str] (a list has no
    [replace], the other values have no slice). *)
Definition preview_raises (prompt : json) : bool :=
  match prompt with
  | JString _ => false
  | _ => true
  end.

(** Whether [len(prompts)] and the loop of the previews raise.  The
    elements of a [str] are [str]s and so are those of a [dict], its
    keys; a number, a boolean and [None] have no length. *)
Definition previews_raise (prompts : json) : bool :=
  match prompts with
  | JArray items => existsb preview_raises items
  | JString _ => false
  | JObject _ => false
  | JNumber _ => true
  | JBool _ => true
  | JNull => true
  end.

Section SeedPrompts.

Context {J : PyJson}.
Variable llm : llm_service.

Local Open Scope llm_scope.

(** [generate_seed_prompts(num_seeds)]: every exception raised inside
    its [try] ends in [return []]. *)
Definition generate_seed_prompts (num_seeds : Z) : M json :=
  reply <- invoke llm [Msg "user" (generation_prompt num_seeds)] ;;
  ret match reply with
      | Raises _ => JArray []
      | Returns response =>
          if truthy response then
            match search_brackets (text_of response) with
            | Some span =>
                match json_loads_value span with
                | ValueOk prompts =>
                    if previews_raise prompts then JArray [] else prompts
                | ValueDecodeError => JArray []
                | ValueRaises _ => JArray []
                end
            | None => JArray []
            end
          else JArray []
      end.

End SeedPrompts.

(** [json.loads] by the reader of [AsciiText]. *)
Module AsciiJson.

Definition loads_value (s : string) : value_outcome :=
  match AsciiText.parse_value (S (String.length s)) (AsciiText.skip_space s)
  with
  | Some (v, rest) =>
      match AsciiText.skip_space rest with
      | EmptyString => ValueOk v
      | String _ _ => ValueDecodeError
      end
  | None => ValueDecodeError
  end.

End AsciiJson.

#[export] Instance ascii_json : PyJson := {
  json_loads_value := AsciiJson.loads_value
}.

(** Replies of the model for the scenarios: an array of two prompts in a
    fence, and an array whose second element is a number. *)
Definition two_seeds : list string :=
  ["你是一位耐心的编程老师，先让学生自己找出错误。";
   "你是一位严谨的助教，按步骤讲解错误原因。"].

Definition fenced_reply : string :=
  ("```json" ++ String (ascii_of_nat 10) EmptyString
   ++ "[" ++ quoted "你是一位耐心的编程老师，先让学生自己找出错误。" ++ ", "
   ++ quoted "你是一位严谨的助教，按步骤讲解错误原因。" ++ "]"
   ++ String (ascii_of_nat 10) EmptyString ++ "```")%string.

Definition mixed_reply : string :=
  ("[" ++ quoted "你是一位耐心的编程老师，先让学生自己找出错误。" ++ ", 2]")%string.

Definition mixed_span_items : list json :=
  [JString "你是一位耐心的编程老师，先让学生自己找出错误。"; JNumber 2].

(** What the library promises of the pattern of the judge (an opening
    brace, one or more characters that are not a closing brace, a closing
    brace): when no opening brace comes before such a span, the span is
    the match. *)
Definition finds_first_brace_span (lib : PyText) : Prop :=
  forall pre body post : string,
    str_in "{" pre = false ->
    str_in "}" body = false ->
    body <> EmptyString ->
    re_search_braces (pre ++ "{" ++ body ++ "}" ++ post)%string
    = Some ("{" ++ body ++ "}")%string.

(** A reply of the grader that is one well-formed JSON object: the three
    sub-scores 0.9, 0.8 and 0.7 after a member that is an object itself. *)
Definition nested_reply : string :=
  ("{" ++ quoted "previous" ++ ": {" ++ quoted "accuracy" ++ ": 0.1}, "
       ++ quoted "accuracy" ++ ": 0.9, "
       ++ quoted "guidance" ++ ": 0.8, "
       ++ quoted "clarity" ++ ": 0.7}")%string.

Definition nested_llm : llm_service := scripted [says nested_reply].

(** The flat object with a failure reason, between two lines of prose. *)
Definition flat_body : string :=
  (quoted "accuracy" ++ ": 0.9, " ++ quoted "guidance" ++ ": 0.8, "
   ++ quoted "clarity" ++ ": 0.7, "
   ++ quoted "failure_reason" ++ ": " ++ quoted "没有引导学生思考")%string.

Definition prose_reply : string :=
  ("评分如下：" ++ "{" ++ flat_body ++ "}"
   ++ String (ascii_of_nat 10) "以上是我的评分。")%string.

Definition prose_llm : llm_service := scripted [says prose_reply].

(** A service that answers every call with the same short text: as the
    assistant it is graded, as the grader it gives no number, so that every
    sample scores 0.5. *)
Definition echo_llm : llm_service := fun _ _ => says "好的".

(* ================================================================== *)
(** * Properties *)

(** ** Decidable equalities and [in] *)

Lemma kind_eqb_spec a b : reflect (a = b) (kind_eqb a b).
Proof. destruct a, b; constructor; congruence. Qed.

Lemma difficulty_eqb_spec a b : reflect (a = b) (difficulty_eqb a b).
Proof. destruct a, b; constructor; congruence. Qed.

Lemma case_eqb_spec a b : reflect (a = b) (case_eqb a b).
Proof.
  unfold case_eqb. destruct a as [c k d e], b as [c' k' d' e']; simpl.
  destruct (String.eqb_spec c c'); simpl; [|constructor; congruence].
  destruct (kind_eqb_spec k k'); simpl; [|constructor; congruence].
  destruct (difficulty_eqb_spec d d'); simpl; [|constructor; congruence].
  destruct (String.eqb_spec e e'); constructor; congruence.
Qed.

Lemma starts_with_iff needle text :
  starts_with needle text = true <-> exists after, text = (needle ++ after)%string.
Proof.
  revert text. induction needle as [|a n IH]; intros text; simpl.
  - split; [intros _; now exists text | reflexivity].
  - destruct text as [|b t].
    + split; [discriminate | intros [r H]; discriminate].
    + rewrite andb_true_iff, IH. split.
      * intros [Hab [r ->]]. apply Ascii.eqb_eq in Hab. subst. now exists r.
      * intros [r H]. injection H as -> ->. split; [apply Ascii.eqb_refl|].
        now exists r.
Qed.

Lemma str_in_iff needle text :
  str_in needle text = true <-> occurs_in needle text.
Proof.
  unfold occurs_in. induction text as [|b t IH].
  - simpl. rewrite orb_false_r, starts_with_iff. split.
    + intros [r H]. now exists EmptyString, r.
    + intros [pre [post H]]. destruct pre; simpl in H.
      * now exists post.
      * discriminate.
  - cbn [str_in]. rewrite orb_true_iff, IH, starts_with_iff. split.
    + intros [[r H] | [pre [post H]]].
      * now exists EmptyString, r.
      * exists (String b pre), post. simpl. now rewrite H.
    + intros [pre [post H]]. destruct pre as [|c pre]; simpl in H.
      * left. now exists post.
      * right. injection H as _ H. now exists pre, post.
Qed.



(** ** The accumulators *)

Lemma kind_correct_incr k k' s :
  kind_correct (incr_kind_correct k s) k'
  = if kind_eqb k k' then S (kind_correct s k') else kind_correct s k'.
Proof. destruct s, k, k'; reflexivity. Qed.

Lemma kind_correct_incr_difficulty d k s :
  kind_correct (incr_difficulty_correct d s) k = kind_correct s k.
Proof. destruct s, d, k; reflexivity. Qed.

Lemma kind_correct_incr_format k s :
  kind_correct (incr_format_correct s) k = kind_correct s k.
Proof. destruct s, k; reflexivity. Qed.

Lemma kind_correct_add_educational v k s :
  kind_correct (add_educational_value v s) k = kind_correct s k.
Proof. destruct s, k; reflexivity. Qed.

Lemma difficulty_correct_incr d d' s :
  difficulty_correct (incr_difficulty_correct d s) d'
  = if difficulty_eqb d d' then S (difficulty_correct s d')
    else difficulty_correct s d'.
Proof. destruct s, d, d'; reflexivity. Qed.

Lemma difficulty_correct_incr_kind k d s :
  difficulty_correct (incr_kind_correct k s) d = difficulty_correct s d.
Proof. destruct s, k, d; reflexivity. Qed.

Lemma difficulty_correct_incr_format d s :
  difficulty_correct (incr_format_correct s) d = difficulty_correct s d.
Proof. destruct s, d; reflexivity. Qed.

Lemma difficulty_correct_add_educational v d s :
  difficulty_correct (add_educational_value v s) d = difficulty_correct s d.
Proof. destruct s, d; reflexivity. Qed.

Lemma type_count_incr k k' c :
  type_count (incr_type_count k c) k'
  = if kind_eqb k k' then S (type_count c k') else type_count c k'.
Proof. destruct c, k, k'; reflexivity. Qed.

Lemma difficulty_count_incr d d' c :
  difficulty_count (incr_difficulty_count d c) d'
  = if difficulty_eqb d d' then S (difficulty_count c d')
    else difficulty_count c d'.
Proof. destruct c, d, d'; reflexivity. Qed.

Lemma format_correct_graded row response score m st :
  format_correct (stats (record_graded row response score m st))
  = (format_correct (stats st)
     + if metrics_format_correct m then 1 else 0)%nat.
Proof.
  unfold record_graded; simpl.
  destruct (stats st) as [sy ru lo co be im ad fo ed to].
  destruct (passes score), (metrics_format_correct m),
    (error_type row), (difficulty row); simpl; lia.
Qed.

Lemma educational_sum_graded row response score m st :
  educational_value_sum (stats (record_graded row response score m st))
  = educational_value_sum (stats st) + metrics_educational_value m.
Proof.
  unfold record_graded; simpl.
  destruct (stats st) as [sy ru lo co be im ad fo ed to].
  destruct (passes score), (metrics_format_correct m),
    (error_type row), (difficulty row); reflexivity.
Qed.

Lemma kind_correct_graded row response score m st k :
  kind_correct (stats (record_graded row response score m st)) k
  = (kind_correct (stats st) k
     + if kind_eqb (error_type row) k && passes score then 1 else 0)%nat.
Proof.
  unfold record_graded; simpl.
  rewrite kind_correct_add_educational.
  destruct (metrics_format_correct m);
    rewrite ?kind_correct_incr_format;
    destruct (passes score);
    rewrite ?kind_correct_incr_difficulty, ?kind_correct_incr;
    destruct (kind_eqb (error_type row) k); simpl; lia.
Qed.

Lemma difficulty_correct_graded row response score m st d :
  difficulty_correct (stats (record_graded row response score m st)) d
  = (difficulty_correct (stats st) d
     + if difficulty_eqb (difficulty row) d && passes score then 1 else 0)%nat.
Proof.
  unfold record_graded; simpl.
  rewrite difficulty_correct_add_educational.
  destruct (metrics_format_correct m);
    rewrite ?difficulty_correct_incr_format;
    destruct (passes score);
    rewrite ?difficulty_correct_incr, ?difficulty_correct_incr_kind;
    destruct (difficulty_eqb (difficulty row) d); simpl; lia.
Qed.

(** ** The loop of [evaluate] and the outcomes of its rows *)

Section Run.

Context {lib : PyText}.
Variable llm : llm_service.

Lemma eval_row_outcome sp row st k :
  eval_row llm sp row st k
  = (record_outcome row (fst (row_outcome llm sp row k)) st,
     snd (row_outcome llm sp row k)).
Proof.
  unfold eval_row, row_outcome, bind.
  destruct (retry_loop llm _ 3 None k) as [response k1].
  destruct (no_response response); [reflexivity|].
  destruct (_evaluate_single_response llm _ _ _ _ _ k1) as [[score m] k2].
  reflexivity.
Qed.

Lemma eval_rows_run sp rows st k :
  eval_rows llm sp rows st k
  = (record_run (run_of llm sp rows k) st, snd (outcomes llm sp rows k)).
Proof.
  revert st k. induction rows as [|row rest IH]; intros st k.
  - reflexivity.
  - unfold run_of. cbn [eval_rows outcomes]. unfold bind, ret.
    rewrite eval_row_outcome.
    destruct (row_outcome llm sp row k) as [o k1]. cbn [fst snd].
    rewrite IH. unfold run_of.
    destruct (outcomes llm sp rest k1) as [os k2]. reflexivity.
Qed.

Lemma outcomes_length sp rows k :
  List.length (fst (outcomes llm sp rows k)) = List.length rows.
Proof.
  revert k. induction rows as [|row rest IH]; intros k; [reflexivity|].
  cbn [outcomes]. unfold bind, ret.
  destruct (row_outcome llm sp row k) as [o k1].
  specialize (IH k1). destruct (outcomes llm sp rest k1) as [os k2].
  simpl in *. now rewrite IH.
Qed.

Lemma run_of_length sp rows k :
  List.length (run_of llm sp rows k) = List.length rows.
Proof.
  unfold run_of. rewrite length_combine, outcomes_length. apply Nat.min_id.
Qed.

Lemma run_of_rows sp rows k : map fst (run_of llm sp rows k) = rows.
Proof.
  unfold run_of. pose proof (outcomes_length sp rows k) as H.
  revert H. generalize (fst (outcomes llm sp rows k)).
  induction rows as [|row rest IH]; intros [|o os] H; simpl in *;
    try reflexivity; try discriminate.
  f_equal. apply IH. now injection H.
Qed.

End Run.

(** ** What the loop leaves in its accumulators *)

Lemma record_run_cons ro run st :
  record_run (ro :: run) st
  = record_run run (record_outcome (fst ro) (snd ro) st).
Proof. reflexivity. Qed.

Lemma count_cons {A} (p : A -> bool) x l :
  count p (x :: l) = ((if p x then 1 else 0) + count p l)%nat.
Proof. unfold count; simpl. now destruct (p x). Qed.

Lemma count_le_length {A} (p : A -> bool) l :
  (count p l <= List.length l)%nat.
Proof. apply filter_length_le. Qed.

Lemma count_and_le {A} (p q : A -> bool) l :
  (count (fun x => p x && q x) l <= count p l)%nat.
Proof.
  induction l as [|x l IH]; [apply Nat.le_refl|].
  rewrite !count_cons. destruct (p x), (q x); simpl; lia.
Qed.

Lemma record_run_type_count run st k :
  type_count (type_counts (record_run run st)) k
  = (type_count (type_counts st) k + kind_samples k run)%nat.
Proof.
  revert st. induction run as [|[row o] run IH]; intros st.
  - unfold kind_samples, count; simpl. lia.
  - rewrite record_run_cons, IH. cbn [fst snd]. unfold kind_samples.
    rewrite count_cons.
    change (of_kind k (row, o)) with (kind_eqb (error_type row) k).
    assert (type_counts (record_outcome row o st)
            = incr_type_count (error_type row) (type_counts st)) as ->
      by (destruct o; reflexivity).
    rewrite type_count_incr.
    destruct (kind_eqb (error_type row) k); lia.
Qed.

Lemma record_run_difficulty_count run st d :
  difficulty_count (difficulty_counts (record_run run st)) d
  = (difficulty_count (difficulty_counts st) d + level_samples d run)%nat.
Proof.
  revert st. induction run as [|[row o] run IH]; intros st.
  - unfold level_samples, count; simpl. lia.
  - rewrite record_run_cons, IH. cbn [fst snd]. unfold level_samples.
    rewrite count_cons.
    change (of_level d (row, o)) with (difficulty_eqb (difficulty row) d).
    assert (difficulty_counts (record_outcome row o st)
            = incr_difficulty_count (difficulty row) (difficulty_counts st))
      as -> by (destruct o; reflexivity).
    rewrite difficulty_count_incr.
    destruct (difficulty_eqb (difficulty row) d); lia.
Qed.

Lemma record_run_kind_correct run st k :
  kind_correct (stats (record_run run st)) k
  = (kind_correct (stats st) k + kind_passes k run)%nat.
Proof.
  revert st. induction run as [|[row o] run IH]; intros st.
  - unfold kind_passes, count; simpl. lia.
  - rewrite record_run_cons, IH. cbn [fst snd]. unfold kind_passes.
    rewrite count_cons.
    change (of_kind k (row, o)) with (kind_eqb (error_type row) k).
    change (passed (row, o)) with (outcome_passes o).
    destruct o as [|response score m]; cbn [record_outcome outcome_passes].
    + cbn [stats]. rewrite andb_false_r. lia.
    + rewrite kind_correct_graded. cbn [stats].
      destruct (kind_eqb (error_type row) k && passes score); lia.
Qed.

Lemma record_run_difficulty_correct run st d :
  difficulty_correct (stats (record_run run st)) d
  = (difficulty_correct (stats st) d + level_passes d run)%nat.
Proof.
  revert st. induction run as [|[row o] run IH]; intros st.
  - unfold level_passes, count; simpl. lia.
  - rewrite record_run_cons, IH. cbn [fst snd]. unfold level_passes.
    rewrite count_cons.
    change (of_level d (row, o)) with (difficulty_eqb (difficulty row) d).
    change (passed (row, o)) with (outcome_passes o).
    destruct o as [|response score m]; cbn [record_outcome outcome_passes].
    + cbn [stats]. rewrite andb_false_r. lia.
    + rewrite difficulty_correct_graded. cbn [stats].
      destruct (difficulty_eqb (difficulty row) d && passes score); lia.
Qed.

Lemma record_run_error_samples run st :
  error_samples (record_run run st)
  = error_samples st ++ low_score_samples run.
Proof.
  revert st. induction run as [|[row o] run IH]; intros st.
  - simpl. now rewrite app_nil_r.
  - rewrite record_run_cons, IH. cbn [fst snd].
    change (low_score_samples ((row, o) :: run))
      with (low_score_entry (row, o) ++ low_score_samples run).
    destruct o as [|response score m]; cbn [record_outcome].
    + reflexivity.
    + unfold record_graded, low_score_entry. cbn [error_samples fst snd].
      destruct (low_score score); [now rewrite <- app_assoc|reflexivity].
Qed.

Lemma record_run_perf_vector run st :
  perf_vector (record_run run st)
  = perf_vector st
    ++ map (fun ro => if passed ro then 1%nat else 0%nat) run.
Proof.
  revert st. induction run as [|[row o] run IH]; intros st.
  - simpl. now rewrite app_nil_r.
  - rewrite record_run_cons, IH. cbn [fst snd map].
    change (passed (row, o)) with (outcome_passes o).
    destruct o as [|response score m];
      cbn [record_outcome outcome_passes record_graded perf_vector];
      now rewrite <- app_assoc.
Qed.

Lemma record_run_format_correct run st :
  format_correct (stats (record_run run st))
  = (format_correct (stats st) + count format_ok run)%nat.
Proof.
  revert st. induction run as [|[row o] run IH]; intros st.
  - unfold count; simpl. lia.
  - rewrite record_run_cons, IH, count_cons. cbn [fst snd].
    destruct o as [|response score m]; cbn [record_outcome].
    + change (format_ok (row, NoResponse)) with false. cbn [stats]. lia.
    + change (format_ok (row, Graded response score m))
        with (metrics_format_correct m).
      rewrite format_correct_graded. cbn [stats].
      destruct (metrics_format_correct m); lia.
Qed.

Lemma record_run_educational_sum run st :
  educational_value_sum (stats (record_run run st))
  == educational_value_sum (stats st) + Qsum (map guidance_of run).
Proof.
  revert st. induction run as [|[row o] run IH]; intros st.
  - simpl. ring.
  - rewrite record_run_cons, IH. cbn [fst snd map].
    change (Qsum (guidance_of (row, o) :: map guidance_of run))
      with (guidance_of (row, o) + Qsum (map guidance_of run)).
    destruct o as [|response score m]; cbn [record_outcome].
    + change (guidance_of (row, NoResponse)) with 0. cbn [stats]. ring.
    + change (guidance_of (row, Graded response score m))
        with (metrics_educational_value m).
      rewrite educational_sum_graded. cbn [stats]. ring.
Qed.

(** ** The scores of [evaluate] *)

Lemma Q_of_nat_nonneg n : 0 <= Q_of_nat n.
Proof.
  unfold Q_of_nat. change 0 with (inject_Z 0).
  rewrite <- Zle_Qle. lia.
Qed.

Lemma Q_of_nat_pos n : (0 < n)%nat -> 0 < Q_of_nat n.
Proof.
  intros H. unfold Q_of_nat. change 0 with (inject_Z 0).
  rewrite <- Zlt_Qlt. lia.
Qed.

Lemma Q_of_nat_le a b : (a <= b)%nat -> Q_of_nat a <= Q_of_nat b.
Proof. intros H. unfold Q_of_nat. rewrite <- Zle_Qle. lia. Qed.

(** A pass rate lies between 0 and 1. *)
Lemma rate_in_unit a b :
  (a <= b)%nat -> (0 < b)%nat ->
  0 <= Q_of_nat a / Q_of_nat b /\ Q_of_nat a / Q_of_nat b <= 1.
Proof.
  intros Hab Hb.
  pose proof (Q_of_nat_pos Hb) as Hpos.
  pose proof (Q_of_nat_nonneg a) as Ha.
  pose proof (Q_of_nat_le Hab) as Hle.
  split.
  - apply Qle_shift_div_l; [assumption|]. now rewrite Qmult_0_l.
  - apply Qle_shift_div_r; [assumption|]. now rewrite Qmult_1_l.
Qed.

Lemma true_div_nonzero a n :
  n <> 0%nat -> true_div a n = Ok (a / Q_of_nat n).
Proof. destruct n; [contradiction|reflexivity]. Qed.

Lemma error_detection_score_formula st run :
  (forall k, type_count (type_counts st) k = kind_samples k run) ->
  (forall k, kind_correct (stats st) k = kind_passes k run) ->
  error_detection_score st == error_detection_formula run.
Proof.
  intros Hc Hp. unfold error_detection_score, error_detection_formula.
  unfold error_types. cbn [fold_left filter].
  rewrite !Hc, !Hp.
  destruct (0 <? kind_samples syntax run)%nat,
    (0 <? kind_samples runtime run)%nat,
    (0 <? kind_samples logical run)%nat,
    (0 <? kind_samples conceptual run)%nat;
    cbn [map Qsum fold_right]; ring.
Qed.

Lemma difficulty_score_formula st run :
  (forall d, difficulty_count (difficulty_counts st) d = level_samples d run) ->
  (forall d, difficulty_correct (stats st) d = level_passes d run) ->
  difficulty_score st == difficulty_formula run.
Proof.
  intros Hc Hp. unfold difficulty_score, difficulty_formula.
  unfold difficulty_levels. cbn [fold_left filter].
  rewrite !Hc, !Hp.
  destruct (0 <? level_samples beginner run)%nat,
    (0 <? level_samples intermediate run)%nat,
    (0 <? level_samples advanced run)%nat;
    cbn [map Qsum fold_right]; ring.
Qed.

(* ================================================================== *)
(** ** [evaluate] in terms of the run *)

Section EvaluateRun.

Context {lib : PyText}.
Variable llm : llm_service.

Lemma evaluate_run sp rows k :
  evaluate llm sp rows k
  = (finish (List.length rows)
       (record_run (run_of llm sp rows k)
          (initial_state (List.length rows))),
     snd (outcomes llm sp rows k)).
Proof.
  unfold evaluate, bind, ret. now rewrite eval_rows_run.
Qed.

(** On a corpus with at least one row [evaluate] returns, and every part
    of what it returns is a function of the run. *)
Lemma evaluate_nonempty sp rows k :
  rows <> [] ->
  exists score ev,
    evaluate llm sp rows k = (Ok (score, ev), snd (outcomes llm sp rows k))
    /\ score = overall_score (metrics ev)
    /\ overall_score (metrics ev)
       = error_detection (metrics ev) * 0.40
         + educational_value (metrics ev) * 0.30
         + format_compliance (metrics ev) * 0.20
         + difficulty_adaptation (metrics ev) * 0.10
    /\ error_detection (metrics ev)
       == error_detection_formula (run_of llm sp rows k)
    /\ educational_value (metrics ev)
       == Qsum (map guidance_of (run_of llm sp rows k))
          / Q_of_nat (List.length rows)
    /\ format_compliance (metrics ev)
       = Q_of_nat (count format_ok (run_of llm sp rows k))
         / Q_of_nat (List.length rows)
    /\ difficulty_adaptation (metrics ev)
       == difficulty_formula (run_of llm sp rows k)
    /\ evidence_error_samples ev = low_score_samples (run_of llm sp rows k)
    /\ fp_samples ev = low_score_samples (run_of llm sp rows k)
    /\ report_error_samples (metrics ev)
       = firstn 20 (low_score_samples (run_of llm sp rows k))
    /\ evidence_perf_vector ev = map pass_bit (run_of llm sp rows k).
Proof.
  intros Hrows. rewrite evaluate_run.
  set (run := run_of llm sp rows k).
  set (n := List.length rows).
  assert (Hn : n <> 0%nat).
  { subst n. destruct rows; [contradiction|discriminate]. }
  set (st := record_run run (initial_state n)).
  unfold finish. rewrite !(true_div_nonzero _ Hn).
  eexists. eexists. split; [reflexivity|].
  cbn [metrics overall_score error_detection educational_value
         format_compliance difficulty_adaptation report_error_samples
         evidence_error_samples fp_samples evidence_perf_vector].
  assert (Hsamples : error_samples st = low_score_samples run).
  { subst st. now rewrite record_run_error_samples. }
  repeat split.
  - apply error_detection_score_formula; intros kd; subst st.
    + rewrite record_run_type_count. now destruct kd.
    + rewrite record_run_kind_correct. now destruct kd.
  - subst st. rewrite record_run_educational_sum.
    cbn [initial_state stats educational_value_sum]. now rewrite Qplus_0_l.
  - subst st. now rewrite record_run_format_correct.
  - apply difficulty_score_formula; intros d; subst st.
    + rewrite record_run_difficulty_count. now destruct d.
    + rewrite record_run_difficulty_correct. now destruct d.
  - exact Hsamples.
  - exact Hsamples.
  - now rewrite Hsamples.
  - subst st. now rewrite record_run_perf_vector.
Qed.

End EvaluateRun.

(** ** Ranges of the scores *)

Lemma passes_iff score : passes score = true <-> 0.7 <= score.
Proof. apply Qle_bool_iff. Qed.

Lemma low_score_iff score : low_score score = true <-> score < 0.85.
Proof.
  unfold low_score. rewrite negb_true_iff. split.
  - intros H. apply Qnot_le_lt. intros Hle.
    apply Qle_bool_iff in Hle. congruence.
  - intros H. destruct (Qle_bool 0.85 score) eqn:E; [|reflexivity].
    apply Qle_bool_iff in E. exfalso. exact (Qlt_not_le _ _ H E).
Qed.

Lemma error_detection_formula_unit run :
  0 <= error_detection_formula run /\ error_detection_formula run <= 1.
Proof.
  unfold error_detection_formula, error_types. cbn [filter].
  assert (H : forall k, (0 <? kind_samples k run)%nat = true ->
            0 <= Q_of_nat (kind_passes k run) / Q_of_nat (kind_samples k run)
            /\ Q_of_nat (kind_passes k run) / Q_of_nat (kind_samples k run)
               <= 1).
  { intros k Hk. apply Nat.ltb_lt in Hk.
    apply rate_in_unit; [apply count_and_le | exact Hk]. }
  pose proof (H syntax) as H1. pose proof (H runtime) as H2.
  pose proof (H logical) as H3. pose proof (H conceptual) as H4.
  clear H.
  destruct (0 <? kind_samples syntax run)%nat,
    (0 <? kind_samples runtime run)%nat,
    (0 <? kind_samples logical run)%nat,
    (0 <? kind_samples conceptual run)%nat;
    cbn [map Qsum fold_right weight];
    repeat match goal with
      | Hx : true = true -> _ |- _ => specialize (Hx eq_refl)
      | Hx : false = true -> _ |- _ => clear Hx
      end;
    repeat match goal with
      | |- context [Q_of_nat ?a / Q_of_nat ?b] =>
          generalize dependent (Q_of_nat a / Q_of_nat b); intros
      end;
    lra.
Qed.

Lemma difficulty_formula_unit run :
  0 <= difficulty_formula run /\ difficulty_formula run <= 1.
Proof.
  unfold difficulty_formula, difficulty_levels. cbn [filter].
  assert (H : forall d, (0 <? level_samples d run)%nat = true ->
            0 <= Q_of_nat (level_passes d run) / Q_of_nat (level_samples d run)
            /\ Q_of_nat (level_passes d run) / Q_of_nat (level_samples d run)
               <= 1).
  { intros d Hd. apply Nat.ltb_lt in Hd.
    apply rate_in_unit; [apply count_and_le | exact Hd]. }
  pose proof (H beginner) as H1. pose proof (H intermediate) as H2.
  pose proof (H advanced) as H3. clear H.
  destruct (0 <? level_samples beginner run)%nat,
    (0 <? level_samples intermediate run)%nat,
    (0 <? level_samples advanced run)%nat;
    cbn [map Qsum fold_right];
    repeat match goal with
      | Hx : true = true -> _ |- _ => specialize (Hx eq_refl)
      | Hx : false = true -> _ |- _ => clear Hx
      end;
    repeat match goal with
      | |- context [Q_of_nat ?a / Q_of_nat ?b] =>
          generalize dependent (Q_of_nat a / Q_of_nat b); intros
      end;
    unfold Qdiv; change (/ 3) with (1 # 3); lra.
Qed.

Lemma guidance_sum_bounds run :
  Forall guidance_in_unit (map snd run) ->
  0 <= Qsum (map guidance_of run)
  /\ Qsum (map guidance_of run) <= Q_of_nat (List.length run).
Proof.
  induction run as [|[row o] run IH]; intros H.
  - simpl. split; [apply Qle_refl|]. unfold Q_of_nat. simpl. apply Qle_refl.
  - cbn [map snd] in H. inversion H as [|? ? Ho Hrest]; subst.
    destruct (IH Hrest) as [IH0 IH1].
    cbn [map]. change (Qsum (guidance_of (row, o) :: map guidance_of run))
      with (guidance_of (row, o) + Qsum (map guidance_of run)).
    assert (Hlen : Q_of_nat (List.length ((row, o) :: run))
                   == 1 + Q_of_nat (List.length run)).
    { unfold Q_of_nat. cbn [List.length]. rewrite Nat2Z.inj_succ.
      unfold Z.succ. rewrite inject_Z_plus. ring. }
    rewrite Hlen.
    assert (Hg : 0 <= guidance_of (row, o) /\ guidance_of (row, o) <= 1).
    { destruct o as [|response score m]; unfold guidance_of; cbn [snd].
      - split; [apply Qle_refl | discriminate].
      - exact Ho. }
    destruct Hg. split; lra.
Qed.

Lemma passes_compat s q : s == q -> passes s = passes q.
Proof.
  intros H. destruct (passes q) eqn:E.
  - apply passes_iff. apply passes_iff in E. now rewrite H.
  - destruct (passes s) eqn:E'; [|reflexivity].
    apply passes_iff in E'. rewrite H in E'. apply passes_iff in E'.
    congruence.
Qed.

(** The scenario of the specification: four samples, one per kind, with
    composite scores 0.9, 0.3, 0.95 and 0.6. *)
Lemma four_scores_formula run :
  map (fun ro => error_type (fst ro)) run
  = [syntax; runtime; logical; conceptual] ->
  Forall2 score_is (run_scores run) [0.9; 0.3; 0.95; 0.6] ->
  error_detection_formula run == 0.25 * 1 + 0.35 * 0 + 0.25 * 1 + 0.15 * 0.
Proof.
  intros Hk Hs.
  destruct run as [|[r1 o1] [|[r2 o2] [|[r3 o3] [|[r4 o4] [|? ?]]]]];
    try discriminate Hk.
  cbn [map fst] in Hk. injection Hk as K1 K2 K3 K4.
  unfold run_scores in Hs. cbn [map snd] in Hs.
  inversion Hs as [|? ? ? ? S1 Hs1]; subst; clear Hs.
  inversion Hs1 as [|? ? ? ? S2 Hs2]; subst; clear Hs1.
  inversion Hs2 as [|? ? ? ? S3 Hs3]; subst; clear Hs2.
  inversion Hs3 as [|? ? ? ? S4 Hs4]; subst; clear Hs3 Hs4.
  destruct o1 as [|t1 s1 m1]; [contradiction|].
  destruct o2 as [|t2 s2 m2]; [contradiction|].
  destruct o3 as [|t3 s3 m3]; [contradiction|].
  destruct o4 as [|t4 s4 m4]; [contradiction|].
  cbn [score_is] in S1, S2, S3, S4.
  unfold error_detection_formula, kind_samples, kind_passes, count,
    of_kind, passed, error_types.
  cbn [filter fst snd outcome_passes].
  rewrite K1, K2, K3, K4.
  rewrite (passes_compat S1), (passes_compat S2), (passes_compat S3),
    (passes_compat S4).
  vm_compute. reflexivity.
Qed.

(* ================================================================== *)
(** ** The claims about [evaluate] *)

(** C1 (the code departs from the claim).  On the empty corpus [evaluate]
    does not return a report of zeros: the loop runs no row, and the
    division [stats['educational_value_sum'] / n] by [n = 0] raises
    [ZeroDivisionError], whatever the prompt and the service. *)
Theorem evaluate_empty_corpus_raises (lib : PyText) (llm : llm_service)
  (system_prompt : string) (k : nat) :
  evaluate llm system_prompt [] k
  = (Raise (PyExn ZeroDivisionError "division by zero"), k).
Proof. reflexivity. Qed.

(** C7.  On every corpus with at least one row, [error_detection] is the
    sum, over the error kinds that have a sample, of the weight of the kind
    (syntax 0.25, runtime 0.35, logical 0.25, conceptual 0.15) times the
    fraction of the samples of that kind with a composite score of at
    least 0.7, with no renormalisation for absent kinds; for four samples,
    one per kind, with composite scores 0.9, 0.3, 0.95 and 0.6 it is
    0.25*1 + 0.35*0 + 0.25*1 + 0.15*0 = 0.50. *)
Theorem error_detection_is_weighted_pass_rate (lib : PyText)
  (llm : llm_service) (system_prompt : string) (rows : list TestCase)
  (k : nat) :
  rows <> [] ->
  exists score ev,
    fst (evaluate llm system_prompt rows k) = Ok (score, ev)
    /\ error_detection (metrics ev)
       == error_detection_formula (run_of llm system_prompt rows k)
    /\ map weight error_types = [0.25; 0.35; 0.25; 0.15]
    /\ (map error_type rows = [syntax; runtime; logical; conceptual] ->
        Forall2 score_is (run_scores (run_of llm system_prompt rows k))
          [0.9; 0.3; 0.95; 0.6] ->
        error_detection (metrics ev) == 0.50).
Proof.
  intros Hrows.
  destruct (evaluate_nonempty llm system_prompt k Hrows)
    as (score & ev & Hev & _ & _ & Hed & _).
  exists score, ev. rewrite Hev. repeat split; try assumption.
  intros Hkinds Hscores. rewrite Hed.
  rewrite four_scores_formula; [reflexivity| |assumption].
  rewrite <- (run_of_rows llm system_prompt rows k) in Hkinds.
  now rewrite map_map in Hkinds.
Qed.

Lemma error_detection_is_weighted_pass_rate_witness :
  four_kinds <> []
  /\ exists score ev,
       fst (evaluate four_kinds_llm "你是一个编程教学助手。" four_kinds 0%nat)
       = Ok (score, ev)
       /\ error_detection (metrics ev) == 0.50.
Proof.
  split; [discriminate|].
  destruct (@error_detection_is_weighted_pass_rate ascii_text four_kinds_llm
              "你是一个编程教学助手。" four_kinds 0%nat)
    as (score & ev & Hev & _ & _ & Hexample); [discriminate|].
  exists score, ev. split; [exact Hev|].
  apply Hexample; [reflexivity|].
  vm_compute. repeat constructor.
Defined.

(** C9.  On every corpus with at least one row, [difficulty_adaptation]
    is the sum, over the difficulty tiers that have a sample, of the
    fraction of the samples of the tier with a composite score of at least
    0.7, each divided by 3: the divisor is 3 whatever the number of tiers
    present, so an absent tier adds 0 and nothing is renormalised. *)
Theorem difficulty_score_divides_by_three (lib : PyText)
  (llm : llm_service) (system_prompt : string) (rows : list TestCase)
  (k : nat) :
  rows <> [] ->
  exists score ev,
    fst (evaluate llm system_prompt rows k) = Ok (score, ev)
    /\ difficulty_adaptation (metrics ev)
       == difficulty_formula (run_of llm system_prompt rows k).
Proof.
  intros Hrows.
  destruct (evaluate_nonempty llm system_prompt k Hrows)
    as (score & ev & Hev & _ & _ & _ & _ & _ & Hd & _).
  exists score, ev. rewrite Hev. now split.
Qed.

Lemma difficulty_score_divides_by_three_witness :
  [one_case] <> []
  /\ exists score ev,
       fst (evaluate generous_llm "你是一个编程教学助手。" [one_case] 0%nat)
       = Ok (score, ev)
       /\ difficulty_adaptation (metrics ev) == 1 # 3.
Proof.
  split; [discriminate|].
  destruct (@difficulty_score_divides_by_three ascii_text generous_llm
              "你是一个编程教学助手。" [one_case] 0%nat)
    as (score & ev & Hev & Hd); [discriminate|].
  exists score, ev. split; [exact Hev|].
  rewrite Hd. vm_compute. reflexivity.
Defined.

Lemma low_score_samples_in run s :
  In s (low_score_samples run)
  <-> exists row response score m,
        In (row, Graded response score m) run
        /\ score < 0.85
        /\ s = LowScore (code row) response (expected_output row)
                 (error_type row) (difficulty row) score
                 (metrics_failure_reason m).
Proof.
  unfold low_score_samples. rewrite in_flat_map. split.
  - intros [[row o] [Hin Hs]]. unfold low_score_entry in Hs. cbn [fst snd] in Hs.
    destruct o as [|response score m]; [contradiction|].
    destruct (low_score score) eqn:E; [|contradiction].
    destruct Hs as [Hs|[]]. exists row, response, score, m.
    repeat split; [assumption | now apply low_score_iff | now symmetry].
  - intros (row & response & score & m & Hin & Hlow & ->).
    exists (row, Graded response score m). split; [assumption|].
    unfold low_score_entry. cbn [fst snd].
    apply low_score_iff in Hlow. rewrite Hlow. now left.
Qed.

(** C5, as the code has it.  On every corpus with at least one row, the
    collected samples are exactly the graded samples (those that got a
    response) whose composite score is below 0.85, each with its input,
    response, expected outcome, kind, difficulty, score and failure
    reason, in evaluation order.  [evidence['error_samples']] and
    [evidence['fp_samples']] hold the whole collection; only the one in
    the report, [evidence['metrics']['error_samples']], is cut to its
    first 20 entries. *)
Theorem low_score_samples_collected_and_capped (lib : PyText)
  (llm : llm_service) (system_prompt : string) (rows : list TestCase)
  (k : nat) :
  rows <> [] ->
  exists score ev,
    fst (evaluate llm system_prompt rows k) = Ok (score, ev)
    /\ evidence_error_samples ev
       = low_score_samples (run_of llm system_prompt rows k)
    /\ (forall s,
          In s (evidence_error_samples ev)
          <-> exists row response score m,
                In (row, Graded response score m)
                  (run_of llm system_prompt rows k)
                /\ score < 0.85
                /\ s = LowScore (code row) response (expected_output row)
                         (error_type row) (difficulty row) score
                         (metrics_failure_reason m))
    /\ fp_samples ev = evidence_error_samples ev
    /\ report_error_samples (metrics ev)
       = firstn 20 (evidence_error_samples ev)
    /\ (List.length (report_error_samples (metrics ev)) <= 20)%nat.
Proof.
  intros Hrows.
  destruct (evaluate_nonempty llm system_prompt k Hrows)
    as (score & ev & Hev & _ & _ & _ & _ & _ & _ & Hes & Hfp & Hrep & _).
  exists score, ev. rewrite Hev. repeat split.
  - exact Hes.
  - rewrite Hes. apply low_score_samples_in.
  - rewrite Hes. apply low_score_samples_in.
  - now rewrite Hes, Hfp.
  - now rewrite Hes.
  - rewrite Hrep. apply firstn_le_length.
Qed.

Lemma low_score_samples_collected_and_capped_witness :
  four_kinds <> []
  /\ exists score ev,
       fst (evaluate four_kinds_llm "你是一个编程教学助手。" four_kinds 0%nat)
       = Ok (score, ev)
       /\ map sample_input (report_error_samples (metrics ev))
          = ["print(1 / 0)"; "def add(item, xs=[]): xs.append(item)"]
       /\ (List.length (report_error_samples (metrics ev)) <= 20)%nat.
Proof.
  split; [discriminate|].
  destruct (@low_score_samples_collected_and_capped ascii_text four_kinds_llm
              "你是一个编程教学助手。" four_kinds 0%nat)
    as (score & ev & Hev & Hes & _ & _ & Hrep & Hcap); [discriminate|].
  exists score, ev. repeat split; [exact Hev | | exact Hcap].
  rewrite Hrep, Hes. reflexivity.
Defined.

(** C5, as stated, fails twice.  A row without a response counts as a
    composite score of 0, which is below 0.85, and is not collected: with
    an assistant that never answers, the run returns the score 0 and every
    list of samples is empty.  And the collection is not capped where the
    optimizer reads it: with 21 samples graded 0.5, [error_samples] and
    [fp_samples] of the evidence hold 21 entries, and only the list inside
    the metrics has 20. *)
Lemma unanswered_sample_is_not_collected :
  (exhausts_retries silent_llm "你是一个编程教学助手。" one_case 0
   /\ exists score ev,
        fst (evaluate silent_llm "你是一个编程教学助手。" [one_case] 0%nat)
        = Ok (score, ev)
        /\ score == 0
        /\ evidence_perf_vector ev = [0%nat]
        /\ evidence_error_samples ev = []
        /\ fp_samples ev = []
        /\ report_error_samples (metrics ev) = [])
  /\ exists score ev,
       fst (evaluate echo_llm "你是一个编程教学助手。" (repeat one_case 21)
              0%nat)
       = Ok (score, ev)
       /\ List.length (evidence_error_samples ev) = 21%nat
       /\ List.length (fp_samples ev) = 21%nat
       /\ List.length (report_error_samples (metrics ev)) = 20%nat.
Proof.
  split.
  - split.
    + intros i Hi.
      destruct i as [|[|[|i]]]; [reflexivity | exact I | reflexivity | lia].
    + eexists. eexists. split; [vm_compute; reflexivity|].
      repeat split; reflexivity.
  - eexists. eexists. split; [vm_compute; reflexivity|].
    repeat split; reflexivity.
Qed.

(** ** Samples without a response *)

Section Retries.

Context {lib : PyText}.
Variable llm : llm_service.

Lemma retry_loop_exhausted messages n response k :
  no_response response = true ->
  (forall i, (i < n)%nat ->
     match llm (k + i)%nat messages with
     | Raises _ => True
     | Returns text => no_response text = true
     end) ->
  exists r,
    retry_loop llm messages n response k = (r, (k + n)%nat)
    /\ no_response r = true.
Proof.
  revert response k. induction n as [|n IH]; intros response k Hresp Hall.
  - exists response. cbn [retry_loop]. unfold ret.
    now rewrite Nat.add_0_r.
  - cbn [retry_loop]. unfold bind, invoke.
    pose proof (Hall 0%nat ltac:(lia)) as H0. rewrite Nat.add_0_r in H0.
    assert (Hrest : forall i, (i < n)%nat ->
              match llm (S k + i)%nat messages with
              | Raises _ => True
              | Returns text => no_response text = true
              end).
    { intros i Hi. specialize (Hall (S i) ltac:(lia)).
      now rewrite Nat.add_succ_r in Hall. }
    destruct (llm k messages) as [e|text].
    + destruct (IH response (S k) Hresp Hrest) as [r [Hr Hnr]].
      exists r. rewrite Hr. split; [f_equal; lia | exact Hnr].
    + assert (Hno : truthy text && negb (str_blank (text_of text)) = false).
      { unfold no_response in H0.
        destruct (truthy text), (str_blank (text_of text));
          simpl in *; congruence. }
      rewrite Hno.
      destruct (IH text (S k) H0 Hrest) as [r [Hr Hnr]].
      exists r. rewrite Hr. split; [f_equal; lia | exact Hnr].
Qed.

End Retries.

(** C2, as the code has it.  When the three calls of the retry loop for a
    row each raise or return nothing but blanks, the row is not graded (the
    service is called exactly three times), nothing is raised, a [0] is
    appended to the pass vector, and the score total, the pass counts, the
    format count, the guidance sum and the collected samples stay as they
    were: the row counts as a score of 0, and no entry or failure reason
    is recorded for it. *)
Theorem exhausted_retries_leave_no_record (lib : PyText) (llm : llm_service)
  (system_prompt : string) (row : TestCase) (st : LoopState) (k : nat) :
  exhausts_retries llm system_prompt row k ->
  row_outcome llm system_prompt row k = (NoResponse, (k + 3)%nat)
  /\ eval_row llm system_prompt row st k
     = (mkLoop (total_score st) (perf_vector st ++ [0%nat])
          (error_samples st) (stats st)
          (incr_type_count (error_type row) (type_counts st))
          (incr_difficulty_count (difficulty row) (difficulty_counts st)),
        (k + 3)%nat).
Proof.
  intros Hex.
  assert (Hout : row_outcome llm system_prompt row k
                 = (NoResponse, (k + 3)%nat)).
  { unfold row_outcome, bind.
    destruct (@retry_loop_exhausted lib llm _ 3%nat None k eq_refl Hex)
      as [r [Hr Hnr]].
    rewrite Hr, Hnr. reflexivity. }
  split; [exact Hout|].
  rewrite eval_row_outcome, Hout. reflexivity.
Qed.

Lemma silent_llm_exhausts sp :
  exhausts_retries silent_llm sp one_case 0.
Proof.
  intros i Hi.
  destruct i as [|[|[|i]]]; [vm_compute; auto ..|lia].
Defined.

Lemma exhausted_retries_leave_no_record_witness :
  exhausts_retries silent_llm "你是一个编程教学助手。" one_case 0
  /\ eval_row silent_llm "你是一个编程教学助手。" one_case (initial_state 1)
       0%nat
     = (mkLoop 0 [0%nat] [] (mkStats 0 0 0 0 0 0 0 0 0 1)
          (mkTypeCounts 0 1 0 0) (mkDifficultyCounts 1 0 0), 3%nat).
Proof.
  split; [apply silent_llm_exhausts|].
  apply (@exhausted_retries_leave_no_record ascii_text silent_llm
           "你是一个编程教学助手。" one_case (initial_state 1) 0%nat).
  apply silent_llm_exhausts.
Defined.

(** C2, as stated, fails: with an assistant that never answers, the
    retries of the only row are exhausted and [evaluate] returns, but no
    list of the evidence holds an entry for the row, so there is no record
    with score 0 and a failure reason. *)
Lemma exhausted_retries_emit_no_failure_reason :
  exhausts_retries silent_llm "你是一个编程教学助手。" one_case 0
  /\ exists score ev,
       fst (evaluate silent_llm "你是一个编程教学助手。" [one_case] 0%nat)
       = Ok (score, ev)
       /\ evidence_perf_vector ev = [0%nat]
       /\ ~ reports_failure ev one_case.
Proof.
  split; [apply silent_llm_exhausts|].
  eexists. eexists. split; [vm_compute; reflexivity|].
  split; [reflexivity|].
  intros (s & reason & [H|[H|H]] & _); exact H.
Qed.

(** ** The range of the scores *)

Lemma run_of_outcomes {lib : PyText} llm sp rows k :
  map snd (run_of llm sp rows k) = fst (outcomes llm sp rows k).
Proof.
  unfold run_of. pose proof (outcomes_length llm sp rows k) as H.
  revert H. generalize (fst (outcomes llm sp rows k)).
  induction rows as [|row rest IH]; intros [|o os] H; simpl in *;
    try reflexivity; try discriminate.
  f_equal. apply IH. now injection H.
Qed.

(** C3, as stated, fails: the sub-scores of the grader are used as they
    come.  When the grader answers 5 for each of them, the educational
    score is 5 and the overall score is above 1. *)
Lemma scores_exceed_one_with_generous_grader :
  exists score ev,
    fst (evaluate generous_llm "你是一个编程教学助手。" [one_case] 0%nat)
    = Ok (score, ev)
    /\ score = overall_score (metrics ev)
    /\ educational_value (metrics ev) == 5
    /\ ~ in_unit (educational_value (metrics ev))
    /\ ~ in_unit (overall_score (metrics ev)).
Proof.
  eexists. eexists. split; [vm_compute; reflexivity|].
  cbn [metrics educational_value overall_score].
  split; [reflexivity|]. split; [reflexivity|].
  split; intros [_ H]; vm_compute in H; apply H; reflexivity.
Qed.

(** C3, as the code has it.  On every corpus with at least one row the
    error-detection, format and difficulty scores lie in [0,1]; when every
    guidance value extracted for a graded sample lies in [0,1], so do the
    educational score and the overall score that [evaluate] returns. *)
Theorem scores_in_unit_interval (lib : PyText) (llm : llm_service)
  (system_prompt : string) (rows : list TestCase) (k : nat) :
  rows <> [] ->
  exists score ev,
    fst (evaluate llm system_prompt rows k) = Ok (score, ev)
    /\ score = overall_score (metrics ev)
    /\ in_unit (error_detection (metrics ev))
    /\ in_unit (format_compliance (metrics ev))
    /\ in_unit (difficulty_adaptation (metrics ev))
    /\ (Forall guidance_in_unit (fst (outcomes llm system_prompt rows k)) ->
        in_unit (educational_value (metrics ev))
        /\ in_unit (overall_score (metrics ev))).
Proof.
  intros Hrows.
  destruct (evaluate_nonempty llm system_prompt k Hrows)
    as (score & ev & Hev & Hscore & Hall & Hed & Hedu & Hfmt & Hdiff & _).
  set (run := run_of llm system_prompt rows k) in *.
  assert (Hlen : List.length run = List.length rows)
    by apply run_of_length.
  assert (Hpos : (0 < List.length rows)%nat)
    by (destruct rows; [contradiction | simpl; lia]).
  assert (Hd : in_unit (error_detection (metrics ev))).
  { unfold in_unit. rewrite Hed. apply error_detection_formula_unit. }
  assert (Hf : in_unit (format_compliance (metrics ev))).
  { unfold in_unit. rewrite Hfmt. apply rate_in_unit; [|exact Hpos].
    rewrite <- Hlen. apply count_le_length. }
  assert (Hl : in_unit (difficulty_adaptation (metrics ev))).
  { unfold in_unit. rewrite Hdiff. apply difficulty_formula_unit. }
  exists score, ev. rewrite Hev.
  split; [reflexivity|]. split; [exact Hscore|]. split; [exact Hd|].
  split; [exact Hf|]. split; [exact Hl|].
  intros Hg.
  assert (He : in_unit (educational_value (metrics ev))).
  { unfold in_unit. rewrite Hedu.
    rewrite <- (@run_of_outcomes lib llm system_prompt rows k) in Hg.
    destruct (guidance_sum_bounds _ Hg) as [H0 H1].
    fold run in H0, H1. rewrite Hlen in H1.
    pose proof (Q_of_nat_pos Hpos) as Hn. split.
    - apply Qle_shift_div_l; [exact Hn | now rewrite Qmult_0_l].
    - apply Qle_shift_div_r; [exact Hn | now rewrite Qmult_1_l]. }
  split; [exact He|].
  unfold in_unit. rewrite Hall. destruct Hd, Hf, Hl, He. split; lra.
Qed.

Lemma scores_in_unit_interval_witness :
  four_kinds <> []
  /\ exists score ev,
       fst (evaluate four_kinds_llm "你是一个编程教学助手。" four_kinds 0%nat)
       = Ok (score, ev)
       /\ in_unit (error_detection (metrics ev))
       /\ in_unit (educational_value (metrics ev))
       /\ in_unit (overall_score (metrics ev)).
Proof.
  split; [discriminate|].
  destruct (@scores_in_unit_interval ascii_text four_kinds_llm
              "你是一个编程教学助手。" four_kinds 0%nat)
    as (score & ev & Hev & _ & Hd & _ & _ & Hg); [discriminate|].
  exists score, ev. split; [exact Hev|]. split; [exact Hd|].
  apply Hg. vm_compute. repeat constructor; discriminate.
Defined.

(* ================================================================== *)
(** ** The judge *)

Lemma score_metrics_format {lib : PyText} fmt m :
  metrics_format_correct (snd (score_metrics fmt m)) = fmt.
Proof.
  unfold score_metrics.
  destruct (as_number (dict_get m "accuracy" _)); [|reflexivity].
  destruct (as_number (dict_get m "guidance" _)); [|reflexivity].
  destruct (as_number (dict_get m "clarity" _)); reflexivity.
Qed.

Lemma judge_text_format {lib : PyText} fmt eval_result :
  metrics_format_correct (snd (judge_text fmt eval_result)) = fmt.
Proof.
  unfold judge_text.
  destruct (re_search_braces eval_result) as [span|];
    [destruct (json_loads span)|]; try apply score_metrics_format.
  reflexivity.
Qed.

(** The arithmetic of the judge: when the span that the pattern finds
    decodes with accuracy 0.9, guidance 0.8 and clarity 0.7, the composite
    score is 0.5*0.9 + 0.3*0.8 + 0.2*0.7 = 0.83. *)
Lemma decoded_span_scores_083 (lib : PyText) (llm : llm_service)
  (code response : string) (kind : ErrorKind) (level : Difficulty)
  (expected : string) (k : nat) (eval_result span : string) (m : pydict)
  (accuracy guidance clarity : Q) :
  llm k [Msg "user" (eval_prompt code response kind level expected)]
  = Returns (Some eval_result) ->
  eval_result <> EmptyString ->
  re_search_braces eval_result = Some span ->
  json_loads span = LoadsOk m ->
  dict_get m "accuracy" (JNumber 0.5) = JNumber accuracy ->
  dict_get m "guidance" (JNumber 0.5) = JNumber guidance ->
  dict_get m "clarity" (JNumber 0.5) = JNumber clarity ->
  accuracy == 0.9 -> guidance == 0.8 -> clarity == 0.7 ->
  let score :=
    fst (fst (_evaluate_single_response llm code response kind level
                expected k)) in
  score == 0.5 * 0.9 + 0.3 * 0.8 + 0.2 * 0.7 /\ score == 0.83.
Proof.
  intros Hreply Hne Hspan Hloads Ha Hg Hc Ea Eg Ec.
  unfold _evaluate_single_response, bind, invoke, ret. rewrite Hreply.
  cbn [fst snd truthy text_of].
  destruct (String.eqb_spec eval_result EmptyString) as [E|_];
    [contradiction|].
  cbn [negb]. unfold judge_text. rewrite Hspan, Hloads.
  unfold score_metrics. rewrite Ha, Hg, Hc. cbn [as_number fst].
  rewrite Ea, Eg, Ec. split; reflexivity.
Qed.

(** The judge finds the object inside surrounding prose. *)
Lemma upto_close_body body rest :
  str_in "}" body = false ->
  AsciiText.upto_close (body ++ String "}" rest)%string
  = Some (body ++ "}")%string.
Proof.
  induction body as [|b t IH]; intros H; [reflexivity|].
  cbn [str_in starts_with] in H.
  apply orb_false_iff in H. destruct H as [Hb Ht].
  cbn [append AsciiText.upto_close].
  destruct (Ascii.eqb_spec b "}") as [->|_].
  - simpl in Hb. destruct t; discriminate.
  - now rewrite (IH Ht).
Qed.

Lemma search_braces_after_prose pre body post :
  str_in "{" pre = false -> str_in "}" body = false ->
  body <> EmptyString ->
  AsciiText.search_braces
    (pre ++ String "{" (body ++ String "}" post))%string
  = Some (String "{" (body ++ "}"))%string.
Proof.
  intros Hpre Hbody Hne. induction pre as [|a pre IH].
  - cbn [append AsciiText.search_braces]. rewrite Ascii.eqb_refl.
    rewrite (@upto_close_body body post Hbody).
    destruct body as [|b t]; [contradiction|].
    cbn [append]. cbn [str_in starts_with] in Hbody.
    apply orb_false_iff in Hbody. destruct Hbody as [Hb _].
    destruct (Ascii.eqb_spec b "}") as [->|_]; [|reflexivity].
    simpl in Hb. destruct t; discriminate.
  - cbn [str_in starts_with] in Hpre. apply orb_false_iff in Hpre.
    destruct Hpre as [Ha Hrest].
    cbn [append AsciiText.search_braces].
    destruct (Ascii.eqb_spec a "{") as [->|_].
    + simpl in Ha. destruct pre; discriminate.
    + now apply IH.
Qed.

Lemma judge_tolerates_prose fmt pre post :
  str_in "{" pre = false ->
  fst (judge_text (lib:=ascii_text) fmt
         (pre ++ grader_json "0.9" "0.8" "0.7" ++ post)%string) == 0.83.
Proof.
  intros Hpre. unfold judge_text. cbn [re_search_braces ascii_text].
  assert (E : AsciiText.search_braces
                (pre ++ grader_json "0.9" "0.8" "0.7" ++ post)%string
              = Some (grader_json "0.9" "0.8" "0.7")).
  { let body := eval vm_compute in
         (quoted "accuracy" ++ ": 0.9, " ++ quoted "guidance" ++ ": 0.8, "
          ++ quoted "clarity" ++ ": 0.7")%string in
    exact (@search_braces_after_prose pre body post Hpre eq_refl
             ltac:(discriminate)). }
  rewrite E. vm_compute. reflexivity.
Qed.

(** The pattern of [AsciiText] keeps the promise of the library. *)
Lemma ascii_text_finds_first_brace_span : finds_first_brace_span ascii_text.
Proof.
  intros pre body post Hpre Hbody Hne.
  exact (@search_braces_after_prose pre body post Hpre Hbody Hne).
Qed.

(** C8, as the code has it.  The judge decodes the text from the first
    opening brace of the grader's reply to the first closing brace after
    it.  When that span is a well-formed JSON object with accuracy 0.9,
    guidance 0.8 and clarity 0.7 (the object has no closing brace inside
    it, and no opening brace comes before it in the reply), the composite
    score is 0.5*0.9 + 0.3*0.8 + 0.2*0.7 = 0.83, whatever surrounds the
    object. *)
Theorem structured_reply_scores_083 (lib : PyText) (llm : llm_service)
  (code response : string) (kind : ErrorKind) (level : Difficulty)
  (expected : string) (k : nat) (pre body post : string) (m : pydict)
  (accuracy guidance clarity : Q) :
  finds_first_brace_span lib ->
  llm k [Msg "user" (eval_prompt code response kind level expected)]
  = Returns (Some (pre ++ "{" ++ body ++ "}" ++ post)%string) ->
  str_in "{" pre = false ->
  str_in "}" body = false ->
  body <> EmptyString ->
  json_loads ("{" ++ body ++ "}")%string = LoadsOk m ->
  dict_get m "accuracy" (JNumber 0.5) = JNumber accuracy ->
  dict_get m "guidance" (JNumber 0.5) = JNumber guidance ->
  dict_get m "clarity" (JNumber 0.5) = JNumber clarity ->
  accuracy == 0.9 -> guidance == 0.8 -> clarity == 0.7 ->
  let score :=
    fst (fst (_evaluate_single_response llm code response kind level
                expected k)) in
  score == 0.5 * 0.9 + 0.3 * 0.8 + 0.2 * 0.7 /\ score == 0.83.
Proof.
  intros Hlib Hreply Hpre Hbody Hne Hloads Ha Hg Hc Ea Eg Ec.
  apply (@decoded_span_scores_083 lib llm code response kind level expected
           k (pre ++ "{" ++ body ++ "}" ++ post)%string
           ("{" ++ body ++ "}")%string m accuracy guidance clarity);
    try assumption.
  - destruct pre; discriminate.
  - now apply Hlib.
Qed.

Lemma structured_reply_scores_083_witness :
  fst (fst (_evaluate_single_response (lib := ascii_text) prose_llm
              "print(1 / 0)" tutor_reply runtime beginner "除零错误" 0%nat))
  == 0.83.
Proof.
  apply (@structured_reply_scores_083 ascii_text prose_llm
           "print(1 / 0)" tutor_reply runtime beginner "除零错误" 0%nat
           "评分如下：" flat_body
           (String (ascii_of_nat 10) "以上是我的评分。")
           [("failure_reason", JString "没有引导学生思考");
            ("clarity", JNumber 0.7); ("guidance", JNumber 0.8);
            ("accuracy", JNumber 0.9)]
           0.9 0.8 0.7);
    solve [ exact ascii_text_finds_first_brace_span
          | vm_compute; reflexivity
          | discriminate
          | reflexivity ].
Defined.

(** C8, as stated, fails: a reply that is one well-formed JSON object
    with accuracy 0.9, guidance 0.8 and clarity 0.7 is not scored 0.83
    when a member before them is an object itself.  The span of the judge
    ends at the closing brace of that member and does not decode; the
    fallback then reads the first number after each name in the whole
    text, here the 0.1 of the inner object, and the score is
    0.5*0.1 + 0.3*0.8 + 0.2*0.7 = 0.43. *)
Lemma well_formed_reply_scores_043 :
  (exists m,
     @json_loads ascii_text nested_reply = LoadsOk m
     /\ dict_get m "accuracy" (JNumber 0.5) = JNumber 0.9
     /\ dict_get m "guidance" (JNumber 0.5) = JNumber 0.8
     /\ dict_get m "clarity" (JNumber 0.5) = JNumber 0.7)
  /\ fst (fst (_evaluate_single_response (lib := ascii_text) nested_llm
                 "print(1 / 0)" tutor_reply runtime beginner "除零错误"
                 0%nat))
     == 0.43
  /\ ~ fst (fst (_evaluate_single_response (lib := ascii_text) nested_llm
                   "print(1 / 0)" tutor_reply runtime beginner "除零错误"
                   0%nat))
       == 0.83.
Proof.
  split; [|split].
  - eexists. split; [vm_compute; reflexivity|].
    repeat split; reflexivity.
  - vm_compute. reflexivity.
  - vm_compute. discriminate.
Qed.

(** In double precision the two scenarios give the same numbers. *)
Lemma binary64_composite_083 :
  Binary64.scenario_composite = Binary64.literal_083.
Proof. reflexivity. Qed.

Lemma binary64_error_detection_050 :
  Binary64.scenario_error_detection = Binary64.literal_050.
Proof. reflexivity. Qed.

(* ================================================================== *)
(** ** The format check *)

Lemma any_marker_iff (markers : list string) response :
  existsb (fun m => str_in m response) markers = true
  <-> exists m, In m markers /\ occurs_in m response.
Proof.
  rewrite existsb_exists. split; intros [m [Hin H]]; exists m;
    (split; [exact Hin|]); now apply str_in_iff.
Qed.

(** C10.  For every reply of the assistant, the format check holds if and
    only if the reply contains one of the code markers (a fence of three
    backquotes, "def ", "return") and one of the explanation markers
    ("错误", "Error", "问题", "修正"); the judge reports this value
    whatever the grading model replies. *)
Theorem check_format_iff_markers (response : string) :
  (_check_format response = true
   <-> (exists m, In m code_markers /\ occurs_in m response)
       /\ (exists m, In m explanation_markers /\ occurs_in m response))
  /\ forall (lib : PyText) (llm : llm_service) (code : string)
       (kind : ErrorKind) (level : Difficulty) (expected : string) (k : nat),
       metrics_format_correct
         (snd (fst (_evaluate_single_response llm code response kind level
                      expected k)))
       = _check_format response.
Proof.
  split.
  - rewrite <- !any_marker_iff. unfold _check_format, code_markers,
      explanation_markers. cbn [existsb].
    rewrite !orb_false_r, andb_true_iff, !orb_assoc. reflexivity.
  - intros lib llm code kind level expected k.
    unfold _evaluate_single_response, bind, invoke, ret. cbn [fst snd].
    destruct (llm k _) as [e|eval_result]; [reflexivity|].
    destruct (truthy eval_result); [apply judge_text_format|reflexivity].
Qed.

Example check_format_accepts : _check_format tutor_reply = true.
Proof. reflexivity. Qed.

Example check_format_needs_explanation :
  _check_format "def f(x): return x" = false.
Proof. reflexivity. Qed.

Example check_format_needs_code :
  _check_format "这里有一个错误，请修正。" = false.
Proof. reflexivity. Qed.

(* ================================================================== *)
(** ** The order of the strata *)

Lemma key_eqb_spec a b : reflect (a = b) (key_eqb a b).
Proof.
  destruct a as [k d], b as [k' d']. unfold key_eqb; simpl.
  destruct (kind_eqb_spec k k'), (difficulty_eqb_spec d d');
    constructor; congruence.
Qed.

Lemma key_lt_irrefl a : ~ key_lt a a.
Proof. destruct a as [[] []]; discriminate. Qed.

Lemma key_lt_trans a b c : key_lt a b -> key_lt b c -> key_lt a c.
Proof.
  unfold key_lt.
  destruct a as [[] []], b as [[] []]; try discriminate;
    destruct c as [[] []]; try discriminate; reflexivity.
Qed.

Lemma key_lt_total a b : a <> b -> key_lt a b \/ key_lt b a.
Proof.
  unfold key_lt.
  destruct a as [[] []], b as [[] []]; intros H;
    try (now left); try (now right); now contradiction H.
Qed.

Lemma add_case_keys groups c k :
  In k (map fst (add_case groups c))
  <-> k = key_of c \/ In k (map fst groups).
Proof.
  induction groups as [|[k' cs] rest IH]; simpl.
  - intuition.
  - destruct (key_eqb_spec k' (key_of c)) as [E|E]; simpl.
    + subst. intuition.
    + rewrite IH. intuition.
Qed.

Lemma add_case_NoDup groups c :
  NoDup (map fst groups) -> NoDup (map fst (add_case groups c)).
Proof.
  induction groups as [|[k' cs] rest IH]; simpl; intros H.
  - constructor; [intros []|constructor].
  - inversion H as [|? ? Hnot Hrest]; subst.
    destruct (key_eqb_spec k' (key_of c)) as [E|E]; simpl.
    + now constructor.
    + constructor; [|now apply IH].
      rewrite add_case_keys. intros [E'|Hin]; [congruence|contradiction].
Qed.

Lemma group_cases_NoDup cases : NoDup (map fst (group_cases cases)).
Proof.
  unfold group_cases.
  assert (H : forall groups, NoDup (map fst groups) ->
            NoDup (map fst (fold_left add_case cases groups))).
  { induction cases as [|c cases IH]; intros groups Hg; simpl.
    - exact Hg.
    - apply IH. now apply add_case_NoDup. }
  apply H. constructor.
Qed.

Lemma insert_item_perm x l : Permutation (insert_item x l) (x :: l).
Proof.
  induction l as [|y r IH]; simpl.
  - apply Permutation_refl.
  - destruct (key_ltb (fst y) (fst x)).
    + eapply Permutation_trans; [apply perm_skip, IH | apply perm_swap].
    + apply Permutation_refl.
Qed.

Lemma sorted_items_perm groups : Permutation (sorted_items groups) groups.
Proof.
  induction groups as [|x groups IH]; simpl.
  - constructor.
  - eapply Permutation_trans; [apply insert_item_perm|].
    now apply perm_skip.
Qed.

Lemma insert_item_sorted x l :
  StronglySorted key_lt (map fst l) ->
  ~ In (fst x) (map fst l) ->
  StronglySorted key_lt (map fst (insert_item x l)).
Proof.
  induction l as [|y r IH]; simpl; intros Hs Hnot.
  - repeat constructor.
  - inversion Hs as [|? ? Hr Hall]; subst.
    destruct (key_ltb (fst y) (fst x)) eqn:E; simpl.
    + constructor; [apply IH; [assumption | intuition]|].
      apply Forall_forall. intros k Hk.
      apply (Permutation_in _ (Permutation_map fst (insert_item_perm x r)))
        in Hk.
      destruct Hk as [<-|Hk]; [exact E|].
      rewrite Forall_forall in Hall. now apply Hall.
    + assert (Hxy : key_lt (fst x) (fst y)).
      { destruct (key_lt_total (a:=fst x) (b:=fst y)) as [H|H].
        - intros E'. apply Hnot. now left.
        - exact H.
        - unfold key_lt in H. congruence. }
      constructor; [exact Hs|]. constructor; [exact Hxy|].
      rewrite Forall_forall in *. intros k Hk.
      eapply key_lt_trans; [exact Hxy | now apply Hall].
Qed.

Lemma sorted_items_sorted groups :
  NoDup (map fst groups) ->
  StronglySorted key_lt (map fst (sorted_items groups)).
Proof.
  induction groups as [|x groups IH]; simpl; intros H.
  - constructor.
  - inversion H as [|? ? Hnot Hrest]; subst.
    apply insert_item_sorted; [now apply IH|].
    intros Hin. apply Hnot.
    now apply (Permutation_in _ (Permutation_map fst (sorted_items_perm groups))).
Qed.

(* ================================================================== *)
(** ** The generator of the scenarios samples without replacement *)

Lemma remove_at_length {A} (l : list A) j :
  (j < List.length l)%nat ->
  List.length (LcgRandom.remove_at j l) = pred (List.length l).
Proof.
  revert j. induction l as [|x r IH]; intros j Hj; simpl in *; [lia|].
  destruct j as [|j]; [reflexivity|].
  simpl. rewrite IH by lia. destruct r; simpl in *; lia.
Qed.

Lemma remove_at_perm {A} (l : list A) j d :
  (j < List.length l)%nat ->
  Permutation (nth j l d :: LcgRandom.remove_at j l) l.
Proof.
  revert j. induction l as [|x r IH]; intros j Hj; simpl in *; [lia|].
  destruct j as [|j]; [apply Permutation_refl|].
  simpl. eapply Permutation_trans; [apply perm_swap|].
  apply perm_skip, IH. lia.
Qed.

Lemma lcg_sample_without_replacement : sample_without_replacement lcg_random.
Proof.
  intros A population k. revert population.
  induction k as [|k IH]; intros population g Hk.
  - cbn. destruct population; (split; [reflexivity|]);
      eexists; apply Permutation_refl.
  - destruct population as [|x r]; [simpl in Hk; lia|].
    cbn [rng_sample lcg_random LcgRandom.sample].
    set (pool := x :: r) in *.
    set (j := Z.to_nat (g mod Z.of_nat (List.length pool))).
    assert (Hj : (j < List.length pool)%nat).
    { subst j. assert (0 < Z.of_nat (List.length pool))%Z by (simpl; lia).
      pose proof (Z.mod_pos_bound g _ H). lia. }
    specialize (IH (LcgRandom.remove_at j pool) (LcgRandom.next g)).
    rewrite remove_at_length in IH by exact Hj.
    specialize (IH ltac:(lia)).
    cbn [rng_sample lcg_random] in IH.
    destruct (LcgRandom.sample (LcgRandom.remove_at j pool) k
                (LcgRandom.next g)) as [picked g'].
    cbn [fst] in *. destruct IH as [Hlen [rest Hperm]].
    split; [simpl; now rewrite Hlen|].
    exists rest.
    change (Permutation (nth j pool x :: (picked ++ rest)) pool).
    eapply Permutation_trans; [apply perm_skip, Hperm|].
    exact (remove_at_perm pool x Hj).
Qed.

(* ================================================================== *)
(** ** The size of the sample *)

Section SampleSize.

Context {R : PyRandom}.
Hypothesis sampling : sample_without_replacement R.

Lemma rng_sample_length {A} (l : list A) k g :
  (k <= List.length l)%nat -> List.length (fst (rng_sample l k g)) = k.
Proof. intros H. now apply sampling. Qed.

Lemma rng_sample_incl {A} (l : list A) k g :
  (k <= List.length l)%nat -> incl (fst (rng_sample l k g)) l.
Proof.
  intros H x Hx. destruct (sampling l g H) as [_ [rest Hperm]].
  eapply Permutation_in; [exact Hperm|]. apply in_or_app. now left.
Qed.

Lemma rng_sample_NoDup {A} (l : list A) k g :
  (k <= List.length l)%nat -> NoDup l -> NoDup (fst (rng_sample l k g)).
Proof.
  intros H Hnd. destruct (sampling l g H) as [_ [rest Hperm]].
  apply Permutation_sym in Hperm.
  apply (Permutation_NoDup Hperm) in Hnd.
  now apply NoDup_app_remove_r in Hnd.
Qed.

(** Sampling from copies of one element yields copies of it. *)
Lemma rng_sample_copies {A} (x : A) (l : list A) k g :
  (forall y, In y l -> y = x) -> (k <= List.length l)%nat ->
  fst (rng_sample l k g) = repeat x k.
Proof.
  intros Hall Hk.
  rewrite <- (rng_sample_length l g Hk) at 2.
  apply Forall_eq_repeat, Forall_forall.
  intros y Hy. symmetry. apply Hall. now apply (rng_sample_incl l g Hk).
Qed.

End SampleSize.

(** C4 (the code departs from the claim).  For the three-case corpus
    [twin_cases], in which one row occurs twice, and [max_samples = 3] the
    sampler returns two cases, not [min(3, 3) = 3], whatever the seed and
    the generator: one copy of the repeated row is drawn from its stratum,
    and the top-up, which keeps the cases [c] with [c not in sampled],
    leaves out the other copy as well.  On the empty corpus the sampler
    raises [ZeroDivisionError] in [max_samples // len(groups)]. *)
Theorem sample_of_twins_falls_short (R : PyRandom) (seed : Z)
  (ambient : rng) :
  sample_without_replacement R ->
  fst (sample_balanced_cases twin_cases 3 seed ambient)
  = Ok [one_case; colon_case]
  /\ Z.min 3 (Z.of_nat (List.length twin_cases)) = 3%Z
  /\ forall max_samples,
       fst (sample_balanced_cases [] max_samples seed ambient)
       = Raise (PyExn ZeroDivisionError "integer division or modulo by zero").
Proof.
  intros law. split; [|split; reflexivity].
  assert (Hitems : sorted_items (group_cases twin_cases)
                   = [((runtime, beginner), [one_case; one_case]);
                      ((syntax, beginner), [colon_case])]) by reflexivity.
  unfold sample_balanced_cases.
  change (List.length (group_cases twin_cases)) with 2%nat.
  cbv iota beta. rewrite Hitems.
  change (Z.max 1 (3 / Z.of_nat 2)) with 1%Z.
  unfold sample_groups. cbn [fold_left snd List.length].
  change (Z.to_nat (Z.min 1 (Z.of_nat 2))) with 1%nat.
  change (Z.to_nat (Z.min 1 (Z.of_nat 1))) with 1%nat.
  pose proof (@rng_sample_copies R law _ one_case [one_case; one_case]
                1%nat (rng_seed seed)) as H1.
  destruct (rng_sample [one_case; one_case] 1 (rng_seed seed))
    as [picked1 g1].
  cbn [fst] in H1. rewrite H1; cycle 1.
  { intros y [<-|[<-|[]]]; reflexivity. }
  { simpl; lia. }
  pose proof (@rng_sample_copies R law _ colon_case [colon_case] 1%nat g1)
    as H2.
  destruct (rng_sample [colon_case] 1 g1) as [picked2 g2].
  cbn [fst] in H2. rewrite H2; cycle 1.
  { intros y [<-|[]]; reflexivity. }
  { simpl; lia. }
  reflexivity.
Qed.

Lemma sample_of_twins_falls_short_witness :
  sample_without_replacement lcg_random
  /\ fst (sample_balanced_cases twin_cases 3 42 0%Z)
     = Ok [one_case; colon_case]
  /\ List.length [one_case; colon_case] = 2%nat
  /\ Z.min 3 (Z.of_nat (List.length twin_cases)) = 3%Z.
Proof.
  split; [exact lcg_sample_without_replacement|].
  destruct (@sample_of_twins_falls_short lcg_random 42%Z 0%Z
              lcg_sample_without_replacement) as [H [Hmin _]].
  split; [exact H|]. split; [reflexivity | exact Hmin].
Defined.

(** ** The sample of a corpus of distinct rows *)

Lemma taken_from_app {A} (l l' m m' : list A) :
  taken_from l m -> taken_from l' m' -> taken_from (l ++ l') (m ++ m').
Proof.
  intros [r Hr] [r' Hr']. exists (r ++ r').
  rewrite <- Hr, <- Hr'. rewrite <- !app_assoc.
  apply Permutation_app_head. rewrite !app_assoc.
  apply Permutation_app_tail, Permutation_app_comm.
Qed.

Lemma taken_from_perm {A} (l m m' : list A) :
  taken_from l m -> Permutation m m' -> taken_from l m'.
Proof. intros [r Hr] H. exists r. now rewrite Hr. Qed.

Lemma taken_from_length {A} (l m : list A) :
  taken_from l m -> (List.length l <= List.length m)%nat.
Proof.
  intros [r Hr]. rewrite <- (Permutation_length Hr), length_app. lia.
Qed.

Lemma taken_from_incl {A} (l m : list A) : taken_from l m -> incl l m.
Proof.
  intros [r Hr] x Hx. eapply Permutation_in; [exact Hr|].
  apply in_or_app. now left.
Qed.

Lemma taken_from_NoDup {A} (l m : list A) :
  taken_from l m -> NoDup m -> NoDup l.
Proof.
  intros [r Hr] H. apply Permutation_sym in Hr.
  apply (Permutation_NoDup Hr) in H. now apply NoDup_app_remove_r in H.
Qed.

(** The strata partition the corpus. *)
Lemma add_case_concat groups c :
  Permutation (List.concat (map snd (add_case groups c)))
    (List.concat (map snd groups) ++ [c]).
Proof.
  induction groups as [|[k cs] rest IH]; simpl.
  - apply Permutation_refl.
  - destruct (key_eqb k (key_of c)); simpl.
    + rewrite <- !app_assoc. apply Permutation_app_head.
      apply Permutation_app_comm.
    + rewrite <- app_assoc. now apply Permutation_app_head.
Qed.

Lemma group_cases_concat cases :
  Permutation (List.concat (map snd (group_cases cases))) cases.
Proof.
  unfold group_cases.
  assert (H : forall groups,
            Permutation (List.concat (map snd (fold_left add_case cases groups)))
              (List.concat (map snd groups) ++ cases)).
  { induction cases as [|c cases IH]; intros groups; simpl.
    - now rewrite app_nil_r.
    - rewrite IH, add_case_concat, <- app_assoc. reflexivity. }
  apply (H []).
Qed.

Lemma add_case_nonempty groups c : add_case groups c <> [].
Proof.
  destruct groups as [|[k cs] rest]; simpl; [discriminate|].
  destruct (key_eqb k (key_of c)); discriminate.
Qed.

Lemma group_cases_nonempty cases : cases <> [] -> group_cases cases <> [].
Proof.
  unfold group_cases. intros H.
  destruct cases as [|c cases]; [contradiction|]. simpl.
  assert (Hf : forall l groups, groups <> [] ->
             fold_left add_case l groups <> []).
  { induction l as [|x l IH]; intros groups Hg; simpl; [exact Hg|].
    apply IH, add_case_nonempty. }
  apply Hf. discriminate.
Qed.

Section SamplerLength.

Context {R : PyRandom}.
Hypothesis sampling : sample_without_replacement R.

Lemma sample_groups_taken per_group items g :
  (1 <= per_group)%Z ->
  taken_from (fst (sample_groups per_group items g))
    (List.concat (map snd items)).
Proof.
  intros Hper. unfold sample_groups.
  assert (H : forall acc pool g0,
            taken_from acc pool ->
            taken_from
              (fst (fold_left
                      (fun (acc : list TestCase * rng)
                           (item : group_key * list TestCase) =>
                         let (sampled, g) := acc in
                         let group := snd item in
                         let sample_count :=
                           Z.min per_group (Z.of_nat (List.length group)) in
                         let (picked, g') :=
                           rng_sample group (Z.to_nat sample_count) g in
                         (sampled ++ picked, g'))
                      items (acc, g0)))
              (pool ++ List.concat (map snd items))).
  { induction items as [|[key group] items IH]; intros acc pool g0 Hacc.
    - simpl. now rewrite app_nil_r.
    - cbn [fold_left snd map List.concat].
      assert (Hk : (Z.to_nat (Z.min per_group (Z.of_nat (List.length group)))
                    <= List.length group)%nat) by lia.
      destruct (sampling group g0 Hk) as [_ Hsub].
      destruct (rng_sample group _ g0) as [picked g']. cbn [fst] in Hsub.
      rewrite app_assoc. apply IH. now apply taken_from_app. }
  apply (H [] [] g). exists []. constructor.
Qed.

Lemma remaining_length cases sampled :
  NoDup cases -> NoDup sampled -> incl sampled cases ->
  (List.length (filter (not_in sampled) cases) + List.length sampled
   = List.length cases)%nat.
Proof.
  intros Hc Hs Hincl.
  rewrite <- (filter_length (not_in sampled) cases). f_equal.
  apply Permutation_length, NoDup_Permutation.
  - exact Hs.
  - now apply NoDup_filter.
  - intros x. rewrite filter_In. unfold not_in.
    rewrite negb_involutive, existsb_exists. split.
    + intros Hx. split; [now apply Hincl|]. exists x. split; [exact Hx|].
      now destruct (case_eqb_spec x x).
    + intros [_ [y [Hy E]]]. destruct (case_eqb_spec x y); [now subst|].
      discriminate.
Qed.

Lemma top_up_length cases sampled max_samples g :
  NoDup cases -> taken_from sampled cases -> (0 <= max_samples)%Z ->
  Z.of_nat (List.length (py_prefix (fst (top_up cases sampled max_samples g))
                           max_samples))
  = Z.min max_samples (Z.of_nat (List.length cases)).
Proof.
  intros Hc Hsub Hmax.
  pose proof (taken_from_length Hsub) as Hlen.
  pose proof (remaining_length Hc (taken_from_NoDup Hsub Hc)
                (taken_from_incl Hsub)) as Hrem.
  unfold top_up.
  destruct (Z.of_nat (List.length sampled) <? max_samples)%Z eqn:E.
  - apply Z.ltb_lt in E.
    destruct (filter (not_in sampled) cases) as [|c0 remaining] eqn:Ef.
    + cbn [fst]. unfold py_prefix.
      destruct (max_samples <? 0)%Z eqn:En; [apply Z.ltb_lt in En; lia|].
      rewrite length_firstn. simpl in Hrem. lia.
    + set (additional := Z.to_nat _).
      assert (Ha : (additional <= List.length (c0 :: remaining))%nat)
        by (subst additional; lia).
      pose proof (rng_sample_length sampling (c0 :: remaining) g Ha) as Hp.
      destruct (rng_sample (c0 :: remaining) additional g) as [picked g'].
      cbn [fst] in *. unfold py_prefix.
      destruct (max_samples <? 0)%Z eqn:En; [apply Z.ltb_lt in En; lia|].
      rewrite length_firstn, length_app, Hp. subst additional. lia.
  - apply Z.ltb_ge in E. cbn [fst]. unfold py_prefix.
    destruct (max_samples <? 0)%Z eqn:En; [apply Z.ltb_lt in En; lia|].
    rewrite length_firstn. lia.
Qed.

(** X10.  For a corpus of pairwise distinct rows that is not empty, the
    sampler returns exactly [min(max_samples, len(cases))] cases for every
    [max_samples >= 1] and every seed: the draw from the strata is topped
    up from the rest of the corpus until the bound or the corpus is
    reached. *)
Lemma sample_size_of_distinct_cases cases max_samples seed ambient :
  cases <> [] -> NoDup cases -> (1 <= max_samples)%Z ->
  exists picked,
    fst (sample_balanced_cases cases max_samples seed ambient) = Ok picked
    /\ Z.of_nat (List.length picked)
       = Z.min max_samples (Z.of_nat (List.length cases)).
Proof.
  intros Hne Hnd Hmax. unfold sample_balanced_cases.
  pose proof (group_cases_nonempty Hne) as Hg.
  destruct (group_cases cases) as [|item groups] eqn:Eg; [contradiction|].
  cbn [List.length]. rewrite <- Eg.
  set (per_group := Z.max 1 _).
  pose proof (@sample_groups_taken per_group
                (sorted_items (group_cases cases)) (rng_seed seed)
                ltac:(subst per_group; lia)) as Hsub.
  destruct (sample_groups per_group _ (rng_seed seed)) as [sampled g1].
  cbn [fst] in Hsub.
  assert (Hsub' : taken_from sampled cases).
  { eapply taken_from_perm; [exact Hsub|].
    rewrite (Permutation_map snd (sorted_items_perm (group_cases cases))).
    apply group_cases_concat. }
  pose proof (@top_up_length cases sampled max_samples g1 Hnd Hsub'
                ltac:(lia)) as Hlen.
  destruct (top_up cases sampled max_samples g1) as [sampled' g2].
  cbn [fst] in *. eexists. split; [reflexivity|]. lia.
Qed.

End SamplerLength.

(* ================================================================== *)
(** ** More about [evaluate]: the pass vector and the statistics *)

Lemma evaluate_returns {lib : PyText} llm sp rows k score ev :
  fst (evaluate llm sp rows k) = Ok (score, ev) ->
  report_stats (metrics ev)
  = stats (record_run (run_of llm sp rows k)
             (initial_state (List.length rows)))
  /\ evidence_perf_vector ev
     = map pass_bit (run_of llm sp rows k).
Proof.
  rewrite evaluate_run. cbn [fst]. unfold finish.
  destruct (true_div _ _) as [edu|e]; [|discriminate].
  destruct (true_div _ _) as [fmt|e]; [|discriminate].
  intros H. injection H as _ <-.
  cbn [metrics report_stats evidence_perf_vector].
  split; [reflexivity|]. now rewrite record_run_perf_vector.
Qed.

Lemma record_run_total run st :
  total (stats (record_run run st)) = total (stats st).
Proof.
  revert st. induction run as [|[row o] run IH]; intros st; [reflexivity|].
  rewrite record_run_cons, IH. cbn [fst snd].
  destruct o as [|response score m]; [reflexivity|].
  unfold record_outcome, record_graded. cbn [stats].
  destruct (stats st) as [sy ru lo co be im ad fo ed to].
  destruct (passes score), (metrics_format_correct m),
    (error_type row), (difficulty row); reflexivity.
Qed.

Lemma kind_passes_sum run :
  (kind_passes syntax run + kind_passes runtime run
   + kind_passes logical run + kind_passes conceptual run)%nat
  = count passed run.
Proof.
  unfold kind_passes. induction run as [|[row o] run IH]; [reflexivity|].
  rewrite !count_cons, <- IH. unfold of_kind. cbn [fst].
  destruct (error_type row), (passed (row, o)); simpl; lia.
Qed.

Lemma level_passes_sum run :
  (level_passes beginner run + level_passes intermediate run
   + level_passes advanced run)%nat
  = count passed run.
Proof.
  unfold level_passes. induction run as [|[row o] run IH]; [reflexivity|].
  rewrite !count_cons, <- IH. unfold of_level. cbn [fst].
  destruct (difficulty row), (passed (row, o)); simpl; lia.
Qed.

Lemma pass_bits_sum (run : list (TestCase * Outcome)) :
  list_sum (map pass_bit run) = count passed run.
Proof.
  induction run as [|ro run IH]; [reflexivity|].
  change (list_sum (map pass_bit (ro :: run)))
    with (pass_bit ro + list_sum (map pass_bit run))%nat.
  rewrite count_cons, IH. unfold pass_bit.
  now destruct (passed ro).
Qed.

(** X1.  On a corpus with at least one row, the pass vector that
    [evaluate] returns has exactly one entry per row, in the order of the
    rows: 1 when the row was graded with a composite score of at least
    0.7, and 0 otherwise (graded lower, or no response after the
    retries). *)
Theorem perf_vector_has_one_entry_per_row (lib : PyText) (llm : llm_service)
  (system_prompt : string) (rows : list TestCase) (k : nat) :
  rows <> [] ->
  exists score ev,
    fst (evaluate llm system_prompt rows k) = Ok (score, ev)
    /\ List.length (evidence_perf_vector ev) = List.length rows
    /\ evidence_perf_vector ev
       = map (fun o => if outcome_passes o then 1%nat else 0%nat)
           (fst (outcomes llm system_prompt rows k)).
Proof.
  intros Hrows.
  destruct (evaluate_nonempty llm system_prompt k Hrows)
    as (score & ev & Hev & _).
  exists score, ev. rewrite Hev. split; [reflexivity|].
  destruct (@evaluate_returns lib llm system_prompt rows k score ev)
    as [_ Hperf]; [now rewrite Hev|].
  rewrite Hperf. split.
  - now rewrite length_map, run_of_length.
  - rewrite <- run_of_outcomes, map_map. reflexivity.
Qed.

Lemma perf_vector_has_one_entry_per_row_witness :
  four_kinds <> []
  /\ exists score ev,
       fst (evaluate four_kinds_llm "你是一个编程教学助手。" four_kinds 0%nat)
       = Ok (score, ev)
       /\ evidence_perf_vector ev = [1; 0; 1; 0]%nat.
Proof.
  split; [discriminate|].
  destruct (@perf_vector_has_one_entry_per_row ascii_text four_kinds_llm
              "你是一个编程教学助手。" four_kinds 0%nat)
    as (score & ev & Hev & _ & Hperf); [discriminate|].
  exists score, ev. split; [exact Hev|]. rewrite Hperf.
  vm_compute. reflexivity.
Defined.

(** X2.  The statistics in the report are consistent with the pass
    vector: [total] is the number of rows, the four per-kind pass counts
    add up to the number of 1s in the pass vector, and so do the three
    per-difficulty pass counts; [format_correct] never exceeds the number
    of rows. *)
Theorem report_stats_agree_with_perf_vector (lib : PyText)
  (llm : llm_service) (system_prompt : string) (rows : list TestCase)
  (k : nat) :
  rows <> [] ->
  exists score ev,
    fst (evaluate llm system_prompt rows k) = Ok (score, ev)
    /\ total (report_stats (metrics ev)) = List.length rows
    /\ (syntax_correct (report_stats (metrics ev))
        + runtime_correct (report_stats (metrics ev))
        + logical_correct (report_stats (metrics ev))
        + conceptual_correct (report_stats (metrics ev)))%nat
       = list_sum (evidence_perf_vector ev)
    /\ (beginner_correct (report_stats (metrics ev))
        + intermediate_correct (report_stats (metrics ev))
        + advanced_correct (report_stats (metrics ev)))%nat
       = list_sum (evidence_perf_vector ev)
    /\ (format_correct (report_stats (metrics ev)) <= List.length rows)%nat.
Proof.
  intros Hrows.
  destruct (evaluate_nonempty llm system_prompt k Hrows)
    as (score & ev & Hev & _).
  exists score, ev. rewrite Hev. split; [reflexivity|].
  destruct (@evaluate_returns lib llm system_prompt rows k score ev)
    as [Hstats Hperf]; [now rewrite Hev|].
  rewrite Hstats, Hperf, pass_bits_sum.
  set (run := run_of llm system_prompt rows k).
  set (st := record_run run (initial_state (List.length rows))).
  repeat split.
  - unfold st. now rewrite record_run_total.
  - change (syntax_correct (stats st)) with (kind_correct (stats st) syntax).
    change (runtime_correct (stats st)) with (kind_correct (stats st) runtime).
    change (logical_correct (stats st)) with (kind_correct (stats st) logical).
    change (conceptual_correct (stats st))
      with (kind_correct (stats st) conceptual).
    unfold st. rewrite !record_run_kind_correct. cbn [initial_state stats
      kind_correct syntax_correct runtime_correct logical_correct
      conceptual_correct]. rewrite <- kind_passes_sum. lia.
  - change (beginner_correct (stats st))
      with (difficulty_correct (stats st) beginner).
    change (intermediate_correct (stats st))
      with (difficulty_correct (stats st) intermediate).
    change (advanced_correct (stats st))
      with (difficulty_correct (stats st) advanced).
    unfold st. rewrite !record_run_difficulty_correct. cbn [initial_state
      stats difficulty_correct beginner_correct intermediate_correct
      advanced_correct]. rewrite <- level_passes_sum. lia.
  - unfold st. rewrite record_run_format_correct.
    cbn [initial_state stats format_correct].
    rewrite <- (run_of_length llm system_prompt rows k).
    apply count_le_length.
Qed.

Lemma report_stats_agree_with_perf_vector_witness :
  four_kinds <> []
  /\ exists score ev,
       fst (evaluate four_kinds_llm "你是一个编程教学助手。" four_kinds 0%nat)
       = Ok (score, ev)
       /\ total (report_stats (metrics ev)) = 4%nat
       /\ list_sum (evidence_perf_vector ev) = 2%nat.
Proof.
  split; [discriminate|].
  destruct (@report_stats_agree_with_perf_vector ascii_text four_kinds_llm
              "你是一个编程教学助手。" four_kinds 0%nat)
    as (score & ev & Hev & Htotal & Hkinds & _); [discriminate|].
  exists score, ev. split; [exact Hev|]. split; [exact Htotal|].
  rewrite <- Hkinds. vm_compute in Hev. injection Hev as _ <-.
  reflexivity.
Defined.

(* ================================================================== *)
(** ** The calls that a run makes *)

Section Calls.

Context {lib : PyText}.
Variable llm : llm_service.

Lemma good_reply_accepted (text : option string) :
  no_response text = false ->
  truthy text && negb (str_blank (text_of text)) = true.
Proof.
  unfold no_response. destruct (truthy text), (str_blank (text_of text));
    simpl; congruence.
Qed.

Lemma bad_reply_rejected (text : option string) :
  no_response text = true ->
  truthy text && negb (str_blank (text_of text)) = false.
Proof.
  unfold no_response. destruct (truthy text), (str_blank (text_of text));
    simpl; congruence.
Qed.

(** The retry loop either runs all its attempts and ends without a
    usable reply, or stops at the first usable one. *)
Lemma retry_loop_calls messages n response k :
  no_response response = true ->
  (no_response (fst (retry_loop llm messages n response k)) = true
   /\ snd (retry_loop llm messages n response k) = (k + n)%nat)
  \/ (no_response (fst (retry_loop llm messages n response k)) = false
      /\ (k + 1 <= snd (retry_loop llm messages n response k) <= k + n)%nat).
Proof.
  revert response k. induction n as [|n IH]; intros response k Hresp.
  - left. cbn. split; [exact Hresp | lia].
  - cbn [retry_loop]. unfold bind, invoke.
    destruct (llm k messages) as [e|text].
    + destruct (IH response (S k) Hresp) as [[H1 H2]|[H1 H2]].
      * left. split; [exact H1 | lia].
      * right. split; [exact H1 | lia].
    + destruct (no_response text) eqn:E.
      * rewrite (bad_reply_rejected _ E).
        destruct (IH text (S k) E) as [[H1 H2]|[H1 H2]].
        -- left. split; [exact H1 | lia].
        -- right. split; [exact H1 | lia].
      * rewrite (good_reply_accepted _ E). right. cbn.
        split; [exact E | lia].
Qed.

Lemma retry_loop_first_answer messages n response k j text :
  (j < n)%nat ->
  (forall i, (i < j)%nat -> unusable (llm (k + i)%nat messages)) ->
  llm (k + j)%nat messages = Returns text ->
  no_response text = false ->
  retry_loop llm messages n response k = (text, (k + j + 1)%nat).
Proof.
  revert n response k.
  induction j as [|j IH]; intros n response k Hj Hbad Hgood Hok.
  - destruct n as [|n]; [lia|]. cbn [retry_loop]. unfold bind, invoke.
    rewrite Nat.add_0_r in Hgood. rewrite Hgood.
    rewrite (good_reply_accepted _ Hok). unfold ret. f_equal. lia.
  - destruct n as [|n]; [lia|]. cbn [retry_loop]. unfold bind, invoke.
    pose proof (Hbad 0%nat ltac:(lia)) as H0. rewrite Nat.add_0_r in H0.
    assert (Hbad' : forall i, (i < j)%nat ->
              unusable (llm (S k + i)%nat messages)).
    { intros i Hi. specialize (Hbad (S i) ltac:(lia)).
      now rewrite Nat.add_succ_r in Hbad. }
    assert (Hgood' : llm (S k + j)%nat messages = Returns text)
      by (now rewrite Nat.add_succ_r in Hgood).
    destruct (llm k messages) as [e|t0].
    + rewrite (IH n response (S k) ltac:(lia) Hbad' Hgood' Hok).
      f_equal. lia.
    + cbn [unusable] in H0. rewrite (bad_reply_rejected _ H0).
      rewrite (IH n t0 (S k) ltac:(lia) Hbad' Hgood' Hok). f_equal. lia.
Qed.

Lemma evaluate_single_response_calls code response kind level expected k :
  snd (_evaluate_single_response llm code response kind level expected k)
  = S k.
Proof. reflexivity. Qed.

Lemma row_outcome_calls sp row k :
  (k + 2 <= snd (row_outcome llm sp row k) <= k + 4)%nat.
Proof.
  unfold row_outcome, bind.
  pose proof (@retry_loop_calls
                [Msg "system" sp; Msg "user" (user_input (code row))]
                3 None k eq_refl) as H.
  destruct (retry_loop llm _ 3 None k) as [response k1]. cbn [fst snd] in H.
  destruct H as [[H1 H2]|[H1 H2]]; rewrite H1.
  - cbn. lia.
  - pose proof (evaluate_single_response_calls (code row)
                  (text_of response) (error_type row) (difficulty row)
                  (expected_output row) k1) as Hs.
    destruct (_evaluate_single_response llm _ _ _ _ _ k1) as [[score m] k2].
    cbn [snd] in *. unfold ret. cbn [snd]. lia.
Qed.

Lemma outcomes_calls sp rows k :
  (k + 2 * List.length rows <= snd (outcomes llm sp rows k)
   <= k + 4 * List.length rows)%nat.
Proof.
  revert k. induction rows as [|row rest IH]; intros k.
  - cbn. lia.
  - cbn [outcomes]. unfold bind, ret.
    pose proof (row_outcome_calls sp row k) as Hrow.
    destruct (row_outcome llm sp row k) as [o k1]. cbn [snd] in Hrow.
    specialize (IH k1). destruct (outcomes llm sp rest k1) as [os k2].
    cbn [snd List.length] in *. lia.
Qed.

End Calls.

(** X3.  A run of [evaluate] over [n] rows calls the service at least
    [2 n] and at most [4 n] times: per row, one to three calls for the
    response and, only when one of them gave usable text, one call for the
    grading. *)
Theorem evaluate_calls_between_2n_and_4n (lib : PyText) (llm : llm_service)
  (system_prompt : string) (rows : list TestCase) (k : nat) :
  (k + 2 * List.length rows <= snd (evaluate llm system_prompt rows k)
   <= k + 4 * List.length rows)%nat.
Proof.
  rewrite evaluate_run. cbn [snd]. apply outcomes_calls.
Qed.

(** X4.  The retry loop stops at the first usable reply: when the first
    [j] attempts for a row fail ([j < 3]) and the next one returns text
    that is not blank, the service is called [j + 1] times for the
    response and once for the grading, and that text is what is graded. *)
Theorem first_usable_reply_is_graded (lib : PyText) (llm : llm_service)
  (system_prompt : string) (row : TestCase) (k j : nat) (text : string) :
  (j < 3)%nat ->
  (forall i, (i < j)%nat ->
     unusable (llm (k + i)%nat (responder_messages system_prompt row))) ->
  llm (k + j)%nat (responder_messages system_prompt row)
  = Returns (Some text) ->
  no_response (Some text) = false ->
  exists score m,
    row_outcome llm system_prompt row k
    = (Graded text score m, (k + j + 2)%nat)
    /\ fst (_evaluate_single_response llm (code row) text (error_type row)
              (difficulty row) (expected_output row) (k + j + 1)%nat)
       = (score, m).
Proof.
  intros Hj Hbad Hgood Hok.
  unfold row_outcome, bind.
  unfold responder_messages in *.
  rewrite (@retry_loop_first_answer lib llm _ 3%nat None k j (Some text)
             Hj Hbad Hgood Hok).
  rewrite Hok. cbn [text_of].
  destruct (_evaluate_single_response llm (code row) text (error_type row)
              (difficulty row) (expected_output row) (k + j + 1)%nat)
    as [[score m] k2] eqn:E.
  exists score, m. split; [|reflexivity].
  unfold ret. f_equal.
  pose proof (@evaluate_single_response_calls lib llm (code row) text
                (error_type row) (difficulty row) (expected_output row)
                (k + j + 1)%nat) as Hs.
  rewrite E in Hs. cbn [snd] in Hs. lia.
Qed.

Lemma first_usable_reply_is_graded_witness :
  exists score m,
    row_outcome flaky_llm "你是一个编程教学助手。" one_case 0%nat
    = (Graded tutor_reply score m, 4%nat).
Proof.
  destruct (@first_usable_reply_is_graded ascii_text flaky_llm
              "你是一个编程教学助手。" one_case 0%nat 2%nat tutor_reply)
    as (score & m & H & _).
  - lia.
  - intros i Hi. destruct i as [|[|i]]; [vm_compute; auto ..|lia].
  - reflexivity.
  - vm_compute. reflexivity.
  - exists score, m. exact H.
Defined.

(* ================================================================== *)
(** ** Failures of the grader *)

(** X5.  A failure of the grader never fails the run and never passes
    the sample: when the assistant answers a row at the first attempt and
    the grading call raises or returns nothing, the row is scored 0.5, so
    a [0] is appended to the pass vector and the sample is collected among
    the error samples with the text of the failure as its reason; 0.5 is
    added to the guidance sum and no pass count changes. *)
Theorem grader_failure_scores_half (lib : PyText) (llm : llm_service)
  (system_prompt : string) (row : TestCase) (st : LoopState) (k : nat)
  (text reason : string) :
  llm k (responder_messages system_prompt row) = Returns (Some text) ->
  no_response (Some text) = false ->
  grader_fails (llm (S k) (grader_messages row text)) reason ->
  let st' := fst (eval_row llm system_prompt row st k) in
  snd (eval_row llm system_prompt row st k) = (k + 2)%nat
  /\ perf_vector st' = perf_vector st ++ [0%nat]
  /\ error_samples st'
     = error_samples st
       ++ [LowScore (code row) text (expected_output row) (error_type row)
             (difficulty row) 0.5 (JString reason)]
  /\ educational_value_sum (stats st')
     = educational_value_sum (stats st) + 0.5
  /\ (forall kd, kind_correct (stats st') kd = kind_correct (stats st) kd)
  /\ (forall d,
        difficulty_correct (stats st') d = difficulty_correct (stats st) d).
Proof.
  intros Hgood Hok Hfail.
  assert (Hout : row_outcome llm system_prompt row k
                 = (Graded text 0.5
                      (mkMetrics (_check_format text) 0.5 (JString reason)),
                    (k + 2)%nat)).
  { unfold row_outcome, bind. unfold responder_messages in Hgood.
    rewrite (@retry_loop_first_answer lib llm _ 3%nat None k 0%nat
               (Some text) ltac:(lia)); cycle 1.
    - intros i Hi. lia.
    - now rewrite Nat.add_0_r.
    - exact Hok.
    - rewrite Hok. cbn [text_of].
      unfold _evaluate_single_response, bind, invoke, ret.
      unfold grader_messages in Hfail.
      replace (k + 0 + 1)%nat with (S k) by lia.
      destruct (llm (S k) _) as [e|reply]; cbn [grader_fails] in Hfail.
      + subst reason. unfold neutral. f_equal. lia.
      + destruct Hfail as [Hf ->]. rewrite Hf. unfold neutral.
        f_equal. lia. }
  cbv zeta. rewrite eval_row_outcome, Hout. cbn [fst snd].
  split; [reflexivity|].
  unfold record_outcome.
  split; [reflexivity|]. split; [reflexivity|].
  split; [now rewrite educational_sum_graded|].
  split.
  - intros kd. rewrite kind_correct_graded. cbn [stats].
    change (passes 0.5) with false. rewrite andb_false_r. lia.
  - intros d. rewrite difficulty_correct_graded. cbn [stats].
    change (passes 0.5) with false. rewrite andb_false_r. lia.
Qed.

Lemma grader_failure_scores_half_witness :
  let st' :=
    fst (eval_row broken_grader_llm "你是一个编程教学助手。" one_case
           (initial_state 1) 0%nat) in
  perf_vector st' = [0%nat]
  /\ error_samples st'
     = [LowScore "print(1 / 0)" tutor_reply "除零错误" runtime beginner 0.5
          (JString "Connection reset by peer")].
Proof.
  destruct (@grader_failure_scores_half ascii_text broken_grader_llm
              "你是一个编程教学助手。" one_case (initial_state 1) 0%nat
              tutor_reply "Connection reset by peer")
    as (_ & Hperf & Hsamples & _).
  - reflexivity.
  - vm_compute. reflexivity.
  - reflexivity.
  - split; [exact Hperf | exact Hsamples].
Defined.

(* ================================================================== *)
(** ** The range of a composite score *)

Section Composite.

Context {lib : PyText}.

Lemma score_metrics_within lo hi fmt m :
  lo <= 0.5 -> 0.5 <= hi -> sub_scores_within lo hi m ->
  (lo <= fst (score_metrics fmt m) /\ fst (score_metrics fmt m) <= hi)
  /\ (lo <= metrics_educational_value (snd (score_metrics fmt m))
      /\ metrics_educational_value (snd (score_metrics fmt m)) <= hi).
Proof.
  intros Hlo Hhi Hm. unfold score_metrics.
  destruct (as_number (dict_get m "accuracy" _)) as [a|e] eqn:Ea;
    [|cbn; auto].
  destruct (as_number (dict_get m "guidance" _)) as [g|e] eqn:Eg;
    [|cbn; auto].
  destruct (as_number (dict_get m "clarity" _)) as [c|e] eqn:Ec;
    [|cbn; auto].
  destruct (Hm "accuracy" a ltac:(simpl; auto) Ea).
  destruct (Hm "guidance" g ltac:(simpl; auto) Eg).
  destruct (Hm "clarity" c ltac:(simpl; auto) Ec).
  cbn [fst snd metrics_educational_value]. repeat split; lra.
Qed.

Lemma manual_metrics_within lo hi text :
  lo <= 0.5 -> 0.5 <= hi ->
  (forall name q,
     In name ["accuracy"; "guidance"; "clarity"] ->
     re_search_number name text = Some q -> lo <= q /\ q <= hi) ->
  sub_scores_within lo hi (_extract_metrics_manually text).
Proof.
  intros Hlo Hhi Hfound key q Hkey Hq.
  destruct Hkey as [<-|[<-|[<-|[]]]]; cbn in Hq.
  - destruct (re_search_number "accuracy" text) as [q'|] eqn:E;
      cbn in Hq; injection Hq as <-;
      [apply (Hfound "accuracy"); [simpl; auto | exact E] | now split].
  - destruct (re_search_number "guidance" text) as [q'|] eqn:E;
      cbn in Hq; injection Hq as <-;
      [apply (Hfound "guidance"); [simpl; auto | exact E] | now split].
  - destruct (re_search_number "clarity" text) as [q'|] eqn:E;
      cbn in Hq; injection Hq as <-;
      [apply (Hfound "clarity"); [simpl; auto | exact E] | now split].
Qed.

End Composite.

(** X6.  The judge keeps the unit interval: if the three sub-scores of
    the object that the judge decodes, and the numbers that the fallback
    pattern finds, all lie in [0,1], so do the composite score and the
    guidance value that the judge returns for the sample; 0.5 stands in
    for a sub-score that is missing, and a sub-score that is not a number
    or a failure of the decoding gives 0.5 for both.  The bounds are the
    values at the extremes, 0 and 0.5 + 0.3 + 0.2 = 1. *)
Theorem composite_in_unit_interval (lib : PyText) (format_flag : bool)
  (eval_result : string) :
  (forall span m,
     re_search_braces eval_result = Some span ->
     json_loads span = LoadsOk m -> sub_scores_within 0 1 m) ->
  (forall name q,
     In name ["accuracy"; "guidance"; "clarity"] ->
     re_search_number name eval_result = Some q -> 0 <= q /\ q <= 1) ->
  in_unit (fst (judge_text format_flag eval_result))
  /\ in_unit (metrics_educational_value
                (snd (judge_text format_flag eval_result))).
Proof.
  intros Hjson Hmanual. unfold in_unit.
  assert (Hlo : 0 <= 0.5) by discriminate.
  assert (Hhi : 0.5 <= 1) by discriminate.
  pose proof (manual_metrics_within eval_result Hlo Hhi Hmanual) as Hman.
  unfold judge_text.
  destruct (re_search_braces eval_result) as [span|] eqn:Es.
  - destruct (json_loads span) as [m| |e] eqn:El.
    + apply score_metrics_within; try assumption. now apply (Hjson span).
    + now apply score_metrics_within.
    + cbn. auto.
  - now apply score_metrics_within.
Qed.

Lemma composite_in_unit_interval_witness :
  in_unit (fst (judge_text true (grader_json "0.9" "0.8" "0.7")))
  /\ in_unit (metrics_educational_value
                (snd (judge_text true (grader_json "0.9" "0.8" "0.7")))).
Proof.
  apply (@composite_in_unit_interval ascii_text true
           (grader_json "0.9" "0.8" "0.7")).
  - intros span m Hs Hl. vm_compute in Hs. injection Hs as <-.
    vm_compute in Hl. injection Hl as <-.
    intros key q [<-|[<-|[<-|[]]]] Hq; vm_compute in Hq;
      injection Hq as <-; split; discriminate.
  - intros name q [<-|[<-|[<-|[]]]] Hq; vm_compute in Hq;
      injection Hq as <-; split; discriminate.
Defined.

(** In double precision the composite takes the same values at the
    extremes, so the rounded score stays in [0,1] as well.  Between them
    it is rounded: three sub-scores of 0.632 give a composite one unit in
    the last place above 0.632. *)
Lemma binary64_composite_extremes :
  Binary64.lowest_composite = Binary64.literal_0
  /\ Binary64.highest_composite = Binary64.literal_1.
Proof. split; reflexivity. Qed.

Lemma binary64_composite_is_rounded :
  PrimFloat.ltb Binary64.literal_0632 Binary64.composite_of_0632 = true.
Proof. reflexivity. Qed.

(* ================================================================== *)
(** ** Runs without any usable response *)

Lemma silent_run_counts (run : list (TestCase * Outcome)) :
  Forall (fun ro => snd ro = NoResponse) run ->
  (forall p, count (fun ro => p ro && passed ro) run = 0%nat)
  /\ count format_ok run = 0%nat
  /\ Qsum (map guidance_of run) == 0
  /\ low_score_samples run = []
  /\ map pass_bit run = repeat 0%nat (List.length run).
Proof.
  induction run as [|[row o] run IH]; intros H.
  - repeat split; reflexivity.
  - inversion H as [|? ? Ho Hrest]; subst. cbn [snd] in Ho. subst o.
    destruct (IH Hrest) as (Hp & Hf & Hg & Hl & Hb).
    repeat split.
    + intros p. rewrite count_cons, Hp.
      change (passed (row, NoResponse)) with false.
      now rewrite andb_false_r.
    + rewrite count_cons, Hf. reflexivity.
    + cbn [map]. change (Qsum (guidance_of (row, NoResponse)
                                 :: map guidance_of run))
        with (0 + Qsum (map guidance_of run)). rewrite Hg. reflexivity.
    + change (low_score_samples ((row, NoResponse) :: run))
        with (low_score_samples run). exact Hl.
    + cbn [map List.length repeat]. now rewrite Hb.
Qed.

Lemma zero_rate n : Q_of_nat 0 / Q_of_nat n == 0.
Proof. unfold Qdiv. change (Q_of_nat 0) with 0. ring. Qed.

Lemma formulas_of_silent_run (run : list (TestCase * Outcome)) :
  (forall p, count (fun ro => p ro && passed ro) run = 0%nat) ->
  error_detection_formula run == 0 /\ difficulty_formula run == 0.
Proof.
  intros Hp. split.
  - unfold error_detection_formula, error_types, kind_passes.
    cbn [filter].
    destruct (0 <? kind_samples syntax run)%nat,
      (0 <? kind_samples runtime run)%nat,
      (0 <? kind_samples logical run)%nat,
      (0 <? kind_samples conceptual run)%nat;
      cbn [map Qsum fold_right]; rewrite ?Hp, ?zero_rate; ring.
  - unfold difficulty_formula, difficulty_levels, level_passes.
    cbn [filter].
    destruct (0 <? level_samples beginner run)%nat,
      (0 <? level_samples intermediate run)%nat,
      (0 <? level_samples advanced run)%nat;
      cbn [map Qsum fold_right]; rewrite ?Hp, ?zero_rate;
      unfold Qdiv; ring.
Qed.

Lemma outcomes_of_silent_service {lib : PyText} llm sp rows k :
  (forall j messages, unusable (llm j messages)) ->
  outcomes llm sp rows k
  = (repeat NoResponse (List.length rows), (k + 3 * List.length rows)%nat).
Proof.
  intros Hsilent. revert k.
  induction rows as [|row rest IH]; intros k.
  - cbn. unfold ret. f_equal. lia.
  - cbn [outcomes]. unfold bind, ret.
    assert (Hrow : row_outcome llm sp row k = (NoResponse, (k + 3)%nat)).
    { unfold row_outcome, bind.
      destruct (@retry_loop_exhausted lib llm
                  [Msg "system" sp; Msg "user" (user_input (code row))]
                  3%nat None k eq_refl) as [r [Hr Hnr]].
      - intros i _. apply Hsilent.
      - rewrite Hr, Hnr. reflexivity. }
    rewrite Hrow, IH. cbn [List.length repeat]. f_equal. lia.
Qed.

(** X7.  No failure of the service escapes [evaluate]: when every call
    raises or returns nothing usable, a run over [n >= 1] rows still
    returns, after exactly [3 n] calls, with an overall score and four
    dimension scores of 0, a pass vector of [n] zeros and no error
    sample. *)
Theorem silent_service_scores_zero (lib : PyText) (llm : llm_service)
  (system_prompt : string) (rows : list TestCase) (k : nat) :
  rows <> [] ->
  (forall j messages, unusable (llm j messages)) ->
  exists score ev,
    evaluate llm system_prompt rows k
    = (Ok (score, ev), (k + 3 * List.length rows)%nat)
    /\ score == 0
    /\ error_detection (metrics ev) == 0
    /\ educational_value (metrics ev) == 0
    /\ format_compliance (metrics ev) == 0
    /\ difficulty_adaptation (metrics ev) == 0
    /\ evidence_perf_vector ev = repeat 0%nat (List.length rows)
    /\ evidence_error_samples ev = [].
Proof.
  intros Hrows Hsilent.
  destruct (evaluate_nonempty llm system_prompt k Hrows)
    as (score & ev & Hev & Hscore & Hall & Hed & Hedu & Hfmt & Hdiff
        & Hes & _ & _ & Hperf).
  pose proof (@outcomes_of_silent_service lib llm system_prompt rows k
                Hsilent) as Hout.
  set (run := run_of llm system_prompt rows k) in *.
  assert (Hrun : Forall (fun ro => snd ro = NoResponse) run).
  { apply Forall_forall. intros ro Hin.
    apply (in_map snd) in Hin. unfold run in Hin.
    rewrite run_of_outcomes, Hout in Hin. cbn [fst] in Hin.
    now apply repeat_spec in Hin. }
  destruct (silent_run_counts Hrun) as (Hp & Hf & Hg & Hl & Hb).
  destruct (formulas_of_silent_run run Hp) as [Hed0 Hdiff0].
  assert (Hedu0 : educational_value (metrics ev) == 0).
  { rewrite Hedu, Hg. unfold Qdiv. ring. }
  assert (Hfmt0 : format_compliance (metrics ev) == 0).
  { rewrite Hfmt, Hf. apply zero_rate. }
  exists score, ev. rewrite Hev, Hout. cbn [snd].
  split; [reflexivity|].
  split; [rewrite Hscore, Hall, Hed, Hed0, Hedu0, Hfmt0, Hdiff, Hdiff0; ring|].
  split; [now rewrite Hed|]. split; [exact Hedu0|]. split; [exact Hfmt0|].
  split; [now rewrite Hdiff|].
  split; [|now rewrite Hes].
  rewrite Hperf, Hb. unfold run. now rewrite run_of_length.
Qed.

Lemma dead_llm_unusable : forall j messages, unusable (dead_llm j messages).
Proof. intros j messages. exact I. Qed.

Lemma silent_service_scores_zero_witness :
  four_kinds <> []
  /\ (forall j messages, unusable (dead_llm j messages))
  /\ exists score ev,
       evaluate dead_llm "你是一个编程教学助手。" four_kinds 0%nat
       = (Ok (score, ev), 12%nat)
       /\ score == 0
       /\ evidence_perf_vector ev = [0; 0; 0; 0]%nat.
Proof.
  split; [discriminate|]. split; [exact dead_llm_unusable|].
  destruct (@silent_service_scores_zero ascii_text dead_llm
              "你是一个编程教学助手。" four_kinds 0%nat)
    as (score & ev & Hev & Hscore & _ & _ & _ & _ & Hperf & _).
  - discriminate.
  - exact dead_llm_unusable.
  - exists score, ev. split; [exact Hev|]. split; [exact Hscore|exact Hperf].
Defined.

(* ================================================================== *)
(** ** The averages of the report and the collected failures *)

(** X8.  The educational score is the sum of the guidance values of
    the graded rows divided by the number of all rows, and the format
    score is the number of graded rows whose reply passes the format
    check divided by the number of all rows: a row without a response
    counts as 0 in both.  The score that [evaluate] returns is
    0.40, 0.30, 0.20 and 0.10 times the error-detection, educational,
    format and difficulty scores. *)
Theorem averages_run_over_all_rows (lib : PyText) (llm : llm_service)
  (system_prompt : string) (rows : list TestCase) (k : nat) :
  rows <> [] ->
  exists score ev,
    fst (evaluate llm system_prompt rows k) = Ok (score, ev)
    /\ educational_value (metrics ev)
       == Qsum (map guidance_of (run_of llm system_prompt rows k))
          / Q_of_nat (List.length rows)
    /\ format_compliance (metrics ev)
       == Q_of_nat (count format_ok (run_of llm system_prompt rows k))
          / Q_of_nat (List.length rows)
    /\ score
       == 0.40 * error_detection (metrics ev)
          + 0.30 * educational_value (metrics ev)
          + 0.20 * format_compliance (metrics ev)
          + 0.10 * difficulty_adaptation (metrics ev).
Proof.
  intros Hrows.
  destruct (evaluate_nonempty llm system_prompt k Hrows)
    as (score & ev & Hev & Hscore & Hall & _ & Hedu & Hfmt & _).
  exists score, ev. rewrite Hev. split; [reflexivity|].
  split; [exact Hedu|]. split; [now rewrite Hfmt|].
  rewrite Hscore, Hall. ring.
Qed.

Lemma averages_run_over_all_rows_witness :
  [one_case; colon_case] <> []
  /\ exists score ev,
       fst (evaluate one_answer_llm "你是一个编程教学助手。"
              [one_case; colon_case] 0%nat) = Ok (score, ev)
       /\ educational_value (metrics ev) == 0.4
       /\ format_compliance (metrics ev) == 0.5.
Proof.
  split; [discriminate|].
  destruct (@averages_run_over_all_rows ascii_text one_answer_llm
              "你是一个编程教学助手。" [one_case; colon_case] 0%nat)
    as (score & ev & Hev & Hedu & Hfmt & _); [discriminate|].
  exists score, ev. split; [exact Hev|].
  split; [rewrite Hedu | rewrite Hfmt]; vm_compute; reflexivity.
Defined.

(** X9.  Every graded sample that scores below the pass mark is
    collected: on a corpus with at least one row, each row graded with a
    composite score below 0.7 has its entry, with the response and the
    score, among the error samples of the evidence. *)
Theorem failed_graded_samples_are_collected (lib : PyText)
  (llm : llm_service) (system_prompt : string) (rows : list TestCase)
  (k : nat) :
  rows <> [] ->
  exists score ev,
    fst (evaluate llm system_prompt rows k) = Ok (score, ev)
    /\ forall row response score0 m,
         In (row, Graded response score0 m)
           (run_of llm system_prompt rows k) ->
         score0 < 0.7 ->
         In (LowScore (code row) response (expected_output row)
               (error_type row) (difficulty row) score0
               (metrics_failure_reason m))
           (evidence_error_samples ev).
Proof.
  intros Hrows.
  destruct (evaluate_nonempty llm system_prompt k Hrows)
    as (score & ev & Hev & _ & _ & _ & _ & _ & _ & Hes & _).
  exists score, ev. rewrite Hev. split; [reflexivity|].
  intros row response score0 m Hin Hfail. rewrite Hes.
  apply low_score_samples_in. exists row, response, score0, m.
  split; [exact Hin|]. split; [|reflexivity].
  apply Qlt_trans with 0.7; [exact Hfail | reflexivity].
Qed.

Lemma failed_graded_samples_are_collected_witness :
  exists score ev score0 reason,
    fst (evaluate four_kinds_llm "你是一个编程教学助手。" four_kinds 0%nat)
    = Ok (score, ev)
    /\ score0 < 0.7
    /\ In (LowScore "print(1 / 0)" tutor_reply "除零错误" runtime beginner
             score0 reason)
          (evidence_error_samples ev).
Proof.
  destruct (@failed_graded_samples_are_collected ascii_text four_kinds_llm
              "你是一个编程教学助手。" four_kinds 0%nat)
    as (score & ev & Hev & Hcollected); [discriminate|].
  assert (Hrun : exists score0 m,
            In (mkCase "print(1 / 0)" runtime beginner "除零错误",
                Graded tutor_reply score0 m)
              (run_of four_kinds_llm "你是一个编程教学助手。" four_kinds
                 0%nat)
            /\ score0 < 0.7).
  { vm_compute. eexists. eexists.
    split; [right; left; reflexivity | reflexivity]. }
  destruct Hrun as (score0 & m & Hin & Hlow).
  exists score, ev, score0, (metrics_failure_reason m).
  split; [exact Hev|]. split; [exact Hlow|].
  exact (Hcollected _ _ _ _ Hin Hlow).
Defined.

Lemma sample_size_of_distinct_cases_witness :
  four_kinds <> [] /\ NoDup four_kinds
  /\ exists picked,
       fst (sample_balanced_cases four_kinds 3 42 0%Z) = Ok picked
       /\ Z.of_nat (List.length picked) = 3%Z.
Proof.
  assert (Hnd : NoDup four_kinds).
  { unfold four_kinds. repeat constructor; simpl; intuition discriminate. }
  split; [discriminate|]. split; [exact Hnd|].
  destruct (@sample_size_of_distinct_cases lcg_random
              lcg_sample_without_replacement four_kinds 3%Z 42%Z 0%Z)
    as (picked & Hp & Hlen); [discriminate | exact Hnd | lia |].
  exists picked. split; [exact Hp|]. rewrite Hlen. reflexivity.
Defined.

(* ================================================================== *)
(** ** What the sample is made of *)

Lemma filter_perm {A} (f : A -> bool) (l l' : list A) :
  Permutation l l' -> Permutation (filter f l) (filter f l').
Proof.
  induction 1 as [|x l l' _ IH|x y l|l l' l'' _ IH1 _ IH2]; simpl.
  - constructor.
  - destruct (f x); [now constructor | exact IH].
  - destruct (f x), (f y); try apply Permutation_refl. apply perm_swap.
  - eapply Permutation_trans; eassumption.
Qed.

Lemma filter_split {A} (f : A -> bool) (l : list A) :
  Permutation l (filter f l ++ filter (fun x => negb (f x)) l).
Proof.
  induction l as [|x l IH]; simpl; [constructor|].
  destruct (f x); simpl.
  - now constructor.
  - now apply Permutation_cons_app.
Qed.

Lemma not_in_sampled_false sampled :
  filter (not_in sampled) sampled = [].
Proof.
  assert (H : forall l, incl l sampled -> filter (not_in sampled) l = []).
  { induction l as [|x l IH]; intros Hl; [reflexivity|]. simpl.
    assert (Hx : not_in sampled x = false).
    { unfold not_in. apply negb_false_iff, existsb_exists.
      exists x. split; [apply Hl; now left|].
      now destruct (case_eqb_spec x x). }
    rewrite Hx. apply IH. intros y Hy. apply Hl. now right. }
  apply H, incl_refl.
Qed.

Lemma taken_from_firstn {A} n (l m : list A) :
  taken_from l m -> taken_from (firstn n l) m.
Proof.
  intros [r Hr]. exists (skipn n l ++ r).
  now rewrite app_assoc, firstn_skipn.
Qed.

Lemma taken_from_top_up cases sampled picked :
  taken_from sampled cases ->
  taken_from picked (filter (not_in sampled) cases) ->
  taken_from (sampled ++ picked) cases.
Proof.
  intros [r Hr] [r2 Hr2].
  pose proof (filter_perm (not_in sampled) (Permutation_sym Hr)) as Hf.
  rewrite filter_app, not_in_sampled_false in Hf. cbn [app] in Hf.
  exists (r2 ++ filter (fun x => negb (not_in sampled x)) r).
  rewrite <- Hr, <- app_assoc. apply Permutation_app_head.
  rewrite app_assoc, Hr2, Hf. apply Permutation_sym, filter_split.
Qed.

Section SampleContents.

Context {R : PyRandom}.
Hypothesis sampling : sample_without_replacement R.

Lemma top_up_taken cases sampled max_samples g :
  taken_from sampled cases ->
  taken_from (fst (top_up cases sampled max_samples g)) cases
  /\ exists extra, fst (top_up cases sampled max_samples g)
                   = sampled ++ extra.
Proof.
  intros Hsub. unfold top_up.
  destruct (Z.of_nat (List.length sampled) <? max_samples)%Z eqn:E;
    [|cbn; split; [exact Hsub | exists []; now rewrite app_nil_r]].
  destruct (filter (not_in sampled) cases) as [|c0 remaining] eqn:Ef;
    [cbn; split; [exact Hsub | exists []; now rewrite app_nil_r]|].
  set (additional := Z.to_nat _).
  assert (Ha : (additional <= List.length (c0 :: remaining))%nat)
    by (subst additional; lia).
  destruct (sampling (c0 :: remaining) g Ha) as [_ Hpicked].
  destruct (rng_sample (c0 :: remaining) additional g) as [picked g'].
  cbn [fst] in *. split; [|now exists picked].
  apply taken_from_top_up; [exact Hsub|]. now rewrite Ef.
Qed.

(** X11.  The sampler never invents or repeats a case: on a corpus that
    is not empty it returns, for every [max_samples] and seed, cases taken
    from the corpus without replacement.  So every returned case is a case
    of the corpus, the sample is no longer than the corpus, a corpus of
    distinct rows gives a sample of distinct rows, and for
    [max_samples >= 0] the sample has at most [max_samples] cases. *)
Theorem sample_is_taken_from_corpus (cases : list TestCase)
  (max_samples seed : Z) (ambient : rng) :
  cases <> [] ->
  exists picked,
    fst (sample_balanced_cases cases max_samples seed ambient) = Ok picked
    /\ taken_from picked cases
    /\ incl picked cases
    /\ (List.length picked <= List.length cases)%nat
    /\ (NoDup cases -> NoDup picked)
    /\ ((0 <= max_samples)%Z ->
        (Z.of_nat (List.length picked) <= max_samples)%Z).
Proof.
  intros Hne. unfold sample_balanced_cases.
  pose proof (group_cases_nonempty Hne) as Hg.
  destruct (group_cases cases) as [|item groups] eqn:Eg; [contradiction|].
  cbn [List.length]. rewrite <- Eg.
  set (per_group := Z.max 1 _).
  pose proof (@sample_groups_taken R sampling per_group
                (sorted_items (group_cases cases)) (rng_seed seed)
                ltac:(subst per_group; lia)) as Hsub.
  destruct (sample_groups per_group _ (rng_seed seed)) as [sampled g1].
  cbn [fst] in Hsub.
  assert (Hsub' : taken_from sampled cases).
  { eapply taken_from_perm; [exact Hsub|].
    rewrite (Permutation_map snd (sorted_items_perm (group_cases cases))).
    apply group_cases_concat. }
  destruct (@top_up_taken cases sampled max_samples g1 Hsub') as [Htop _].
  destruct (top_up cases sampled max_samples g1) as [sampled' g2].
  cbn [fst] in *.
  assert (Hres : taken_from (py_prefix sampled' max_samples) cases).
  { unfold py_prefix. destruct (max_samples <? 0)%Z;
      now apply taken_from_firstn. }
  eexists. split; [reflexivity|]. split; [exact Hres|].
  split; [now apply taken_from_incl|].
  split; [now apply taken_from_length|].
  split; [now apply taken_from_NoDup|].
  intros Hmax. unfold py_prefix.
  destruct (max_samples <? 0)%Z eqn:En; [apply Z.ltb_lt in En; lia|].
  rewrite length_firstn. lia.
Qed.

End SampleContents.

Lemma sample_is_taken_from_corpus_witness :
  twin_cases <> []
  /\ exists picked,
       fst (sample_balanced_cases twin_cases 3 42 0%Z) = Ok picked
       /\ incl picked twin_cases
       /\ (List.length picked <= 3)%nat.
Proof.
  split; [discriminate|].
  destruct (@sample_is_taken_from_corpus lcg_random
              lcg_sample_without_replacement twin_cases 3%Z 42%Z 0%Z)
    as (picked & Hp & _ & Hincl & Hlen & _); [discriminate|].
  exists picked. split; [exact Hp|]. split; [exact Hincl | exact Hlen].
Defined.

(* ================================================================== *)
(** ** Which strata the sample covers *)

Lemma add_case_ok groups c :
  Forall stratum_ok groups -> Forall stratum_ok (add_case groups c).
Proof.
  induction groups as [|[k cs] rest IH]; intros H; simpl.
  - constructor; [|constructor]. split; [discriminate|].
    now repeat constructor.
  - inversion H as [|? ? [Hne Hall] Hrest]; subst. cbn [fst snd] in *.
    destruct (key_eqb_spec k (key_of c)) as [E|E].
    + constructor; [|exact Hrest]. split; cbn [fst snd].
      * destruct cs; discriminate.
      * apply Forall_app. split; [exact Hall|]. now repeat constructor.
    + constructor; [now split | now apply IH].
Qed.

Lemma group_cases_ok cases : Forall stratum_ok (group_cases cases).
Proof.
  unfold group_cases.
  assert (H : forall groups, Forall stratum_ok groups ->
            Forall stratum_ok (fold_left add_case cases groups)).
  { induction cases as [|c cases IH]; intros groups Hg; simpl;
      [exact Hg | now apply IH, add_case_ok]. }
  apply H. constructor.
Qed.

Lemma group_cases_keys cases c :
  In c cases -> In (key_of c) (map fst (group_cases cases)).
Proof.
  intros Hin.
  apply (Permutation_in _ (Permutation_sym (group_cases_concat cases)))
    in Hin.
  apply in_concat in Hin. destruct Hin as [cs [Hcs Hc]].
  apply in_map_iff in Hcs. destruct Hcs as [[k cs'] [E Hitem]].
  cbn [snd] in E. subst cs'.
  pose proof (group_cases_ok cases) as Hok.
  rewrite Forall_forall in Hok. destruct (Hok _ Hitem) as [_ Hall].
  rewrite Forall_forall in Hall. rewrite (Hall c Hc).
  now apply (in_map fst) in Hitem.
Qed.

Lemma strata_length cases :
  List.length (strata cases) = List.length (group_cases cases).
Proof.
  unfold strata. rewrite length_map.
  apply Permutation_length, sorted_items_perm.
Qed.

Lemma Forall2_pick {A B} (P : A -> B -> Prop) l l' x :
  Forall2 P l l' -> In x l -> exists y, In y l' /\ P x y.
Proof.
  induction 1 as [|a b l l' Hab _ IH]; intros Hin; [contradiction|].
  destruct Hin as [<-|Hin].
  - exists b. split; [now left | exact Hab].
  - destruct (IH Hin) as [y [Hy Hxy]]. exists y. split; [now right|exact Hxy].
Qed.

Lemma concat_length_bound {A B} (P : A -> list B -> Prop) bound l picks :
  Forall2 P l picks ->
  (forall x pick, P x pick -> (List.length pick <= bound)%nat) ->
  (List.length (List.concat picks) <= List.length l * bound)%nat.
Proof.
  intros H Hb. induction H as [|x pick l picks Hx _ IH]; [simpl; lia|].
  cbn [List.concat List.length]. rewrite length_app.
  specialize (Hb x pick Hx). simpl. lia.
Qed.

Section SampleCoverage.

Context {R : PyRandom}.
Hypothesis sampling : sample_without_replacement R.

Lemma sample_groups_picks per_group items g :
  exists picks,
    fst (sample_groups per_group items g) = List.concat picks
    /\ Forall2 (drawn per_group) items picks.
Proof.
  unfold sample_groups.
  assert (H : forall acc g0,
            exists picks,
              fst (fold_left
                     (fun (acc : list TestCase * rng)
                          (item : group_key * list TestCase) =>
                        let (sampled, g) := acc in
                        let group := snd item in
                        let sample_count :=
                          Z.min per_group (Z.of_nat (List.length group)) in
                        let (picked, g') :=
                          rng_sample group (Z.to_nat sample_count) g in
                        (sampled ++ picked, g'))
                     items (acc, g0))
              = acc ++ List.concat picks
              /\ Forall2 (drawn per_group) items picks).
  { induction items as [|[key group] items IH]; intros acc g0.
    - exists []. cbn. split; [now rewrite app_nil_r | constructor].
    - cbn [fold_left snd].
      assert (Hk : (Z.to_nat (Z.min per_group (Z.of_nat (List.length group)))
                    <= List.length group)%nat) by lia.
      destruct (sampling group g0 Hk) as [Hlen Hsub].
      destruct (rng_sample group _ g0) as [picked g']. cbn [fst] in *.
      destruct (IH (acc ++ picked) g') as [picks [Hfold Hall]].
      exists (picked :: picks). split.
      + rewrite Hfold. cbn [List.concat]. now rewrite app_assoc.
      + constructor; [|exact Hall]. split; [exact Hlen | exact Hsub]. }
  apply (H [] g).
Qed.

(** With room for one case of each stratum, the sample stays within the
    corpus and the bound and reaches every stratum. *)
Lemma sample_with_room (cases : list TestCase)
  (max_samples seed : Z) (ambient : rng) :
  cases <> [] ->
  (Z.of_nat (List.length (strata cases)) <= max_samples)%Z ->
  exists picked,
    fst (sample_balanced_cases cases max_samples seed ambient) = Ok picked
    /\ taken_from picked cases
    /\ (Z.of_nat (List.length picked) <= max_samples)%Z
    /\ forall c, In c cases ->
         exists c', In c' picked /\ key_of c' = key_of c.
Proof.
  intros Hne Hmax. rewrite strata_length in Hmax.
  unfold sample_balanced_cases.
  pose proof (group_cases_nonempty Hne) as Hg.
  destruct (group_cases cases) as [|item0 groups0] eqn:Eg; [contradiction|].
  cbn [List.length] in *. rewrite <- Eg.
  set (G := S (List.length groups0)) in *.
  assert (Hitems_len : List.length (sorted_items (group_cases cases)) = G).
  { rewrite (Permutation_length (sorted_items_perm _)), Eg. reflexivity. }
  set (per_group := Z.max 1 (max_samples / Z.of_nat G)).
  assert (Hper : (1 <= per_group)%Z) by (subst per_group; lia).
  assert (Hfit : (Z.of_nat G * per_group <= max_samples)%Z).
  { subst per_group.
    assert (1 <= max_samples / Z.of_nat G)%Z.
    { apply Z.div_le_lower_bound; lia. }
    rewrite Z.max_r by lia. apply Z.mul_div_le. lia. }
  destruct (sample_groups_picks per_group
              (sorted_items (group_cases cases)) (rng_seed seed))
    as [picks [Hsampled Hpicks]].
  pose proof (@sample_groups_taken R sampling per_group
                (sorted_items (group_cases cases)) (rng_seed seed) Hper)
    as Hsub.
  destruct (sample_groups per_group _ (rng_seed seed)) as [sampled g1].
  cbn [fst] in *.
  assert (Hsub' : taken_from sampled cases).
  { eapply taken_from_perm; [exact Hsub|].
    rewrite (Permutation_map snd (sorted_items_perm (group_cases cases))).
    apply group_cases_concat. }
  assert (Hlen : (Z.of_nat (List.length sampled) <= max_samples)%Z).
  { rewrite Hsampled.
    pose proof (@concat_length_bound _ _ (drawn per_group)
                  (Z.to_nat per_group) _ _ Hpicks) as Hb.
    rewrite Hitems_len in Hb.
    assert (List.length (List.concat picks) <= G * Z.to_nat per_group)%nat.
    { apply Hb. intros x pick [Hl _]. rewrite Hl. lia. }
    nia. }
  destruct (@top_up_taken R sampling cases sampled max_samples g1 Hsub')
    as [Htop [extra Hextra]].
  destruct (top_up cases sampled max_samples g1) as [sampled' g2].
  cbn [fst] in *. subst sampled'.
  assert (Hpos : (max_samples <? 0)%Z = false) by (apply Z.ltb_ge; lia).
  eexists. split; [reflexivity|].
  split; [unfold py_prefix; rewrite Hpos; now apply taken_from_firstn|].
  split; [unfold py_prefix; rewrite Hpos, length_firstn; lia|].
  intros c Hc.
  pose proof (@group_cases_keys cases c Hc) as Hkey.
  apply (Permutation_in _ (Permutation_map fst
           (Permutation_sym (sorted_items_perm (group_cases cases)))))
    in Hkey.
  apply in_map_iff in Hkey. destruct Hkey as [[key group] [Ek Hitem]].
  cbn [fst] in Ek. subst key.
  destruct (@Forall2_pick _ _ _ _ _ _ Hpicks Hitem)
    as [pick [Hpick [Hl Htaken]]].
  assert (Hok : stratum_ok (key_of c, group)).
  { pose proof (group_cases_ok cases) as Hall.
    rewrite (Permutation_Forall
               (Permutation_sym (sorted_items_perm (group_cases cases))))
      in Hall.
    rewrite Forall_forall in Hall. now apply Hall. }
  destruct Hok as [Hgne Hgkey]. cbn [fst snd] in *.
  destruct pick as [|c' pick'].
  { exfalso. destruct group; [contradiction|]. simpl in Hl. lia. }
  exists c'. split.
  - unfold py_prefix.
    destruct (max_samples <? 0)%Z eqn:En; [apply Z.ltb_lt in En; lia|].
    assert (E : firstn (Z.to_nat max_samples) sampled = sampled)
      by (apply firstn_all2; lia).
    rewrite firstn_app, E.
    apply in_or_app. left. rewrite Hsampled. apply in_concat.
    exists (c' :: pick'). split; [exact Hpick | now left].
  - rewrite Forall_forall in Hgkey. apply Hgkey.
    apply (taken_from_incl Htaken). now left.
Qed.

(** X12.  The sampler keeps its promise of coverage when the bound
    allows it: if [max_samples] is at least the number of strata of a
    corpus that is not empty, every (error kind, difficulty) pair that
    occurs in the corpus occurs in the sample. *)
Theorem every_stratum_is_sampled (cases : list TestCase)
  (max_samples seed : Z) (ambient : rng) :
  cases <> [] ->
  (Z.of_nat (List.length (strata cases)) <= max_samples)%Z ->
  exists picked,
    fst (sample_balanced_cases cases max_samples seed ambient) = Ok picked
    /\ forall c, In c cases ->
         exists c', In c' picked /\ key_of c' = key_of c.
Proof.
  intros Hne Hmax.
  destruct (sample_with_room seed ambient Hne Hmax)
    as (picked & Hpicked & _ & _ & Hcover).
  exists picked. split; [exact Hpicked | exact Hcover].
Qed.

(** X13.  When [max_samples] does not exceed the number of strata, the
    sample is one case from each of the first [max_samples] strata in key
    order and nothing else: the remaining strata are not covered. *)
Theorem small_sample_takes_first_strata (cases : list TestCase)
  (max_samples seed : Z) (ambient : rng) :
  cases <> [] ->
  (0 <= max_samples <= Z.of_nat (List.length (strata cases)))%Z ->
  exists picked,
    fst (sample_balanced_cases cases max_samples seed ambient) = Ok picked
    /\ map key_of picked = firstn (Z.to_nat max_samples) (strata cases).
Proof.
  intros Hne Hmax. rewrite strata_length in Hmax.
  unfold sample_balanced_cases.
  pose proof (group_cases_nonempty Hne) as Hg.
  destruct (group_cases cases) as [|item0 groups0] eqn:Eg; [contradiction|].
  cbn [List.length] in *. rewrite <- Eg.
  set (G := S (List.length groups0)) in *.
  assert (Hper : Z.max 1 (max_samples / Z.of_nat G) = 1%Z).
  { assert (max_samples / Z.of_nat G <= 1)%Z; [|lia].
    apply Z.div_le_upper_bound; lia. }
  rewrite Hper.
  destruct (sample_groups_picks 1
              (sorted_items (group_cases cases)) (rng_seed seed))
    as [picks [Hsampled Hpicks]].
  destruct (sample_groups 1 _ (rng_seed seed)) as [sampled g1].
  cbn [fst] in *.
  assert (Hok : Forall stratum_ok (sorted_items (group_cases cases))).
  { exact (Permutation_Forall
             (Permutation_sym (sorted_items_perm (group_cases cases)))
             (group_cases_ok cases)). }
  assert (Hkeys : map key_of sampled = strata cases).
  { unfold strata. rewrite Hsampled.
    clear Hsampled. revert Hok.
    induction Hpicks as [|[key group] pick items picks [Hl Ht] _ IH];
      intros Hok; [reflexivity|].
    inversion Hok as [|? ? [Hgne Hgkey] Hrest]; subst.
    cbn [fst snd] in *.
    destruct group as [|c0 group]; [contradiction|].
    replace (Z.to_nat (Z.min 1 (Z.of_nat (List.length (c0 :: group)))))
      with 1%nat in Hl by (simpl; lia).
    destruct pick as [|c' [|c'' pick]]; try discriminate Hl.
    cbn [List.concat app map fst]. f_equal.
    - rewrite Forall_forall in Hgkey.
      apply Hgkey, (taken_from_incl Ht). now left.
    - now apply IH. }
  assert (Hlen : List.length sampled = G).
  { rewrite <- (length_map key_of), Hkeys, strata_length, Eg. reflexivity. }
  unfold top_up.
  replace (Z.of_nat (List.length sampled) <? max_samples)%Z with false
    by (symmetry; apply Z.ltb_ge; lia).
  cbn [fst]. eexists. split; [reflexivity|].
  unfold py_prefix.
  destruct (max_samples <? 0)%Z eqn:En; [apply Z.ltb_lt in En; lia|].
  now rewrite <- firstn_map, Hkeys.
Qed.

End SampleCoverage.

(* ================================================================== *)
(** ** The order of the strata and the determinism of the sampler *)

Lemma fold_add_case_keys cases groups k :
  In k (map fst (fold_left add_case cases groups))
  <-> In k (map fst groups) \/ exists c, In c cases /\ key_of c = k.
Proof.
  revert groups. induction cases as [|c cases IH]; intros groups;
    cbn [fold_left].
  - split; [now left | intros [H|(c & [] & _)]; exact H].
  - rewrite IH, add_case_keys. split.
    + intros [[->|H]|(c' & Hc' & E)].
      * right. exists c. split; [now left | reflexivity].
      * now left.
      * right. exists c'. split; [now right | exact E].
    + intros [H|(c' & [<-|Hc'] & E)].
      * left. now right.
      * left. left. now symmetry.
      * right. now exists c'.
Qed.

Lemma strata_in cases k :
  In k (strata cases) <-> exists c, In c cases /\ key_of c = k.
Proof.
  unfold strata.
  assert (H : In k (map fst (sorted_items (group_cases cases)))
              <-> In k (map fst (group_cases cases))).
  { split; apply Permutation_in, Permutation_map;
      [|apply Permutation_sym]; apply sorted_items_perm. }
  rewrite H. unfold group_cases. rewrite fold_add_case_keys.
  split; [intros [[]|H0]; exact H0 | intros H0; now right].
Qed.

Lemma strata_sorted cases : StronglySorted key_lt (strata cases).
Proof. apply sorted_items_sorted, group_cases_NoDup. Qed.

Lemma sorted_keys_unique (l l' : list group_key) :
  StronglySorted key_lt l -> StronglySorted key_lt l' ->
  (forall k, In k l <-> In k l') -> l = l'.
Proof.
  intros Hl. revert l'. induction Hl as [|a l Hl IH Ha]; intros l' Hl' Hin.
  - destruct l' as [|b l']; [reflexivity|].
    destruct (proj2 (Hin b) (or_introl eq_refl)).
  - destruct Hl' as [|b l' Hl' Hb];
      [destruct (proj1 (Hin a) (or_introl eq_refl))|].
    rewrite Forall_forall in Ha, Hb.
    assert (Hab : a = b).
    { destruct (proj1 (Hin a) (or_introl eq_refl)) as [E|Hal'];
        [now symmetry|].
      destruct (proj2 (Hin b) (or_introl eq_refl)) as [E|Hbl];
        [exact E|].
      exfalso. apply (@key_lt_irrefl a).
      apply key_lt_trans with b; [now apply Ha | now apply Hb]. }
    subst b. f_equal. apply IH; [exact Hl'|].
    intros k. split; intros Hk.
    + destruct (proj1 (Hin k) (or_intror Hk)) as [E|Hk']; [|exact Hk'].
      subst k. exfalso. apply (@key_lt_irrefl a). now apply Ha.
    + destruct (proj2 (Hin k) (or_intror Hk)) as [E|Hk']; [|exact Hk'].
      subst k. exfalso. apply (@key_lt_irrefl a). now apply Hb.
Qed.

Lemma strata_perm cases cases' :
  Permutation cases cases' -> strata cases' = strata cases.
Proof.
  intros Hperm. apply sorted_keys_unique; try apply strata_sorted.
  intros k. rewrite !strata_in. split; intros (c & Hc & E); exists c;
    (split; [|exact E]).
  - now apply (Permutation_in _ (Permutation_sym Hperm)).
  - now apply (Permutation_in _ Hperm).
Qed.

Section Determinism.

Context {R : PyRandom}.
Hypothesis sampling : sample_without_replacement R.

(** The sample before the cut: the picks of the strata in the order of
    [sorted(groups.items())], then what the top-up adds. *)
Lemma sample_follows_sorted_strata (cases : list TestCase)
  (max_samples seed : Z) (ambient : rng) :
  cases <> [] ->
  exists picks extra,
    fst (sample_balanced_cases cases max_samples seed ambient)
    = Ok (py_prefix (List.concat picks ++ extra) max_samples)
    /\ Forall2
         (drawn (Z.max 1 (max_samples
                          / Z.of_nat (List.length (strata cases)))))
         (sorted_items (group_cases cases)) picks.
Proof.
  intros Hne. rewrite strata_length. unfold sample_balanced_cases.
  pose proof (group_cases_nonempty Hne) as Hg.
  destruct (group_cases cases) as [|item0 groups0] eqn:Eg; [contradiction|].
  cbn [List.length]. rewrite <- Eg.
  set (per_group := Z.max 1 _).
  assert (Hper : (1 <= per_group)%Z) by (subst per_group; lia).
  destruct (sample_groups_picks sampling per_group
              (sorted_items (group_cases cases)) (rng_seed seed))
    as [picks [Hsampled Hpicks]].
  pose proof (@sample_groups_taken R sampling per_group
                (sorted_items (group_cases cases)) (rng_seed seed) Hper)
    as Hsub.
  destruct (sample_groups per_group _ (rng_seed seed)) as [sampled g1].
  cbn [fst] in *.
  assert (Hsub' : taken_from sampled cases).
  { eapply taken_from_perm; [exact Hsub|].
    rewrite (Permutation_map snd (sorted_items_perm (group_cases cases))).
    apply group_cases_concat. }
  destruct (@top_up_taken R sampling cases sampled max_samples g1 Hsub')
    as [_ [extra Hextra]].
  destruct (top_up cases sampled max_samples g1) as [sampled' g2].
  cbn [fst] in *. subst sampled' sampled.
  exists picks, extra. split; [reflexivity | exact Hpicks].
Qed.

(** C6.  The sampler is deterministic.  Its result, and the state it
    leaves the generator in, depend on the corpus, the bound and the seed
    only, not on the state of the generator before the call: a second
    call with the same arguments, right after the first or after any other
    use of the generator, returns the same sequence.  The sequence is made
    of the picks of the strata, one stratum after the other in strictly
    increasing order of the (error kind, difficulty) key, each stratum
    once, followed by what the top-up adds and cut at [max_samples].  The
    keys of the strata are distinct, so that sorting the items compares
    keys only; they are compared as Python compares the two strings, and
    the order of the strata does not depend on the order of the rows of
    the corpus. *)
Theorem sample_balanced_cases_deterministic (cases : list TestCase)
  (max_samples seed : Z) (ambient ambient' : rng) :
  sample_balanced_cases cases max_samples seed ambient
  = sample_balanced_cases cases max_samples seed ambient'
  /\ sample_balanced_cases cases max_samples seed
       (snd (sample_balanced_cases cases max_samples seed ambient))
     = sample_balanced_cases cases max_samples seed ambient
  /\ (cases <> [] ->
      exists picks extra,
        fst (sample_balanced_cases cases max_samples seed ambient)
        = Ok (py_prefix (List.concat picks ++ extra) max_samples)
        /\ Forall2
             (drawn (Z.max 1 (max_samples
                              / Z.of_nat (List.length (strata cases)))))
             (sorted_items (group_cases cases)) picks)
  /\ NoDup (map fst (group_cases cases))
  /\ StronglySorted key_lt (map fst (sorted_items (group_cases cases)))
  /\ Permutation (sorted_items (group_cases cases)) (group_cases cases)
  /\ (forall cases', Permutation cases cases' ->
        map fst (sorted_items (group_cases cases'))
        = map fst (sorted_items (group_cases cases)))
  /\ (forall a b, key_lt a b <->
        (kind_name (fst a) ?= kind_name (fst b))%string = Lt
        \/ (kind_name (fst a) = kind_name (fst b)
            /\ (difficulty_name (snd a) ?= difficulty_name (snd b))%string
               = Lt)).
Proof.
  split; [reflexivity|]. split; [reflexivity|].
  split; [apply sample_follows_sorted_strata|].
  split; [apply group_cases_NoDup|].
  split; [apply strata_sorted|].
  split; [apply sorted_items_perm|].
  split; [exact (@strata_perm cases)|].
  intros a b. unfold key_lt.
  destruct a as [[] []], b as [[] []]; vm_compute;
    intuition congruence.
Qed.

End Determinism.

Lemma sample_balanced_cases_deterministic_witness :
  sample_balanced_cases four_kinds 4 42 0%Z
  = sample_balanced_cases four_kinds 4 42 2026%Z
  /\ map fst (sorted_items (group_cases four_kinds))
     = [(conceptual, advanced); (logical, intermediate);
        (runtime, beginner); (syntax, beginner)]
  /\ exists picks extra,
       fst (sample_balanced_cases four_kinds 4 42 0%Z)
       = Ok (py_prefix (List.concat picks ++ extra) 4)
       /\ Forall2 (drawn 1) (sorted_items (group_cases four_kinds)) picks.
Proof.
  destruct (@sample_balanced_cases_deterministic lcg_random
              lcg_sample_without_replacement four_kinds 4%Z 42%Z 0%Z 2026%Z)
    as (Hsame & _ & Horder & _).
  split; [exact Hsame|]. split; [reflexivity|].
  apply Horder. discriminate.
Defined.

Lemma every_stratum_is_sampled_witness :
  four_kinds <> []
  /\ (Z.of_nat (List.length (strata four_kinds)) <= 4)%Z
  /\ exists picked,
       fst (sample_balanced_cases four_kinds 4 42 0%Z) = Ok picked
       /\ forall c, In c four_kinds ->
            exists c', In c' picked /\ key_of c' = key_of c.
Proof.
  split; [discriminate|]. split; [vm_compute; discriminate|].
  apply (@every_stratum_is_sampled lcg_random lcg_sample_without_replacement
           four_kinds 4%Z 42%Z 0%Z); [discriminate | vm_compute; discriminate].
Defined.

Lemma small_sample_takes_first_strata_witness :
  four_kinds <> []
  /\ exists picked,
       fst (sample_balanced_cases four_kinds 2 42 0%Z) = Ok picked
       /\ map key_of picked
          = [(conceptual, advanced); (logical, intermediate)].
Proof.
  split; [discriminate|].
  destruct (@small_sample_takes_first_strata lcg_random
              lcg_sample_without_replacement four_kinds 2%Z 42%Z 0%Z)
    as (picked & Hp & Hkeys).
  - discriminate.
  - split; [lia | vm_compute; discriminate].
  - exists picked. split; [exact Hp|]. rewrite Hkeys. reflexivity.
Defined.

(* ================================================================== *)
(** ** The corpus built from the error database *)

Lemma generate_code_example_text label d level :
  exists code_example,
    generate_code_example (Text label) (Text d) level = Ok code_example.
Proof.
  unfold generate_code_example.
  repeat match goal with
         | |- context [if ?b then _ else _] => destruct b
         end; eexists; reflexivity.
Qed.

Lemma generate_code_example_no_description label level :
  reads_description label = false ->
  exists code_example,
    generate_code_example (Text label) NaN level = Ok code_example.
Proof.
  unfold reads_description, generate_code_example. intros H.
  apply orb_false_iff in H. destruct H as [H1 H2]. rewrite H1, H2.
  repeat match goal with
         | |- context [if ?b then _ else _] => destruct b
         end; eexists; reflexivity.
Qed.

Lemma generate_code_example_nan label level :
  reads_description label = true ->
  generate_code_example (Text label) NaN level = Raise not_iterable.
Proof.
  unfold reads_description, generate_code_example. intros H.
  destruct (str_in "缩进" label); [reflexivity|].
  cbn in H. now rewrite H.
Qed.

Lemma make_case_spec row :
  if hits_nan row
  then make_case row = Raise not_iterable
  else exists code_example,
         make_case row
         = Ok (mkCase code_example (fst (row_key row)) (snd (row_key row))
                 (shown (entry_type (fst row)) ++ "："
                  ++ shown (description_of row))%string).
Proof.
  destruct row as [[label level explanation] d].
  unfold hits_nan, make_case, description_of, row_key. cbn [fst snd
    entry_type entry_level entry_explanation].
  destruct label as [label|]; [|reflexivity].
  set (description := match d with Some d0 => d0 | None => explanation end).
  destruct description as [text|].
  - destruct (generate_code_example_text label text
                (map_get difficulty_map level beginner)) as [code_example E].
    rewrite E. now exists code_example.
  - destruct (reads_description label) eqn:Er.
    + now rewrite generate_code_example_nan.
    + destruct (@generate_code_example_no_description label
                  (map_get difficulty_map level beginner) Er)
        as [code_example E].
      rewrite E. now exists code_example.
Qed.

Lemma make_case_key row c : make_case row = Ok c -> key_of c = row_key row.
Proof.
  intros E. pose proof (make_case_spec row) as H.
  destruct (hits_nan row); [congruence|].
  destruct H as [code_example H]. rewrite H in E. injection E as <-.
  unfold key_of. cbn [error_type difficulty].
  symmetry. apply surjective_pairing.
Qed.

Lemma make_cases_spec rows :
  match make_cases rows with
  | Ok cases =>
      existsb hits_nan rows = false
      /\ Forall2 (fun row c => make_case row = Ok c) rows cases
  | Raise e => existsb hits_nan rows = true /\ e = not_iterable
  end.
Proof.
  induction rows as [|row rows IH]; cbn [make_cases existsb].
  - split; [reflexivity | constructor].
  - pose proof (make_case_spec row) as H.
    destruct (hits_nan row).
    + rewrite H. now split.
    + destruct H as [code_example H]. rewrite H. cbn [orb].
      destruct (make_cases rows) as [cases|e].
      * destruct IH as [IH1 IH2]. split; [exact IH1|].
        constructor; [exact H | exact IH2].
      * exact IH.
Qed.

Lemma Forall2_length_eq {A B} (P : A -> B -> Prop) l m :
  Forall2 P l m -> List.length l = List.length m.
Proof. induction 1; cbn; congruence. Qed.

Lemma Forall2_in_right {A B} (P : A -> B -> Prop) l m y :
  Forall2 P l m -> In y m -> exists x, In x l /\ P x y.
Proof.
  induction 1 as [|x y0 l m Hxy _ IH]; intros Hin; [contradiction|].
  destruct Hin as [<-|Hin].
  - exists x. split; [now left | exact Hxy].
  - destruct (IH Hin) as [x' [Hx' Hp]]. exists x'. split; [now right|exact Hp].
Qed.

Lemma Forall2_in_left {A B} (P : A -> B -> Prop) l m x :
  Forall2 P l m -> In x l -> exists y, In y m /\ P x y.
Proof.
  induction 1 as [|x0 y l m Hxy _ IH]; intros Hin; [contradiction|].
  destruct Hin as [<-|Hin].
  - exists y. split; [now left | exact Hxy].
  - destruct (IH Hin) as [y' [Hy' Hp]]. exists y'. split; [now right|exact Hp].
Qed.

(** *** Merging the files *)

Lemma iterrows_concat_entries frames :
  map fst (iterrows (pd_concat frames))
  = flat_map (fun df => map fst (iterrows df)) frames.
Proof.
  unfold pd_concat. destruct (existsb has_description frames); cbn [iterrows].
  - rewrite map_map. cbn [fst].
    induction frames as [|df frames IH]; [reflexivity|].
    cbn [flat_map]. rewrite !map_app, IH. f_equal.
    now rewrite map_map.
  - rewrite map_map. cbn [fst]. now rewrite map_id.
Qed.

Lemma iterrows_concat_described frames :
  existsb has_description frames = true ->
  iterrows (pd_concat frames)
  = flat_map
      (fun df =>
         map (fun r => (fst r,
                        Some match snd r with Some d => d | None => NaN end))
           (iterrows df))
      frames.
Proof.
  intros H. unfold pd_concat. rewrite H. cbn [iterrows].
  induction frames as [|df frames IH] in H |- *; [reflexivity|].
  cbn [flat_map]. rewrite map_app, map_map. cbn [fst snd]. f_equal.
  clear. induction frames as [|df frames IH]; [reflexivity|].
  cbn [flat_map]. now rewrite map_app, map_map, IH.
Qed.

Lemma strata_at_most_twelve cases : (List.length (strata cases) <= 12)%nat.
Proof.
  rewrite strata_length, <- (length_map fst).
  change 12%nat with (List.length all_keys).
  apply NoDup_incl_length; [apply group_cases_NoDup|].
  intros [k d] _. destruct k, d; vm_compute; tauto.
Qed.

Section Dataset.

Context {R : PyRandom}.
Variable read_csv : string -> read_result.
Variable path_join : string -> string -> string.
Variable base_dir : string.

Lemma read_frames_spec csv_paths :
  flat_map (fun df => map fst (iterrows df)) (read_frames read_csv csv_paths)
  = flat_map (fun csv_path =>
                match read_csv csv_path with
                | Loaded df => map fst (iterrows df)
                | _ => []
                end) csv_paths.
Proof.
  induction csv_paths as [|csv_path rest IH]; [reflexivity|].
  cbn [read_frames flat_map].
  destruct (read_csv csv_path); cbn [flat_map app]; now rewrite IH.
Qed.

Lemma read_frames_in csv_paths df :
  In df (read_frames read_csv csv_paths)
  <-> exists csv_path, In csv_path csv_paths /\ read_csv csv_path = Loaded df.
Proof.
  induction csv_paths as [|csv_path rest IH]; cbn [read_frames].
  - split; [contradiction | now intros (? & [] & _)].
  - destruct (read_csv csv_path) as [df0| |e] eqn:E.
    + split.
      * intros [<-|H]; [exists csv_path; split; [now left | exact E]|].
        apply IH in H. destruct H as (q & Hq & Eq).
        exists q. split; [now right | exact Eq].
      * intros (q & [<-|Hq] & Eq).
        -- left. congruence.
        -- right. apply IH. now exists q.
    + rewrite IH. split.
      * intros (q & Hq & Eq). exists q. split; [now right | exact Eq].
      * intros (q & [<-|Hq] & Eq); [congruence|]. now exists q.
    + rewrite IH. split.
      * intros (q & Hq & Eq). exists q. split; [now right | exact Eq].
      * intros (q & [<-|Hq] & Eq); [congruence|]. now exists q.
Qed.

(** The sampler returns on every corpus that is not empty. *)
Lemma sample_balanced_cases_returns cases max_samples seed ambient :
  cases <> [] ->
  exists picked,
    fst (sample_balanced_cases cases max_samples seed ambient) = Ok picked.
Proof.
  intros Hne. unfold sample_balanced_cases.
  pose proof (group_cases_nonempty Hne) as Hg.
  destruct (group_cases cases) as [|item groups] eqn:Eg; [contradiction|].
  cbn [List.length]. rewrite <- Eg.
  destruct (sample_groups _ _ _) as [sampled g1].
  destruct (top_up _ _ _ _) as [sampled' g2].
  eexists. reflexivity.
Qed.

(** The three ways of [prepare_teaching_dataset]. *)
Lemma prepare_teaching_dataset_spec ambient :
  let rows :=
    match load_error_database read_csv path_join base_dir None with
    | None => []
    | Some error_db => iterrows error_db
    end in
  match rows with
  | [] =>
      prepare_teaching_dataset read_csv path_join base_dir ambient
      = (Ok prepare_default_dataset, ambient)
  | _ :: _ =>
      match make_cases rows with
      | Raise e =>
          prepare_teaching_dataset read_csv path_join base_dir ambient
          = (Raise e, ambient)
      | Ok test_cases =>
          test_cases <> []
          /\ prepare_teaching_dataset read_csv path_join base_dir ambient
             = sample_balanced_cases test_cases 30 42 ambient
      end
  end.
Proof.
  unfold prepare_teaching_dataset.
  destruct (load_error_database read_csv path_join base_dir None)
    as [error_db|]; [|reflexivity].
  cbn zeta. destruct (iterrows error_db) as [|row rows] eqn:Er; [reflexivity|].
  pose proof (make_cases_spec (row :: rows)) as Hspec.
  destruct (make_cases (row :: rows)) as [test_cases|e]; [|reflexivity].
  split; [|reflexivity].
  destruct Hspec as [_ Hall]. inversion Hall. discriminate.
Qed.

End Dataset.

Lemma flat_map_nil {A B} (f : A -> list B) l :
  (forall x, In x l -> f x = []) -> flat_map f l = [].
Proof.
  induction l as [|x l IH]; intros H; [reflexivity|].
  cbn [flat_map]. rewrite (H x) by now left.
  apply IH. intros y Hy. apply H. now right.
Qed.

Section Preparation.

Context {R : PyRandom}.
Variable read_csv : string -> read_result.
Variable path_join : string -> string -> string.
Variable base_dir : string.

(** X14.  Without a record to read, the built-in cases are used: when
    each of the three files of the database is missing, cannot be read or
    has no row, [prepare_teaching_dataset] returns the cases of
    [prepare_default_dataset], unsampled, and does not touch the random
    generator. *)
Theorem missing_database_gives_default_cases (ambient : rng) :
  (forall name df,
     In name database_files ->
     read_csv (path_join base_dir name) = Loaded df ->
     iterrows df = []) ->
  prepare_teaching_dataset read_csv path_join base_dir ambient
  = (Ok prepare_default_dataset, ambient).
Proof.
  intros Hfiles.
  pose proof (prepare_teaching_dataset_spec read_csv path_join base_dir
                ambient) as Hspec.
  cbn zeta in Hspec.
  assert (Hrows : match load_error_database read_csv path_join base_dir None
                  with
                  | None => []
                  | Some error_db => iterrows error_db
                  end = []).
  { unfold load_error_database.
    destruct (read_frames read_csv (map (path_join base_dir) database_files))
      as [|df dfs] eqn:Ef; [reflexivity|].
    apply (map_eq_nil fst). rewrite iterrows_concat_entries.
    apply flat_map_nil. intros df' Hin. rewrite <- Ef in Hin.
    apply read_frames_in in Hin. destruct Hin as (csv_path & Hp & Hload).
    apply in_map_iff in Hp. destruct Hp as (name & <- & Hname).
    now rewrite (Hfiles name df' Hname Hload). }
  now rewrite Hrows in Hspec.
Qed.

(** X15.  [prepare_teaching_dataset] raises exactly when the merged
    database has a row whose label is NaN, or a row whose label contains
    the keyword of the indentation or of the colon errors and whose
    description is NaN.  What it raises then is the [TypeError] of the
    [in] test of [generate_code_example], before anything is sampled. *)
Theorem preparation_raises_on_nan_cells (ambient : rng) :
  ((exists e,
      fst (prepare_teaching_dataset read_csv path_join base_dir ambient)
      = Raise e)
   <-> exists error_db,
         load_error_database read_csv path_join base_dir None = Some error_db
         /\ existsb hits_nan (iterrows error_db) = true)
  /\ forall e,
       fst (prepare_teaching_dataset read_csv path_join base_dir ambient)
       = Raise e ->
       exn_class e = TypeError
       /\ snd (prepare_teaching_dataset read_csv path_join base_dir ambient)
          = ambient.
Proof.
  pose proof (prepare_teaching_dataset_spec read_csv path_join base_dir
                ambient) as Hspec.
  cbn zeta in Hspec.
  destruct (load_error_database read_csv path_join base_dir None)
    as [error_db|].
  - destruct (iterrows error_db) as [|row rows] eqn:Er.
    + rewrite Hspec. cbn [fst snd]. split.
      * split; [intros [e He]; discriminate|].
        intros (db & Hdb & Hnan). injection Hdb as <-.
        rewrite Er in Hnan. discriminate.
      * intros e He. discriminate.
    + pose proof (make_cases_spec (row :: rows)) as Hrows.
      destruct (make_cases (row :: rows)) as [test_cases|e0].
      * destruct Hspec as [Hne Hspec]. destruct Hrows as [Hnan _].
        destruct (sample_balanced_cases_returns 30 42 ambient Hne)
          as [picked Hpicked].
        rewrite Hspec, Hpicked. split.
        -- split; [intros [e He]; discriminate|].
           intros (db & Hdb & Hnan'). injection Hdb as <-.
           rewrite Er in Hnan'. congruence.
        -- intros e He. discriminate.
      * destruct Hrows as [Hnan ->]. rewrite Hspec. cbn [fst snd]. split.
        -- split; [|intros _; now exists not_iterable].
           intros _. exists error_db. split; [reflexivity|].
           now rewrite Er.
        -- intros e He. injection He as <-. now split.
  - rewrite Hspec. cbn [fst snd]. split.
    + split; [intros [e He]; discriminate|].
      intros (db & Hdb & _). discriminate.
    + intros e He. discriminate.
Qed.

(** X16.  [load_error_database] skips the files it cannot read and keeps
    every record of the others, in the order of the paths: it returns
    [None] only when no path can be read, and otherwise a frame whose
    rows are the rows of the readable files one after the other. *)
Theorem load_error_database_keeps_every_record (csv_paths : list string) :
  match load_error_database read_csv path_join base_dir (Some csv_paths) with
  | None =>
      forall csv_path, In csv_path csv_paths ->
        forall df, read_csv csv_path <> Loaded df
  | Some error_db =>
      (exists csv_path df,
         In csv_path csv_paths /\ read_csv csv_path = Loaded df)
      /\ map fst (iterrows error_db)
         = flat_map (fun csv_path =>
                       match read_csv csv_path with
                       | Loaded df => map fst (iterrows df)
                       | FileNotFound => []
                       | ReadError _ => []
                       end) csv_paths
  end.
Proof.
  unfold load_error_database.
  destruct (read_frames read_csv csv_paths) as [|df dfs] eqn:Ef.
  - intros csv_path Hin df Hload.
    assert (H : In df (read_frames read_csv csv_paths))
      by (apply read_frames_in; now exists csv_path).
    now rewrite Ef in H.
  - split.
    + assert (H : In df (read_frames read_csv csv_paths))
        by (rewrite Ef; now left).
      apply read_frames_in in H. destruct H as (csv_path & Hin & Hload).
      now exists csv_path, df.
    + rewrite iterrows_concat_entries, <- Ef. apply read_frames_spec.
Qed.

End Preparation.

Lemma make_case_expected row c :
  make_case row = Ok c ->
  expected_output c
  = (shown (entry_type (fst row)) ++ "：" ++ shown (description_of row))%string.
Proof.
  intros E. pose proof (make_case_spec row) as H.
  destruct (hits_nan row); [congruence|].
  destruct H as [code_example H]. rewrite H in E. now injection E as <-.
Qed.

Section Merge.

Variable read_csv : string -> read_result.
Variable path_join : string -> string -> string.
Variable base_dir : string.

(** X17.  Merging the files defeats the fallback of the description:
    read alone, a file without the column of descriptions gives cases
    whose expected output ends with the explanation of the record; merged
    with a file that has the column, its records get NaN as description,
    and the expected output of their cases ends with [nan]. *)
Theorem merged_records_lose_their_explanation (csv_paths : list string)
  (plain described : string) (rows : list Entry)
  (rows' : list (Entry * cell)) (entry : Entry) :
  In plain csv_paths -> read_csv plain = Loaded (Plain rows) ->
  In described csv_paths -> read_csv described = Loaded (Described rows') ->
  In entry rows ->
  (exists error_db,
     load_error_database read_csv path_join base_dir (Some csv_paths)
     = Some error_db
     /\ In (entry, Some NaN) (iterrows error_db)
     /\ Forall (fun row => snd row <> None) (iterrows error_db)
     /\ forall c, make_case (entry, Some NaN) = Ok c ->
          expected_output c
          = (shown (entry_type entry) ++ "：" ++ "nan")%string)
  /\ (load_error_database read_csv path_join base_dir (Some [plain])
      = Some (Plain rows)
      /\ In (entry, None) (iterrows (Plain rows))
      /\ forall c, make_case (entry, None) = Ok c ->
           expected_output c
           = (shown (entry_type entry) ++ "："
              ++ shown (entry_explanation entry))%string).
Proof.
  intros Hp Hplain Hd Hdescribed Hentry. split.
  - unfold load_error_database.
    assert (H1 : In (Plain rows) (read_frames read_csv csv_paths))
      by (apply read_frames_in; now exists plain).
    assert (H2 : In (Described rows') (read_frames read_csv csv_paths))
      by (apply read_frames_in; now exists described).
    destruct (read_frames read_csv csv_paths) as [|df dfs] eqn:Ef;
      [contradiction|].
    rewrite <- Ef in *. eexists. split; [reflexivity|].
    assert (Hhas : existsb has_description (read_frames read_csv csv_paths)
                   = true).
    { apply existsb_exists. now exists (Described rows'). }
    rewrite (iterrows_concat_described _ Hhas).
    split; [|split].
    + apply in_flat_map. exists (Plain rows). split; [exact H1|].
      apply in_map_iff. exists (entry, None). split; [reflexivity|].
      cbn [iterrows]. apply in_map_iff. now exists entry.
    + apply Forall_forall. intros row Hrow.
      apply in_flat_map in Hrow. destruct Hrow as (df' & _ & Hrow).
      apply in_map_iff in Hrow. destruct Hrow as (r & <- & _).
      discriminate.
    + intros c Hc. now rewrite (make_case_expected _ Hc).
  - split; [|split].
    + unfold load_error_database. cbn [read_frames]. rewrite Hplain.
      unfold pd_concat. cbn [existsb has_description orb flat_map iterrows].
      now rewrite app_nil_r, map_map, map_id.
    + cbn [iterrows]. apply in_map_iff. now exists entry.
    + intros c Hc. now rewrite (make_case_expected _ Hc).
Qed.

End Merge.

Section PreparedCorpus.

Context {R : PyRandom}.
Hypothesis sampling : sample_without_replacement R.
Variable read_csv : string -> read_result.
Variable path_join : string -> string -> string.
Variable base_dir : string.

(** What the sampler does for [prepare_teaching_dataset]: 30 leaves room
    for every stratum. *)
Lemma sample_of_thirty test_cases ambient :
  test_cases <> [] ->
  exists picked,
    fst (sample_balanced_cases test_cases 30 42 ambient) = Ok picked
    /\ picked <> []
    /\ taken_from picked test_cases
    /\ (List.length picked <= 30)%nat
    /\ forall c, In c test_cases ->
         exists c', In c' picked /\ key_of c' = key_of c.
Proof.
  intros Hne.
  assert (Hroom : (Z.of_nat (List.length (strata test_cases)) <= 30)%Z).
  { pose proof (strata_at_most_twelve test_cases). lia. }
  destruct (@sample_with_room R sampling test_cases 30%Z 42%Z ambient
              Hne Hroom)
    as (picked & Hpicked & Htaken & Hlen & Hcover).
  exists picked. split; [exact Hpicked|].
  split; [|split; [exact Htaken | split; [lia | exact Hcover]]].
  destruct test_cases as [|c0 rest]; [contradiction|].
  destruct (Hcover c0 (or_introl eq_refl)) as (c' & Hin & _).
  intros ->. contradiction.
Qed.

Lemma prepared_corpus_nonempty ambient data :
  fst (prepare_teaching_dataset read_csv path_join base_dir ambient)
  = Ok data ->
  data <> [].
Proof.
  pose proof (prepare_teaching_dataset_spec read_csv path_join base_dir
                ambient) as Hspec.
  cbn zeta in Hspec.
  destruct (match load_error_database read_csv path_join base_dir None with
            | None => []
            | Some error_db => iterrows error_db
            end) as [|row rows].
  - rewrite Hspec. cbn [fst]. intros E. injection E as <-. discriminate.
  - destruct (make_cases (row :: rows)) as [test_cases|e].
    + destruct Hspec as [Hne ->].
      destruct (sample_of_thirty ambient Hne) as (picked & -> & Hpicked & _).
      intros E. now injection E as <-.
    + rewrite Hspec. discriminate.
Qed.

(** X18.  A database that can be prepared gives between 1 and 30 cases,
    never more than it has records, and each of them is the case that the
    loop builds from one of its records. *)
Theorem prepared_cases_come_from_database (ambient : rng)
  (error_db : Frame) :
  load_error_database read_csv path_join base_dir None = Some error_db ->
  iterrows error_db <> [] ->
  existsb hits_nan (iterrows error_db) = false ->
  exists picked,
    fst (prepare_teaching_dataset read_csv path_join base_dir ambient)
    = Ok picked
    /\ (1 <= List.length picked <= 30)%nat
    /\ (List.length picked <= List.length (iterrows error_db))%nat
    /\ forall c, In c picked ->
         exists row, In row (iterrows error_db) /\ make_case row = Ok c.
Proof.
  intros Hload Hrows Hnan.
  pose proof (prepare_teaching_dataset_spec read_csv path_join base_dir
                ambient) as Hspec.
  cbn zeta in Hspec. rewrite Hload in Hspec.
  pose proof (make_cases_spec (iterrows error_db)) as Hcases.
  destruct (iterrows error_db) as [|row rows] eqn:Er; [contradiction|].
  destruct (make_cases (row :: rows)) as [test_cases|e];
    [|destruct Hcases; congruence].
  destruct Hspec as [Hne ->]. destruct Hcases as [_ Hall].
  destruct (sample_of_thirty ambient Hne)
    as (picked & Hpicked & Hsome & Htaken & Hlen & _).
  exists picked. split; [exact Hpicked|].
  split; [|split].
  - split; [|exact Hlen]. destruct picked; [contradiction | cbn; lia].
  - rewrite (Forall2_length_eq Hall). now apply taken_from_length.
  - intros c Hc. apply (taken_from_incl Htaken) in Hc.
    exact (@Forall2_in_right _ _ _ _ _ c Hall Hc).
Qed.

(** X19.  The prepared corpus represents every stratum of the database:
    for each record there is a prepared case of the kind and the level
    that the two tables give to the record (with [runtime] and [beginner]
    for a label or a level that the tables do not have). *)
Theorem prepared_cases_cover_every_stratum (ambient : rng)
  (error_db : Frame) :
  load_error_database read_csv path_join base_dir None = Some error_db ->
  iterrows error_db <> [] ->
  existsb hits_nan (iterrows error_db) = false ->
  exists picked,
    fst (prepare_teaching_dataset read_csv path_join base_dir ambient)
    = Ok picked
    /\ forall row, In row (iterrows error_db) ->
         exists c,
           In c picked
           /\ error_type c
              = map_get error_type_map (entry_type (fst row)) runtime
           /\ difficulty c
              = map_get difficulty_map (entry_level (fst row)) beginner.
Proof.
  intros Hload Hrows Hnan.
  pose proof (prepare_teaching_dataset_spec read_csv path_join base_dir
                ambient) as Hspec.
  cbn zeta in Hspec. rewrite Hload in Hspec.
  pose proof (make_cases_spec (iterrows error_db)) as Hcases.
  destruct (iterrows error_db) as [|row0 rows] eqn:Er; [contradiction|].
  destruct (make_cases (row0 :: rows)) as [test_cases|e];
    [|destruct Hcases; congruence].
  destruct Hspec as [Hne ->]. destruct Hcases as [_ Hall].
  destruct (sample_of_thirty ambient Hne)
    as (picked & Hpicked & _ & _ & _ & Hcover).
  exists picked. split; [exact Hpicked|].
  intros row Hrow.
  destruct (@Forall2_in_left _ _ _ _ _ row Hall Hrow) as (c0 & Hc0 & Hmade).
  destruct (Hcover c0 Hc0) as (c & Hc & Hkey).
  exists c. split; [exact Hc|].
  rewrite (@make_case_key row c0 Hmade) in Hkey.
  unfold key_of, row_key in Hkey.
  now injection Hkey.
Qed.

(** X20.  Whatever [prepare_teaching_dataset] returns can be evaluated:
    the corpus is never empty, so [evaluate] returns a report on it, and
    on its first three rows as the self-test of the module runs it,
    instead of raising the [ZeroDivisionError] of an empty corpus. *)
Theorem prepared_corpus_can_be_evaluated (lib : PyText) (llm : llm_service)
  (system_prompt : string) (ambient : rng) (k : nat)
  (test_data : list TestCase) :
  fst (prepare_teaching_dataset read_csv path_join base_dir ambient)
  = Ok test_data ->
  test_data <> []
  /\ (exists score ev,
        fst (evaluate llm system_prompt test_data k) = Ok (score, ev))
  /\ (exists score ev,
        fst (evaluate llm system_prompt (firstn 3 test_data) k)
        = Ok (score, ev)).
Proof.
  intros Hdata. pose proof (prepared_corpus_nonempty _ Hdata) as Hne.
  split; [exact Hne|]. split.
  - destruct (evaluate_nonempty llm system_prompt k Hne)
      as (score & ev & Hev & _).
    exists score, ev. now rewrite Hev.
  - assert (Hne3 : firstn 3 test_data <> [])
      by (destruct test_data; [contradiction | discriminate]).
    destruct (evaluate_nonempty llm system_prompt k Hne3)
      as (score & ev & Hev & _).
    exists score, ev. now rewrite Hev.
Qed.

End PreparedCorpus.

(* ================================================================== *)
(** ** A kind of error that the corpus lacks *)

Lemma absent_kind_samples (run : list (TestCase * Outcome)) kind :
  (forall row, In row (map fst run) -> error_type row <> kind) ->
  kind_samples kind run = 0%nat.
Proof.
  unfold kind_samples. induction run as [|ro run IH]; intros H;
    [reflexivity|].
  rewrite count_cons, IH by (intros row Hrow; apply H; now right).
  unfold of_kind. destruct (kind_eqb_spec (error_type (fst ro)) kind) as [E|];
    [|reflexivity].
  exfalso. apply (H (fst ro)); [now left | exact E].
Qed.

Lemma error_detection_formula_absent run kind :
  kind_samples kind run = 0%nat ->
  error_detection_formula run <= 1 - weight kind.
Proof.
  intros Hzero.
  unfold error_detection_formula, error_types. cbn [filter].
  assert (H : forall k, (0 <? kind_samples k run)%nat = true ->
            0 <= Q_of_nat (kind_passes k run) / Q_of_nat (kind_samples k run)
            /\ Q_of_nat (kind_passes k run) / Q_of_nat (kind_samples k run)
               <= 1).
  { intros k Hk. apply Nat.ltb_lt in Hk.
    apply rate_in_unit; [apply count_and_le | exact Hk]. }
  pose proof (H syntax) as H1. pose proof (H runtime) as H2.
  pose proof (H logical) as H3. pose proof (H conceptual) as H4.
  clear H.
  assert (Hf : (0 <? kind_samples kind run)%nat = false)
    by now rewrite Hzero.
  destruct kind; rewrite Hf in *;
    repeat match goal with
      | |- context [(0 <? ?n)%nat] => destruct (0 <? n)%nat
      end;
    cbn [map Qsum fold_right weight];
    repeat match goal with
      | Hx : true = true -> _ |- _ => specialize (Hx eq_refl)
      | Hx : false = true -> _ |- _ => clear Hx
      end;
    repeat match goal with
      | |- context [Q_of_nat ?a / Q_of_nat ?b] =>
          generalize dependent (Q_of_nat a / Q_of_nat b); intros
      end;
    lra.
Qed.

(** X21.  A kind of error that the corpus lacks is not left out of the
    weighting: its weight is lost.  On a corpus with at least one row and
    no row of some kind, the error-detection score is at most 1 minus the
    weight of that kind, even when every sample passes. *)
Theorem absent_kind_caps_error_detection (lib : PyText) (llm : llm_service)
  (system_prompt : string) (rows : list TestCase) (k : nat)
  (kind : ErrorKind) :
  rows <> [] ->
  (forall row, In row rows -> error_type row <> kind) ->
  exists score ev,
    fst (evaluate llm system_prompt rows k) = Ok (score, ev)
    /\ error_detection (metrics ev) <= 1 - weight kind.
Proof.
  intros Hrows Habsent.
  destruct (evaluate_nonempty llm system_prompt k Hrows)
    as (score & ev & Hev & _ & _ & Hed & _).
  exists score, ev. rewrite Hev. split; [reflexivity|].
  rewrite Hed. apply error_detection_formula_absent.
  apply absent_kind_samples. now rewrite run_of_rows.
Qed.

(* ================================================================== *)
(** ** The scenarios of the database *)

Lemma missing_database_gives_default_cases_witness :
  @prepare_teaching_dataset lcg_random blank_files posix_join "/app" 7%Z
  = (Ok prepare_default_dataset, 7%Z)
  /\ List.length prepare_default_dataset = 13%nat.
Proof.
  split; [|reflexivity].
  apply (@missing_database_gives_default_cases lcg_random blank_files
           posix_join "/app" 7%Z).
  intros name df [<-|[<-|[<-|[]]]] H; vm_compute in H;
    [injection H as <-; reflexivity | discriminate H | discriminate H].
Defined.

Lemma preparation_raises_on_nan_cells_witness :
  exists e,
    fst (@prepare_teaching_dataset lcg_random holed_file posix_join "/app"
           7%Z) = Raise e
    /\ exn_class e = TypeError.
Proof.
  destruct (@preparation_raises_on_nan_cells lcg_random holed_file
              posix_join "/app" 7%Z) as [[_ Hraises] Hclass].
  destruct Hraises as [e He].
  - exists holed_csv. split; vm_compute; reflexivity.
  - exists e. split; [exact He | exact (proj1 (Hclass e He))].
Defined.

Lemma load_error_database_keeps_every_record_witness :
  exists error_db,
    load_error_database holed_file posix_join "/app" (Some app_paths)
    = Some error_db
    /\ map fst (iterrows error_db)
       = [mkEntry (Text "键错误") (Text "中级") (Text "字典里没有这个键");
          mkEntry NaN (Text "初级") (Text "这一行没有错误类型")].
Proof.
  pose proof (@load_error_database_keeps_every_record holed_file posix_join
                "/app" app_paths) as H.
  destruct (load_error_database holed_file posix_join "/app" (Some app_paths))
    as [error_db|] eqn:E.
  - exists error_db. split; [reflexivity|].
    destruct H as [_ H]. rewrite H. vm_compute. reflexivity.
  - vm_compute in E. discriminate E.
Defined.

Lemma merged_records_lose_their_explanation_witness :
  (exists error_db,
     load_error_database two_files posix_join "/app" (Some app_paths)
     = Some error_db
     /\ In (division_entry, Some NaN) (iterrows error_db)
     /\ forall c, make_case (division_entry, Some NaN) = Ok c ->
          expected_output c = "除零错误：nan")
  /\ forall c, make_case (division_entry, None) = Ok c ->
       expected_output c = "除零错误：除数不能为零".
Proof.
  destruct (@merged_records_lose_their_explanation two_files posix_join
              "/app" app_paths
              "/app/内容错误数据库_完整版200条.csv"
              "/app/语法错误数据库_扩充版.csv"
              [division_entry;
               mkEntry (Text "文件未关闭") (Text "高级")
                 (Text "打开的文件要关闭")]
              [(mkEntry (Text "缩进错误") (Text "初级")
                  (Text "代码块要用缩进表示"),
                Text "函数内无缩进");
               (mkEntry (Text "引号错误") (Text "初级")
                  (Text "字符串的引号要成对"),
                Text "字符串缺少右引号")]
              division_entry)
    as [(error_db & Hload & Hin & _ & Hmerged) (_ & _ & Halone)].
  - right. left. reflexivity.
  - reflexivity.
  - left. reflexivity.
  - reflexivity.
  - left. reflexivity.
  - split; [|exact Halone].
    exists error_db. split; [exact Hload|]. split; [exact Hin | exact Hmerged].
Defined.

Lemma prepared_cases_come_from_database_witness :
  exists picked,
    fst (@prepare_teaching_dataset lcg_random two_files posix_join "/app"
           7%Z) = Ok picked
    /\ (1 <= List.length picked <= 4)%nat.
Proof.
  destruct (@prepared_cases_come_from_database lcg_random
              lcg_sample_without_replacement two_files posix_join "/app"
              7%Z (pd_concat [syntax_csv; content_csv]))
    as (picked & Hpicked & [Hlow _] & Hhigh & _).
  - vm_compute. reflexivity.
  - vm_compute. discriminate.
  - vm_compute. reflexivity.
  - exists picked. split; [exact Hpicked|]. split; [exact Hlow | exact Hhigh].
Defined.

Lemma prepared_cases_cover_every_stratum_witness :
  exists picked,
    fst (@prepare_teaching_dataset lcg_random two_files posix_join "/app"
           7%Z) = Ok picked
    /\ exists c,
         In c picked /\ error_type c = runtime /\ difficulty c = advanced.
Proof.
  destruct (@prepared_cases_cover_every_stratum lcg_random
              lcg_sample_without_replacement two_files posix_join "/app"
              7%Z (pd_concat [syntax_csv; content_csv]))
    as (picked & Hpicked & Hcover).
  - vm_compute. reflexivity.
  - vm_compute. discriminate.
  - vm_compute. reflexivity.
  - exists picked. split; [exact Hpicked|].
    apply (Hcover (mkEntry (Text "文件未关闭") (Text "高级")
                     (Text "打开的文件要关闭"), Some NaN)).
    vm_compute. tauto.
Defined.

Lemma prepared_corpus_can_be_evaluated_witness :
  exists score ev,
    fst (evaluate dead_llm "你是一个编程教学助手。"
           (firstn 3 prepare_default_dataset) 0%nat)
    = Ok (score, ev).
Proof.
  destruct (@prepared_corpus_can_be_evaluated lcg_random
              lcg_sample_without_replacement blank_files posix_join "/app"
              ascii_text dead_llm "你是一个编程教学助手。" 7%Z 0%nat
              prepare_default_dataset)
    as (_ & _ & Hhead).
  - vm_compute. reflexivity.
  - exact Hhead.
Defined.

Lemma absent_kind_caps_error_detection_witness :
  exists score ev,
    fst (evaluate dead_llm "你是一个编程教学助手。" prepare_default_dataset
           0%nat)
    = Ok (score, ev)
    /\ error_detection (metrics ev) <= 0.65.
Proof.
  destruct (@absent_kind_caps_error_detection ascii_text dead_llm
              "你是一个编程教学助手。" prepare_default_dataset 0%nat runtime)
    as (score & ev & Hev & Hcap).
  - discriminate.
  - apply Forall_forall. unfold prepare_default_dataset.
    repeat (constructor; [discriminate|]). constructor.
  - exists score, ev. split; [exact Hev | exact Hcap].
Defined.

(** X22.  [generate_code_example] returns a snippet for every label
    that is text, except that a label with the keyword of the indentation
    or of the colon errors needs a description that is text as well; on a
    NaN it has to search, it raises [TypeError]. *)
Theorem generate_code_example_raises_only_on_nan
  (error_type_cn description : cell) (level : Difficulty) :
  match generate_code_example error_type_cn description level with
  | Raise e =>
      exn_class e = TypeError
      /\ (error_type_cn = NaN
          \/ exists label,
               error_type_cn = Text label
               /\ reads_description label = true
               /\ description = NaN)
  | Ok _ =>
      exists label,
        error_type_cn = Text label
        /\ (reads_description label = true -> description <> NaN)
  end.
Proof.
  destruct error_type_cn as [label|]; [|split; [reflexivity | now left]].
  destruct description as [d|].
  - destruct (generate_code_example_text label d level) as [code_example ->].
    exists label. split; [reflexivity | discriminate].
  - destruct (reads_description label) eqn:Er.
    + rewrite (generate_code_example_nan label level Er).
      split; [reflexivity|]. right. now exists label.
    + destruct (@generate_code_example_no_description label level Er)
        as [code_example ->].
      exists label. split; [reflexivity | congruence].
Qed.

(* ================================================================== *)
(** ** The grader's reply read by pattern *)

(** X23.  A reply of the grader without a brace span, or with one that
    [json.loads] rejects, is scored from the numbers that follow the three
    metric names in its text, 0.5 standing for a name that is not found;
    the failure reason of the sample is then the empty string. *)
Theorem unparsed_reply_is_scored_by_name (lib : PyText) (format_flag : bool)
  (eval_result : string) :
  (re_search_braces eval_result = None
   \/ exists span,
        re_search_braces eval_result = Some span
        /\ json_loads span = LoadsDecodeError) ->
  let found name :=
    match re_search_number name eval_result with
    | Some q => q
    | None => 0.5
    end in
  judge_text format_flag eval_result
  = (found "accuracy" * 0.5 + found "guidance" * 0.3 + found "clarity" * 0.2,
     mkMetrics format_flag (found "guidance") (JString EmptyString)).
Proof.
  intros Hspan found.
  assert (E : judge_text format_flag eval_result
              = score_metrics format_flag
                  (_extract_metrics_manually eval_result)).
  { unfold judge_text. destruct Hspan as [->|(span & -> & ->)]; reflexivity. }
  rewrite E. subst found. unfold score_metrics, _extract_metrics_manually.
  cbn [dict_get String.eqb Ascii.eqb Bool.eqb].
  destruct (re_search_number "accuracy" eval_result),
    (re_search_number "guidance" eval_result),
    (re_search_number "clarity" eval_result); reflexivity.
Qed.

Lemma unparsed_reply_is_scored_by_name_witness :
  fst (judge_text (lib := ascii_text) true
         "accuracy: 0.9, guidance: 0.8, the rest is fine")
  == 0.79.
Proof.
  rewrite (@unparsed_reply_is_scored_by_name ascii_text true
             "accuracy: 0.9, guidance: 0.8, the rest is fine").
  - vm_compute. reflexivity.
  - left. vm_compute. reflexivity.
Defined.

(* ================================================================== *)
(** ** A metric that is not a number *)

Lemma as_number_raises v e : as_number v = Raise e -> exn_class e = TypeError.
Proof. destruct v as [|[]| | | |]; cbn; intros H; now inversion H. Qed.

(** X24.  One metric that is not a number spoils the grading of the
    sample: when the object that the grader returns has a string, a list,
    an object or [null] for accuracy, guidance or clarity, the product
    with the weight raises [TypeError], and the sample gets the composite
    score 0.5 and the guidance value 0.5 whatever the other two metrics
    are, with the text of the exception as its failure reason. *)
Theorem non_numeric_metric_scores_half (lib : PyText) (format_flag : bool)
  (eval_result span : string) (m : pydict) (name : string) (e : exn) :
  re_search_braces eval_result = Some span ->
  json_loads span = LoadsOk m ->
  In name ["accuracy"; "guidance"; "clarity"] ->
  as_number (dict_get m name (JNumber 0.5)) = Raise e ->
  exists e',
    exn_class e' = TypeError
    /\ judge_text format_flag eval_result
       = (0.5, mkMetrics format_flag 0.5 (JString (exn_str e'))).
Proof.
  intros Hspan Hloads Hname Hraise.
  unfold judge_text. rewrite Hspan, Hloads. unfold score_metrics, neutral.
  destruct (as_number (dict_get m "accuracy" (JNumber 0.5)))
    as [accuracy|e1] eqn:E1;
    [|exists e1; split; [exact (as_number_raises _ E1) | reflexivity]].
  destruct (as_number (dict_get m "guidance" (JNumber 0.5)))
    as [guidance|e2] eqn:E2;
    [|exists e2; split; [exact (as_number_raises _ E2) | reflexivity]].
  destruct (as_number (dict_get m "clarity" (JNumber 0.5)))
    as [clarity|e3] eqn:E3;
    [|exists e3; split; [exact (as_number_raises _ E3) | reflexivity]].
  exfalso. destruct Hname as [<-|[<-|[<-|[]]]]; congruence.
Qed.

Lemma non_numeric_metric_scores_half_witness :
  exists reason,
    judge_text (lib := ascii_text) true
      (grader_json (quoted "0.9") "0.8" "0.7")
    = (0.5, mkMetrics true 0.5 (JString reason)).
Proof.
  destruct (@non_numeric_metric_scores_half ascii_text true
              (grader_json (quoted "0.9") "0.8" "0.7")
              (grader_json (quoted "0.9") "0.8" "0.7")
              [("clarity", JNumber 0.7); ("guidance", JNumber 0.8);
               ("accuracy", JString "0.9")]
              "accuracy"
              (PyExn TypeError
                 "can't multiply sequence by non-int of type 'float'"))
    as (e' & _ & Hjudge).
  - vm_compute. reflexivity.
  - vm_compute. reflexivity.
  - left. reflexivity.
  - reflexivity.
  - exists (exn_str e'). exact Hjudge.
Defined.

(* ================================================================== *)
(** ** The seed prompts *)

Lemma search_brackets_starts s span :
  search_brackets s = Some span -> exists rest, span = String "[" rest.
Proof.
  induction s as [|c r IH]; cbn [search_brackets]; [discriminate|].
  destruct (Ascii.eqb_spec c "[") as [->|_]; [|exact IH].
  destruct (upto_last_close r) as [t|]; [|exact IH].
  intros E. injection E as <-. now exists t.
Qed.

Lemma all_previews_pass items :
  existsb preview_raises items = false ->
  exists prompts, items = map JString prompts.
Proof.
  induction items as [|item items IH]; cbn [existsb]; intros H.
  - now exists [].
  - apply orb_false_iff in H. destruct H as [Hitem Hrest].
    destruct (IH Hrest) as [prompts ->].
    destruct item as [| | |s| |]; try discriminate Hitem.
    now exists (s :: prompts).
Qed.

Lemma some_preview_raises items item :
  In item items -> preview_raises item = true ->
  existsb preview_raises items = true.
Proof. intros Hin Hitem. apply existsb_exists. now exists item. Qed.

Section SeedPromptsProperties.

Context {J : PyJson}.
Variable llm : llm_service.

(** X25.  [generate_seed_prompts] calls the model once and always
    returns a list of strings: no failure of the call, of the search for
    the array or of the decoding escapes it, and a decoded value never
    comes back with an element that is not a string. *)
Theorem seed_prompts_are_strings (num_seeds : Z) (k : nat) :
  brackets_hold_arrays J ->
  exists prompts : list string,
    generate_seed_prompts llm num_seeds k
    = (JArray (map JString prompts), S k).
Proof.
  intros Harrays. unfold generate_seed_prompts, bind, invoke, ret.
  assert (Hnone : exists prompts : list string,
            JArray [] = JArray (map JString prompts)) by now exists [].
  destruct (llm k [Msg "user" (generation_prompt num_seeds)])
    as [e|response].
  - destruct Hnone as [prompts ->]. now exists prompts.
  - destruct (truthy response);
      [|destruct Hnone as [prompts ->]; now exists prompts].
    destruct (search_brackets (text_of response)) as [span|] eqn:Espan;
      [|destruct Hnone as [prompts ->]; now exists prompts].
    destruct (search_brackets_starts _ Espan) as [rest ->].
    destruct (json_loads_value (String "[" rest)) as [v| |e] eqn:Ev;
      try (destruct Hnone as [prompts ->]; now exists prompts).
    destruct (Harrays rest v Ev) as [items ->].
    cbn [previews_raise].
    destruct (existsb preview_raises items) eqn:Eitems;
      [destruct Hnone as [prompts ->]; now exists prompts|].
    destruct (all_previews_pass _ Eitems) as [prompts ->].
    now exists prompts.
Qed.

(** X26.  The prompts are kept all or none: when the span between the
    first opening and the last closing bracket of the reply decodes to a
    list, the list is returned as it is if every element is a string, and
    a single element that is not a string makes the result the empty
    list. *)
Theorem one_bad_seed_discards_all (num_seeds : Z) (k : nat)
  (text span : string) (items : list json) :
  llm k [Msg "user" (generation_prompt num_seeds)] = Returns (Some text) ->
  text <> EmptyString ->
  search_brackets text = Some span ->
  json_loads_value span = ValueOk (JArray items) ->
  ((forall item, In item items -> exists s, item = JString s) ->
   fst (generate_seed_prompts llm num_seeds k) = JArray items)
  /\ ((exists item, In item items /\ forall s, item <> JString s) ->
      fst (generate_seed_prompts llm num_seeds k) = JArray []).
Proof.
  intros Hreply Htext Hspan Hloads.
  unfold generate_seed_prompts, bind, invoke, ret. rewrite Hreply.
  assert (Htruthy : truthy (Some text) = true).
  { unfold truthy. destruct (String.eqb_spec text EmptyString);
      [contradiction | reflexivity]. }
  rewrite Htruthy. cbn [text_of fst]. rewrite Hspan, Hloads.
  cbn [previews_raise]. split.
  - intros Hall.
    destruct (existsb preview_raises items) eqn:E; [|reflexivity].
    apply existsb_exists in E. destruct E as (item & Hin & Hraises).
    destruct (Hall item Hin) as [s ->]. discriminate Hraises.
  - intros (item & Hin & Hbad).
    rewrite (@some_preview_raises items item Hin); [reflexivity|].
    destruct item as [| | |s| |]; try reflexivity.
    now destruct (Hbad s).
Qed.

End SeedPromptsProperties.

(** The reader of [AsciiText] keeps the promise of the library. *)
Lemma ascii_json_arrays : brackets_hold_arrays ascii_json.
Proof.
  intros rest v. cbn [json_loads_value ascii_json].
  unfold AsciiJson.loads_value.
  change (AsciiText.skip_space (String "[" rest)) with (String "[" rest).
  set (fuel := String.length (String "[" rest)).
  cbn [AsciiText.parse_value].
  change (Ascii.eqb "[" AsciiText.dquote_char) with false.
  change (Ascii.eqb "[" "[") with true. cbv iota.
  match goal with
  | |- context [?F (String.length EmptyString) EmptyString (@nil json)] =>
      set (items := F);
      assert (Hitems : forall n s acc v0 rest0,
                items n s acc = Some (v0, rest0) -> exists l, v0 = JArray l)
  end.
  { induction n as [|n IH]; intros s acc v0 rest0; [discriminate|].
    subst items. cbn beta iota. fold fuel.
    destruct (AsciiText.parse_value fuel s) as [[v1 s']|]; [|discriminate].
    destruct (AsciiText.skip_space s') as [|c s'']; [discriminate|].
    destruct c as [[] [] [] [] [] [] [] []]; try discriminate;
      try (apply IH);
      intros E; injection E as <- _; eexists; reflexivity. }
  assert (Hvalue : forall t v0 rest0,
            t = Some (v0, rest0) ->
            (exists l, v0 = JArray l) ->
            match t with
            | Some (v1, rest1) =>
                match AsciiText.skip_space rest1 with
                | EmptyString => ValueOk v1
                | String _ _ => ValueDecodeError
                end
            | None => ValueDecodeError
            end = ValueOk v ->
            exists l, v = JArray l).
  { intros t v0 rest0 -> [l ->].
    destruct (AsciiText.skip_space rest0); [|discriminate].
    intros E. injection E as <-. now exists l. }
  destruct (AsciiText.skip_space rest) as [|c first] eqn:Efirst.
  - destruct (items (String.length EmptyString) EmptyString [])
      as [[v0 rest0]|] eqn:Et; [|discriminate].
    apply (Hvalue _ v0 rest0 eq_refl). exact (Hitems _ _ _ _ _ Et).
  - destruct c as [[] [] [] [] [] [] [] []];
      try (destruct (items (String.length _) _ []) as [[v0 rest0]|] eqn:Et;
           [apply (Hvalue _ v0 rest0 eq_refl); exact (Hitems _ _ _ _ _ Et)
           |discriminate]).
    apply (Hvalue _ (JArray []) first eq_refl). now exists [].
Qed.

Lemma map_JString_inj (l m : list string) :
  map JString l = map JString m -> l = m.
Proof.
  revert m. induction l as [|x l IH]; intros [|y m] E;
    try discriminate E; [reflexivity|].
  cbn [map] in E. injection E as -> E. f_equal. now apply IH.
Qed.

Lemma seed_prompts_are_strings_witness :
  exists prompts,
    generate_seed_prompts (scripted [says fenced_reply]) 6 0%nat
    = (JArray (map JString prompts), 1%nat)
    /\ prompts = two_seeds.
Proof.
  destruct (@seed_prompts_are_strings ascii_json
              (scripted [says fenced_reply]) 6%Z 0%nat ascii_json_arrays)
    as [prompts Hprompts].
  exists prompts. split; [exact Hprompts|].
  assert (H : generate_seed_prompts (scripted [says fenced_reply]) 6 0%nat
              = (JArray (map JString two_seeds), 1%nat))
    by (vm_compute; reflexivity).
  rewrite H in Hprompts. injection Hprompts as Hprompts.
  symmetry. now apply map_JString_inj.
Defined.

Lemma one_bad_seed_discards_all_witness :
  fst (generate_seed_prompts (scripted [says mixed_reply]) 6 0%nat)
  = JArray [].
Proof.
  apply (@one_bad_seed_discards_all ascii_json (scripted [says mixed_reply])
           6%Z 0%nat mixed_reply mixed_reply mixed_span_items).
  - reflexivity.
  - discriminate.
  - vm_compute. reflexivity.
  - vm_compute. reflexivity.
  - exists (JNumber 2). split; [right; left; reflexivity | discriminate].
Defined.
